(** * The agent while-loop of [src/agent.py], with the tool contract of
    [src/tools.py]: a shallow embedding and its properties.

    Python values are embedded as [pyval]; a call that may raise returns an
    [outcome]; the chat-completion client and the decoder applied to the
    model-written tool arguments are external and appear as parameters of the
    agent.  The braintrust spans ([start_span], [span.log]) are telemetry
    with no influence on control flow and are left out, except for the
    metrics logged by [run], which are part of its result.

    Limits of the interpreter other than the digit limit of the conversion
    between [int] and [str] (the recursion limit, memory, an interrupt
    arriving between two instructions) are not modelled. *)

From Stdlib Require Import ZArith List String Ascii Bool Lia QArith.
From Stdlib Require Import DecimalString DecimalZ DecimalFacts SpecFloat.
Import ListNotations.

Set Warnings "-register-all".

Local Open Scope string_scope.
Local Open Scope Z_scope.

(** ** Exceptions and outcomes *)

(** A raised Python exception: its class name, what [str(e)] gives, and
    whether its class derives from [Exception].  [KeyboardInterrupt],
    [SystemExit], [GeneratorExit] and [asyncio.CancelledError] derive from
    [BaseException] only, and [except Exception] does not catch them. *)
Record PyExc : Type := mkPyExc {
  exc_type : string;
  exc_str : string;
  is_Exception : bool
}.

(** An exception of a class derived from [Exception]. *)
Definition mkExc (t s : string) : PyExc :=
  {| exc_type := t; exc_str := s; is_Exception := true |}.

Inductive outcome (A : Type) : Type :=
| Returned (a : A)
| Raised (e : PyExc).
Arguments Returned {A} a.
Arguments Raised {A} e.

Definition bind {A B : Type} (m : outcome A) (k : A -> outcome B) : outcome B :=
  match m with
  | Returned a => k a
  | Raised e => Raised e
  end.

Notation "x <- m ;; k" := (bind m (fun x => k))
  (at level 61, m at next level, right associativity).

(** [try: body] followed by [except Exception as e: handler(e)]: an
    exception outside [Exception] passes through. *)
Definition try_except {A : Type} (body : outcome A)
           (handler : PyExc -> outcome A) : outcome A :=
  match body with
  | Returned a => Returned a
  | Raised e => if is_Exception e then handler e else Raised e
  end.

(** ** Python values *)

(** A [float] is an IEEE 754 double, a [spec_float] with 53 bits of
    precision.  [PyObject] stands for any object the JSON encoder has no
    case for (a set, a datetime, a class instance); its argument is the
    type name.  A [str] is a sequence of characters with codes 0..255.  A
    [PyDict] lists its items in insertion order, and its keys are [str]:
    the dicts this program builds and the ones [json.loads] returns have no
    other keys. *)
Inductive pyval : Type :=
| PyNone
| PyBool (b : bool)
| PyInt (z : Z)
| PyStr (s : string)
| PyList (l : list pyval)
| PyDict (items : list (string * pyval))
| PyObject (type_name : string)
| PyFloat (f : spec_float)
| PyTuple (l : list pyval).

(** Truthiness of the values the loop tests. *)
Definition str_truthy (s : string) : bool :=
  match s with EmptyString => false | String _ _ => true end.

(** ** Dictionaries with string keys, in insertion order *)

Section Dict.
Context {V : Type}.

Fixpoint dict_get (d : list (string * V)) (k : string) : option V :=
  match d with
  | [] => None
  | (k', v) :: d' => if String.eqb k' k then Some v else dict_get d' k
  end.

Definition dict_contains (d : list (string * V)) (k : string) : bool :=
  match dict_get d k with Some _ => true | None => false end.

(** [d[k] = v]: an existing key keeps its position and takes the new
    value, a new key goes to the end. *)
Fixpoint dict_set (d : list (string * V)) (k : string) (v : V)
  : list (string * V) :=
  match d with
  | [] => [(k, v)]
  | (k', v') :: d' =>
      if String.eqb k' k then (k', v) :: d' else (k', v') :: dict_set d' k v
  end.

(** [dict(pairs)] and the dict comprehension. *)
Definition dict_of_pairs (pairs : list (string * V)) : list (string * V) :=
  fold_left (fun d kv => dict_set d (fst kv) (snd kv)) pairs [].

Definition dict_values (d : list (string * V)) : list V := map snd d.
Definition dict_keys (d : list (string * V)) : list string := map fst d.
End Dict.

(** ** [str(int)] *)

Definition str_of_int (z : Z) : string :=
  NilZero.string_of_int (Z.to_int z).

(** The conversions between [int] and [str] refuse more than
    [sys.int_max_str_digits] digits, 4300 unless the interpreter is
    configured otherwise. *)
Definition int_max_str_digits : nat := 4300.

Definition int_digits (z : Z) : nat := String.length (str_of_int (Z.abs z)).

Definition within_digit_limit (z : Z) : bool :=
  (int_digits z <=? int_max_str_digits)%nat.

Definition int_str_error : PyExc :=
  mkExc "ValueError"
        "Exceeds the limit (4300 digits) for integer string conversion; use sys.set_int_max_str_digits() to increase the limit".

(** [str(z)], [repr(z)] and the formatting of [z] in an f-string. *)
Definition int_str (z : Z) : outcome string :=
  if within_digit_limit z then Returned (str_of_int z)
  else Raised int_str_error.

(** ** Floats

    The conversions between a double and its decimal text are those of the
    interpreter: [float()] gives the double nearest to the decimal, ties to
    even, and [float.__repr__] the shortest decimal that reads back as the
    double. *)

Definition is_char (c : ascii) (n : N) : bool := (N_of_ascii c =? n)%N.

Definition float_eqb (a b : spec_float) : bool :=
  match a, b with
  | S754_zero s, S754_zero s' => Bool.eqb s s'
  | S754_infinity s, S754_infinity s' => Bool.eqb s s'
  | S754_nan, S754_nan => true
  | S754_finite s m e, S754_finite s' m' e' =>
      Bool.eqb s s' && Pos.eqb m m' && Z.eqb e e'
  | _, _ => false
  end.

(** The double nearest to [m * 10^k], for [m >= 0]. *)
Definition float_of_decimal (negative : bool) (m k : Z) : spec_float :=
  match m with
  | Zpos p =>
      if 0 <=? k
      then binary_round 53 1024 negative (Z.to_pos (Zpos p * 10 ^ k)) 0
      else
        let '(mz, ez, lz) :=
          SFdiv_core_binary 53 1024 (Zpos p) 0 (10 ^ (- k)) 0 in
        binary_round_aux 53 1024 negative mz ez lz
  | _ => S754_zero negative
  end.

(** The number of decimal digits of a positive integer. *)
Definition digits10 (z : Z) : Z := Z.of_nat (String.length (str_of_int z)).

(** [floor (num / den * 10^s)], and whether what is cut off is below, at
    or above one half. *)
Definition scaled (num den s : Z) : Z * comparison :=
  let n := if 0 <=? s then num * 10 ^ s else num in
  let d := if 0 <=? s then den else den * 10 ^ (- s) in
  (n / d, (2 * (n mod d)) ?= d).

(** The position of the decimal point of [num / den]: the [d] with
    [10^(d-1) <= num / den < 10^d]. *)
Definition decimal_point (num den : Z) : Z :=
  let d0 := digits10 num - digits10 den in
  let reaches :=
    if 0 <=? d0 then den * 10 ^ d0 <=? num else den <=? num * 10 ^ (- d0) in
  if reaches then d0 + 1 else d0.

(** The decimal of [n] significant digits that reads back as the double
    [m * 2^e], if there is one: of the two decimals of [n] digits around
    the double the one that reads back, the nearer one if both do, the even
    one on a tie.  The result is the integer of the digits and the power of
    ten it is scaled by. *)
Definition shortest_candidate (m : positive) (e : Z) (n : Z)
  : option (Z * Z) :=
  let num := if 0 <=? e then Zpos m * 2 ^ e else Zpos m in
  let den := if 0 <=? e then 1 else 2 ^ (- e) in
  let s := n - decimal_point num den in
  let '(lo, half) := scaled num den s in
  let reads c := float_eqb (float_of_decimal false c (- s))
                           (S754_finite false m e) in
  match reads lo, reads (lo + 1) with
  | true, true =>
      match half with
      | Lt => Some (lo, - s)
      | Gt => Some (lo + 1, - s)
      | Eq => Some (if Z.even lo then lo else lo + 1, - s)
      end
  | true, false => Some (lo, - s)
  | false, true => Some (lo + 1, - s)
  | false, false => None
  end.

(** The shortest digits, tried from [n] digits on; after [tries] lengths
    the nearest decimal of the next length is taken, which for a double is
    the one of 17 digits. *)
Fixpoint shortest_digits (m : positive) (e : Z) (n : Z) (tries : nat)
  : Z * Z :=
  match tries with
  | O =>
      let num := if 0 <=? e then Zpos m * 2 ^ e else Zpos m in
      let den := if 0 <=? e then 1 else 2 ^ (- e) in
      let s := n - decimal_point num den in
      let '(lo, half) := scaled num den s in
      (match half with
       | Lt => lo
       | Gt => lo + 1
       | Eq => if Z.even lo then lo else lo + 1
       end, - s)
  | S tries' =>
      match shortest_candidate m e n with
      | Some r => r
      | None => shortest_digits m e (n + 1) tries'
      end
  end.

Fixpoint strip_zeros (s : string) : string :=
  match s with
  | EmptyString => EmptyString
  | String c r =>
      match strip_zeros r with
      | EmptyString =>
          if is_char c 48 then EmptyString else String c EmptyString
      | r' => String c r'
      end
  end.

Fixpoint zeros (n : nat) : string :=
  match n with O => EmptyString | S n' => String "0" (zeros n') end.

Fixpoint take (n : nat) (s : string) : string :=
  match n, s with
  | S n', String c r => String c (take n' r)
  | _, _ => EmptyString
  end.

Fixpoint drop (n : nat) (s : string) : string :=
  match n, s with
  | S n', String c r => drop n' r
  | _, _ => s
  end.

(** The text of a positive finite double with digits [ds] and decimal
    point at [dp] (the value is [0.ds * 10^dp]): plain notation for
    [-4 < dp <= 16], otherwise the exponent, of at least two digits. *)
Definition format_digits (ds : string) (dp : Z) : string :=
  let n := Z.of_nat (String.length ds) in
  if (dp <=? -4) || (16 <? dp) then
    let x := dp - 1 in
    take 1 ds
      ++ (match drop 1 ds with
          | EmptyString => EmptyString
          | more => "." ++ more
          end)
      ++ "e" ++ (if x <? 0 then "-" else "+")
      ++ (if Z.abs x <? 10 then "0" else EmptyString)
      ++ str_of_int (Z.abs x)
  else if dp <=? 0 then "0." ++ zeros (Z.to_nat (- dp)) ++ ds
  else if n <=? dp then ds ++ zeros (Z.to_nat (dp - n)) ++ ".0"
  else take (Z.to_nat dp) ds ++ "." ++ drop (Z.to_nat dp) ds.

(** [float.__repr__], which is also [str] of a float. *)
Definition float_repr (f : spec_float) : string :=
  match f with
  | S754_nan => "nan"
  | S754_infinity false => "inf"
  | S754_infinity true => "-inf"
  | S754_zero false => "0.0"
  | S754_zero true => "-0.0"
  | S754_finite s m e =>
      let '(c, k) := shortest_digits m e 1 16 in
      let all := str_of_int c in
      (if s then "-" else EmptyString)
        ++ format_digits (strip_zeros all)
                         (Z.of_nat (String.length all) + k)
  end.

(** ** [json.dumps] with its defaults

    [ensure_ascii=True], [allow_nan=True], separators [", "] and [": "],
    no indentation. *)

Definition dquote : ascii := "034"%char.
Definition backslash : ascii := "092"%char.

Definition hex_digit (n : N) : ascii :=
  if (n <? 10)%N then ascii_of_N (48 + n) else ascii_of_N (87 + n).

(** The replacement of one character by [py_encode_basestring_ascii]:
    the short escapes, the character itself between space and tilde, and
    [\u00XX] for everything else. *)
Definition escape_char (c : ascii) : string :=
  let n := N_of_ascii c in
  if (n =? 34)%N then String backslash (String dquote EmptyString)
  else if (n =? 92)%N then String backslash (String backslash EmptyString)
  else if (n =? 10)%N then String backslash "n"
  else if (n =? 13)%N then String backslash "r"
  else if (n =? 9)%N then String backslash "t"
  else if (n =? 12)%N then String backslash "f"
  else if (n =? 8)%N then String backslash "b"
  else if ((32 <=? n) && (n <=? 126))%N then String c EmptyString
  else String backslash
         (String "u" (String "0" (String "0"
            (String (hex_digit (n / 16)) (String (hex_digit (n mod 16)) EmptyString))))).

Fixpoint escape_body (s : string) : string :=
  match s with
  | EmptyString => EmptyString
  | String c r => escape_char c ++ escape_body r
  end.

Definition encode_str (s : string) : string :=
  String dquote (escape_body s ++ String dquote EmptyString).

(** Items of a list or dict body, joined by [", "]. *)
Fixpoint join_items (items : list string) : string :=
  match items with
  | [] => EmptyString
  | [x] => x
  | x :: rest => x ++ ", " ++ join_items rest
  end.

(** The text of a float: [float.__repr__], and the JavaScript names of
    the values that are no numbers of JSON. *)
Definition float_json (f : spec_float) : string :=
  match f with
  | S754_nan => "NaN"
  | S754_infinity false => "Infinity"
  | S754_infinity true => "-Infinity"
  | _ => float_repr f
  end.

(** [None] of the option is an exception of the encoder: the [TypeError]
    "Object of type ... is not JSON serializable", or the [ValueError] of
    an [int] beyond the digit limit. *)
Fixpoint sequence_opt {A : Type} (l : list (option A)) : option (list A) :=
  match l with
  | [] => Some []
  | None :: _ => None
  | Some a :: r =>
      match sequence_opt r with Some r' => Some (a :: r') | None => None end
  end.

Fixpoint encode (v : pyval) : option string :=
  match v with
  | PyNone => Some "null"
  | PyBool true => Some "true"
  | PyBool false => Some "false"
  | PyInt z => if within_digit_limit z then Some (str_of_int z) else None
  | PyFloat f => Some (float_json f)
  | PyStr s => Some (encode_str s)
  | PyList l =>
      match sequence_opt (map encode l) with
      | Some parts => Some ("[" ++ join_items parts ++ "]")
      | None => None
      end
  | PyTuple l =>
      match sequence_opt (map encode l) with
      | Some parts => Some ("[" ++ join_items parts ++ "]")
      | None => None
      end
  | PyDict items =>
      match sequence_opt
              (map (fun kv =>
                      match encode (snd kv) with
                      | Some e => Some (encode_str (fst kv) ++ ": " ++ e)
                      | None => None
                      end) items) with
      | Some parts => Some ("{" ++ join_items parts ++ "}")
      | None => None
      end
  | PyObject _ => None
  end.

Definition not_serializable (type_name : string) : PyExc :=
  mkExc "TypeError"
        ("Object of type " ++ type_name ++ " is not JSON serializable").

(** The exception of the first value, in the order of the traversal, that
    the encoder refuses. *)
Fixpoint first_unserializable (v : pyval) : option PyExc :=
  match v with
  | PyObject t => Some (not_serializable t)
  | PyInt z => if within_digit_limit z then None else Some int_str_error
  | PyList l =>
      fold_right (fun x acc =>
                    match first_unserializable x with
                    | Some e => Some e
                    | None => acc
                    end) None l
  | PyTuple l =>
      fold_right (fun x acc =>
                    match first_unserializable x with
                    | Some e => Some e
                    | None => acc
                    end) None l
  | PyDict items =>
      fold_right (fun kv acc =>
                    match first_unserializable (snd kv) with
                    | Some e => Some e
                    | None => acc
                    end) None items
  | _ => None
  end.

Definition json_dumps (v : pyval) : outcome string :=
  match encode v with
  | Some s => Returned s
  | None =>
      Raised (match first_unserializable v with
              | Some e => e
              | None => not_serializable "object"
              end)
  end.

(** Whether [json.dumps] accepts a value. *)
Definition serializable (v : pyval) : bool :=
  match encode v with Some _ => true | None => false end.

(** ** The tool contract ([src/tools.py]) *)

(** [ToolResult], a [TypedDict] with the keys [success], [message], [data]. *)
Record ToolResult : Type := mkToolResult {
  success : bool;
  message : string;
  data : pyval
}.

(** The dict a [ToolResult] is at run time, keys in the order the source
    writes them. *)
Definition ToolResult_dict (r : ToolResult) : pyval :=
  PyDict [("success", PyBool (success r));
          ("message", PyStr (message r));
          ("data", data r)].

(** A [Tool]: the three abstract properties and [execute] on keyword arguments. *)
Record Tool : Type := mkTool {
  name : string;
  description : string;
  parameters : pyval;
  execute : list (string * pyval) -> outcome ToolResult
}.

Definition to_function_schema (t : Tool) : pyval :=
  PyDict [("name", PyStr (name t));
          ("description", PyStr (description t));
          ("parameters", parameters t)].

(** ** Messages *)

(** [tool_call.function] with its [name] and [arguments], and a tool call
    with its [id]. *)
Record Function : Type := mkFunction {
  fn_name : string;
  arguments : string
}.

Record ToolCall : Type := mkToolCall {
  call_id : string;
  function : Function
}.

(** The [content] of an assistant message: [None], a string, or a list of
    dict-like parts. *)
Inductive Content : Type :=
| ContentNone
| ContentStr (s : string)
| ContentParts (parts : list (list (string * pyval))).

(** The message object of [response.choices[0].message], a
    [ChatCompletionMessage] of the client library; its [role] attribute is
    the constant ["assistant"] and is not stored. *)
Record ChatCompletionMessage : Type := mkMessage {
  content : Content;
  tool_calls : option (list ToolCall)
}.

(** An entry of [messages]: a plain dict (system, user and tool turns) or
    the message object the client returned. *)
Inductive Message : Type :=
| MsgDict (d : list (string * pyval))
| MsgObj (m : ChatCompletionMessage).

Definition content_truthy (c : Content) : bool :=
  match c with
  | ContentNone => false
  | ContentStr s => str_truthy s
  | ContentParts [] => false
  | ContentParts (_ :: _) => true
  end.

(** [message.tool_calls and len(message.tool_calls) > 0] *)
Definition tool_calls_truthy (tc : option (list ToolCall)) : bool :=
  match tc with
  | None => false
  | Some [] => false
  | Some (_ :: _) => true
  end.

Definition AttributeError (attr : string) : PyExc :=
  mkExc "AttributeError" ("'dict' object has no attribute '" ++ attr ++ "'").

(** Attribute access [m.role] and [m.content] on an entry of [messages]:
    a dict has no such attributes. *)
Definition get_role (m : Message) : outcome string :=
  match m with
  | MsgObj _ => Returned "assistant"
  | MsgDict _ => Raised (AttributeError "role")
  end.

Definition get_content (m : Message) : outcome Content :=
  match m with
  | MsgObj o => Returned (content o)
  | MsgDict _ => Raised (AttributeError "content")
  end.

(** The text a part contributes to [str.join]: its ["text"] entry, or the
    empty string when it has none.  The text of the [TypeError] is
    abridged: the interpreter adds the index of the item and the type it
    found. *)
Definition part_text (part : list (string * pyval)) : outcome string :=
  match dict_get part "text" with
  | None => Returned EmptyString
  | Some (PyStr s) => Returned s
  | Some _ =>
      Raised (mkExc "TypeError" "sequence item: expected str instance")
  end.

Fixpoint join_parts (parts : list (list (string * pyval))) : outcome string :=
  match parts with
  | [] => Returned EmptyString
  | p :: rest =>
      s <- part_text p ;;
      r <- join_parts rest ;;
      Returned (s ++ r)
  end.

(** ** Configuration, client request, hooks *)

Record AgentOptions : Type := mkOptions {
  model : string;
  max_iterations : Z;
  system_prompt : string;
  temperature : Q
}.

Definition default_options : AgentOptions :=
  {| model := "gpt-4"; max_iterations := 10; system_prompt := EmptyString;
     temperature := (1 # 10)%Q |}.

(** The keyword arguments of [client.chat.completions.create]. *)
Record Request : Type := mkRequest {
  req_model : string;
  req_messages : list Message;
  req_tools : list pyval;
  req_temperature : Q
}.

(** [hooks]: the object whose [metadata] dict [run] writes into. *)
Record Hooks : Type := mkHooks {
  metadata : list (string * pyval)
}.

(** What a returning [run] leaves behind: the returned text, the hooks, and
    the [metrics] logged on the current span. *)
Record RunResult : Type := mkRunResult {
  output : string;
  hooks_after : Hooks;
  metrics : list (string * Z)
}.

(** The local variables of the while loop. *)
Record LoopState : Type := mkLoopState {
  messages : list Message;
  iteration : Z;
  done : bool;
  tools_used : list string
}.

(** ** [AgentWhileLoop] *)

Record AgentWhileLoop : Type := mkAgent {
  tools : list (string * Tool);
  options : AgentOptions
}.

(** [__init__]: [self.tools = {tool.name: tool for tool in tools}]. *)
Definition init (tool_list : list Tool) (opts : AgentOptions) : AgentWhileLoop :=
  {| tools := dict_of_pairs (map (fun t => (name t, t)) tool_list);
     options := opts |}.

Section Agent.

(** [json.loads] as applied to the arguments the model wrote, and
    [self.client.chat.completions.create(...)] followed by
    [.choices[0].message]: both are external to the loop.  Dispatch depends
    on the decoder only through whether it returns or raises, so it is kept
    generic; [json_loads] below is the instance used in the scenarios. *)
Variable loads : string -> outcome pyval.
Variable create : Request -> outcome ChatCompletionMessage.

Variable self : AgentWhileLoop.

(** [functions], the schemas advertised to the model. *)
Definition functions : list pyval :=
  map to_function_schema (dict_values (tools self)).

Definition _get_llm_response (msgs : list Message)
  : outcome ChatCompletionMessage :=
  create {| req_model := model (options self);
            req_messages := msgs;
            req_tools :=
              map (fun func => PyDict [("type", PyStr "function");
                                       ("function", func)]) functions;
            req_temperature := temperature (options self) |}.

(** [tool.execute( **arguments )]: the double star needs a mapping.  The
    text of the [TypeError] is abridged: the interpreter puts the name of
    the callable before it and the type it found after it. *)
Definition execute_kwargs (t : Tool) (args : pyval) : outcome ToolResult :=
  match args with
  | PyDict kw => execute t kw
  | _ => Raised (mkExc "TypeError" "argument after ** must be a mapping")
  end.

(** The body of the [try] block. *)
Definition try_execute (t : Tool) (tool_call : ToolCall)
  : outcome ToolResult :=
  args <- loads (arguments (function tool_call)) ;;
  execute_kwargs t args.

Definition unknown_tool_result (tool_name : string) : ToolResult :=
  {| success := false;
     message := "Unknown tool: " ++ tool_name;
     data := PyNone |}.

Definition error_result (tool_name : string) (e : PyExc) : ToolResult :=
  {| success := false;
     message := "Error executing " ++ tool_name ++ ": " ++ exc_str e;
     data := PyNone |}.

Definition _execute_tool (tool_call : ToolCall) : outcome ToolResult :=
  let tool_name := fn_name (function tool_call) in
  match dict_get (tools self) tool_name with
  | None => Returned (unknown_tool_result tool_name)
  | Some t =>
      try_except (try_execute t tool_call)
                 (fun e => Returned (error_result tool_name e))
  end.

Definition tool_message (tool_call : ToolCall) (c : string) : Message :=
  MsgDict [("role", PyStr "tool");
           ("tool_call_id", PyStr (call_id tool_call));
           ("content", PyStr c)].

(** One round of [for tool_call in message.tool_calls]. *)
Definition tool_turn (tool_call : ToolCall) (st : LoopState)
  : outcome LoopState :=
  tool_result <- _execute_tool tool_call ;;
  let used := (tools_used st ++ [fn_name (function tool_call)])%list in
  c <- json_dumps (ToolResult_dict tool_result) ;;
  Returned {| messages := (messages st ++ [tool_message tool_call c])%list;
              iteration := iteration st;
              done := done st;
              tools_used := used |}.

Fixpoint for_tool_calls (calls : list ToolCall) (st : LoopState)
  : outcome LoopState :=
  match calls with
  | [] => Returned st
  | tool_call :: rest =>
      st' <- tool_turn tool_call st ;;
      for_tool_calls rest st'
  end.

Definition calls_of (tc : option (list ToolCall)) : list ToolCall :=
  match tc with Some l => l | None => [] end.

(** The body of the while loop. *)
Definition loop_body (st : LoopState) : outcome LoopState :=
  msg <- _get_llm_response (messages st) ;;
  let st1 := {| messages := (messages st ++ [MsgObj msg])%list;
                iteration := iteration st;
                done := done st;
                tools_used := tools_used st |} in
  st2 <- (if tool_calls_truthy (tool_calls msg)
          then for_tool_calls (calls_of (tool_calls msg)) st1
          else if content_truthy (content msg)
          then Returned {| messages := messages st1;
                           iteration := iteration st1;
                           done := true;
                           tools_used := tools_used st1 |}
          else Returned st1) ;;
  Returned {| messages := messages st2;
              iteration := iteration st2 + 1;
              done := done st2;
              tools_used := tools_used st2 |}.

Definition loop_guard (st : LoopState) : bool :=
  negb (done st) && (iteration st <? max_iterations (options self)).

(** [while not done and iteration < self.options.max_iterations]; the
    structural argument bounds the number of rounds, and [run_loop] gives
    it a value the guard never outlasts ([while_loop_exit]). *)
Fixpoint while_loop (rounds : nat) (st : LoopState) : outcome LoopState :=
  if loop_guard st then
    match rounds with
    | O => Returned st
    | S rounds' =>
        st' <- loop_body st ;;
        while_loop rounds' st'
    end
  else Returned st.

Definition initial_messages (query : string) : list Message :=
  ((if str_truthy (system_prompt (options self))
   then [MsgDict [("role", PyStr "system");
                  ("content", PyStr (system_prompt (options self)))]]
   else [])
    ++ [MsgDict [("role", PyStr "user"); ("content", PyStr query)]])%list.

Definition initial_state (query : string) : LoopState :=
  {| messages := initial_messages query;
     iteration := 0;
     done := false;
     tools_used := [] |}.

Definition run_loop (query : string) : outcome LoopState :=
  while_loop (Z.to_nat (max_iterations (options self)))
             (initial_state query).

Definition fallback_message : string :=
  "Agent reached maximum iterations ("
    ++ str_of_int (max_iterations (options self))
    ++ ") without completing the task.".

(** [messages[-1]] *)
Definition last_message (msgs : list Message) : outcome Message :=
  match rev msgs with
  | m :: _ => Returned m
  | [] => Raised (mkExc "IndexError" "list index out of range")
  end.

(** [last_message.role == "assistant" and last_message.content] *)
Definition is_answer (m : Message) : outcome bool :=
  r <- get_role m ;;
  if String.eqb r "assistant"
  then c <- get_content m ;; Returned (content_truthy c)
  else Returned false.

Definition answer_text (c : Content) : outcome string :=
  match c with
  | ContentStr s => Returned s
  | ContentParts parts => join_parts parts
  | ContentNone =>
      Raised (mkExc "TypeError" "'NoneType' object is not iterable")
  end.

(** The code after the while loop. *)
Definition finish (st : LoopState) (hooks : Hooks) : outcome RunResult :=
  m <- last_message (messages st) ;;
  answered <- is_answer m ;;
  if answered then
    c <- get_content m ;;
    text <- answer_text c ;;
    Returned {| output := text;
                hooks_after :=
                  {| metadata :=
                       dict_set (metadata hooks) "tools_used"
                                (PyList (map PyStr (tools_used st))) |};
                metrics := [("total_iterations", iteration st)] |}
  else
    Returned {| output := fallback_message;
                hooks_after := hooks;
                metrics := [("total_iterations", iteration st);
                            ("max_iterations_reached", 1)] |}.

Definition run (query : string) (hooks : Hooks) : outcome RunResult :=
  st <- run_loop query ;;
  finish st hooks.

End Agent.

(** ** [json.loads]

    The decoder of the standard library, as the C scanner of the
    interpreter works: whitespace between tokens, strict strings (no raw
    control character), the escapes of JSON, numbers made of an optional
    minus sign, an integer part without leading zeros, an optional
    fraction and an optional exponent, the constants [NaN], [Infinity] and
    [-Infinity], later duplicates of a key replacing earlier ones.  The decoder reads from left to right and stops at the first
    place it cannot go on.  The message of a decode error is abridged to
    its kind, without the position.

    A [\u] escape above [00ff] denotes a character a [str] of this model
    does not hold: at such an escape the model stops without a result. *)

(** Why the decoder stopped: a [JSONDecodeError], the [ValueError] of an
    integer of too many digits, a character outside the model, or the end
    of the rounds given to the recursion. *)
Inductive stop : Type :=
| Malformed
| DigitLimit (digits : nat)
| WideCharacter
| NoFuel.

Inductive parsed (A : Type) : Type :=
| Parsed (a : A) (rest : string)
| Stopped (why : stop).
Arguments Parsed {A} a rest.
Arguments Stopped {A} why.

Definition is_ws (c : ascii) : bool :=
  is_char c 32 || is_char c 9 || is_char c 10 || is_char c 13.

Fixpoint skip_ws (s : string) : string :=
  match s with
  | String c r => if is_ws c then skip_ws r else s
  | EmptyString => s
  end.

Fixpoint strip_prefix (p s : string) : option string :=
  match p, s with
  | EmptyString, _ => Some s
  | String a p', String b s' => if Ascii.eqb a b then strip_prefix p' s' else None
  | String _ _, EmptyString => None
  end.

Definition digit_of (c : ascii) : option (Decimal.uint -> Decimal.uint) :=
  let n := N_of_ascii c in
  if (n =? 48)%N then Some Decimal.D0
  else if (n =? 49)%N then Some Decimal.D1
  else if (n =? 50)%N then Some Decimal.D2
  else if (n =? 51)%N then Some Decimal.D3
  else if (n =? 52)%N then Some Decimal.D4
  else if (n =? 53)%N then Some Decimal.D5
  else if (n =? 54)%N then Some Decimal.D6
  else if (n =? 55)%N then Some Decimal.D7
  else if (n =? 56)%N then Some Decimal.D8
  else if (n =? 57)%N then Some Decimal.D9
  else None.

(** The longest run of digits at the start of a text. *)
Fixpoint scan_digits (s : string) : Decimal.uint * string :=
  match s with
  | EmptyString => (Decimal.Nil, s)
  | String c r =>
      match digit_of c with
      | Some d => let (u, rest) := scan_digits r in (d u, rest)
      | None => (Decimal.Nil, s)
      end
  end.

(** The integer part, a zero or a digit from 1 to 9 followed by digits:
    after a zero it is over. *)
Definition scan_integer (s : string) : option (Decimal.uint * string) :=
  match s with
  | EmptyString => None
  | String c r =>
      if is_char c 48 then Some (Decimal.D0 Decimal.Nil, r)
      else
        match digit_of c with
        | Some d => let (u, rest) := scan_digits r in Some (d u, rest)
        | None => None
        end
  end.

(** The fraction: a point and at least one digit. *)
Definition scan_fraction (s : string) : option (Decimal.uint * string) :=
  match s with
  | String c r =>
      if is_char c 46 then
        match scan_digits r with
        | (Decimal.Nil, _) => None
        | (u, rest) => Some (u, rest)
        end
      else None
  | EmptyString => None
  end.

(** The exponent: [e] or [E], an optional sign and at least one digit. *)
Definition scan_exponent (s : string) : option (Z * string) :=
  match s with
  | String c r =>
      if is_char c 101 || is_char c 69 then
        let (negative, r1) :=
          match r with
          | String sign r' =>
              if is_char sign 45 then (true, r')
              else if is_char sign 43 then (false, r')
              else (false, r)
          | EmptyString => (false, r)
          end in
        match scan_digits r1 with
        | (Decimal.Nil, _) => None
        | (u, rest) =>
            Some (if negative then - Z.of_uint u else Z.of_uint u, rest)
        end
      else None
  | EmptyString => None
  end.

(** [float(text)] for the text of a number with the digits [whole] before
    and [fraction] after the point and the exponent [exponent].  A value
    of [10^400] or more is an infinity and one below [10^-400] a zero
    whatever its digits are. *)
Definition float_of_literal (negative : bool) (whole fraction : Decimal.uint)
           (exponent : Z) : spec_float :=
  let m := Z.of_uint (Decimal.app whole fraction) in
  let k := exponent - Z.of_nat (Decimal.nb_digits fraction) in
  let n := Z.of_nat (Decimal.nb_digits whole + Decimal.nb_digits fraction) in
  if m =? 0 then S754_zero negative
  else if 400 <=? k then S754_infinity negative
  else if k + n <=? -400 then S754_zero negative
  else float_of_decimal negative m k.

(** The digits of a number after its sign: an [int] when the text has
    neither fraction nor exponent, a [float] otherwise. *)
Definition scan_unsigned (negative : bool) (s : string) : parsed pyval :=
  match scan_integer s with
  | None => Stopped Malformed
  | Some (whole, r1) =>
      match scan_fraction r1 with
      | Some (fraction, r2) =>
          match scan_exponent r2 with
          | Some (exponent, r3) =>
              Parsed (PyFloat (float_of_literal negative whole fraction
                                                exponent)) r3
          | None =>
              Parsed (PyFloat (float_of_literal negative whole fraction 0)) r2
          end
      | None =>
          match scan_exponent r1 with
          | Some (exponent, r3) =>
              Parsed (PyFloat (float_of_literal negative whole Decimal.Nil
                                                exponent)) r3
          | None =>
              if (Decimal.nb_digits whole <=? int_max_str_digits)%nat
              then Parsed (PyInt (Z.of_int (if negative
                                            then Decimal.Neg whole
                                            else Decimal.Pos whole))) r1
              else Stopped (DigitLimit (Decimal.nb_digits whole))
          end
      end
  end.

Definition scan_number (s : string) : parsed pyval :=
  match s with
  | String c r =>
      if is_char c 45 then scan_unsigned true r else scan_unsigned false s
  | EmptyString => Stopped Malformed
  end.

Definition hex_value (c : ascii) : option N :=
  let n := N_of_ascii c in
  if ((48 <=? n) && (n <=? 57))%N then Some (n - 48)%N
  else if ((97 <=? n) && (n <=? 102))%N then Some (n - 87)%N
  else if ((65 <=? n) && (n <=? 70))%N then Some (n - 55)%N
  else None.

(** The code of a [\uXXXX] escape. *)
Definition hex4 (h1 h2 h3 h4 : ascii) : option N :=
  match hex_value h1, hex_value h2, hex_value h3, hex_value h4 with
  | Some a, Some b, Some c, Some d =>
      Some (4096 * a + 256 * b + 16 * c + d)%N
  | _, _, _, _ => None
  end.

Definition unescape (c : ascii) : option ascii :=
  let n := N_of_ascii c in
  if (n =? 34)%N then Some dquote
  else if (n =? 92)%N then Some backslash
  else if (n =? 47)%N then Some "/"%char
  else if (n =? 98)%N then Some (ascii_of_N 8)
  else if (n =? 102)%N then Some (ascii_of_N 12)
  else if (n =? 110)%N then Some (ascii_of_N 10)
  else if (n =? 114)%N then Some (ascii_of_N 13)
  else if (n =? 116)%N then Some (ascii_of_N 9)
  else None.

Definition cons_char (c : ascii) (r : parsed string) : parsed string :=
  match r with
  | Parsed s rest => Parsed (String c s) rest
  | Stopped why => Stopped why
  end.

(** The characters of a string after its opening quote, up to the closing
    one. *)
Fixpoint scan_string (s : string) : parsed string :=
  match s with
  | EmptyString => Stopped Malformed
  | String c r =>
      if is_char c 34 then Parsed EmptyString r
      else if is_char c 92 then
        match r with
        | EmptyString => Stopped Malformed
        | String e r1 =>
            if is_char e 117 then
              match r1 with
              | String h1 (String h2 (String h3 (String h4 r2))) =>
                  match hex4 h1 h2 h3 h4 with
                  | Some code =>
                      if (code <? 256)%N
                      then cons_char (ascii_of_N code) (scan_string r2)
                      else Stopped WideCharacter
                  | None => Stopped Malformed
                  end
              | _ => Stopped Malformed
              end
            else
              match unescape e with
              | Some ch => cons_char ch (scan_string r1)
              | None => Stopped Malformed
              end
        end
      else if (N_of_ascii c <? 32)%N then Stopped Malformed
      else cons_char c (scan_string r)
  end.

(** A literal name and the value it stands for. *)
Definition scan_constant (name : string) (v : pyval) (s : string)
  : parsed pyval :=
  match strip_prefix name s with
  | Some rest => Parsed v rest
  | None => Stopped Malformed
  end.

Fixpoint parse_value (fuel : nat) (s : string) : parsed pyval :=
  match fuel with
  | O => Stopped NoFuel
  | S fuel' =>
      match s with
      | EmptyString => Stopped Malformed
      | String c r =>
          if is_char c 34 then
            match scan_string r with
            | Parsed str rest => Parsed (PyStr str) rest
            | Stopped why => Stopped why
            end
          else if is_char c 123 then
            match skip_ws r with
            | String c1 r1 =>
                if is_char c1 125 then Parsed (PyDict []) r1
                else
                  match parse_members fuel' (String c1 r1) with
                  | Parsed pairs rest =>
                      Parsed (PyDict (dict_of_pairs pairs)) rest
                  | Stopped why => Stopped why
                  end
            | EmptyString => Stopped Malformed
            end
          else if is_char c 91 then
            match skip_ws r with
            | String c1 r1 =>
                if is_char c1 93 then Parsed (PyList []) r1
                else
                  match parse_elements fuel' (String c1 r1) with
                  | Parsed vs rest => Parsed (PyList vs) rest
                  | Stopped why => Stopped why
                  end
            | EmptyString => Stopped Malformed
            end
          else if is_char c 110 then scan_constant "null" PyNone s
          else if is_char c 116 then scan_constant "true" (PyBool true) s
          else if is_char c 102 then scan_constant "false" (PyBool false) s
          else if is_char c 78 then scan_constant "NaN" (PyFloat S754_nan) s
          else if is_char c 73 then
            scan_constant "Infinity" (PyFloat (S754_infinity false)) s
          else
            match strip_prefix "-Infinity" s with
            | Some rest => Parsed (PyFloat (S754_infinity true)) rest
            | None => scan_number s
            end
      end
  end

with parse_elements (fuel : nat) (s : string) : parsed (list pyval) :=
  match fuel with
  | O => Stopped NoFuel
  | S fuel' =>
      match parse_value fuel' s with
      | Parsed v r =>
          match skip_ws r with
          | String c r1 =>
              if is_char c 44 then
                match parse_elements fuel' (skip_ws r1) with
                | Parsed vs rest => Parsed (v :: vs) rest
                | Stopped why => Stopped why
                end
              else if is_char c 93 then Parsed [v] r1
              else Stopped Malformed
          | EmptyString => Stopped Malformed
          end
      | Stopped why => Stopped why
      end
  end

with parse_members (fuel : nat) (s : string)
  : parsed (list (string * pyval)) :=
  match fuel with
  | O => Stopped NoFuel
  | S fuel' =>
      match s with
      | String q r =>
          if is_char q 34 then
            match scan_string r with
            | Parsed k r1 =>
                match skip_ws r1 with
                | String c r2 =>
                    if is_char c 58 then
                      match parse_value fuel' (skip_ws r2) with
                      | Parsed v r3 =>
                          match skip_ws r3 with
                          | String c' r4 =>
                              if is_char c' 44 then
                                match parse_members fuel' (skip_ws r4) with
                                | Parsed ms rest => Parsed ((k, v) :: ms) rest
                                | Stopped why => Stopped why
                                end
                              else if is_char c' 125 then Parsed [(k, v)] r4
                              else Stopped Malformed
                          | EmptyString => Stopped Malformed
                          end
                      | Stopped why => Stopped why
                      end
                    else Stopped Malformed
                | EmptyString => Stopped Malformed
                end
            | Stopped why => Stopped why
            end
          else Stopped Malformed
      | EmptyString => Stopped Malformed
      end
  end.

Definition JSONDecodeError (msg : string) : PyExc :=
  mkExc "JSONDecodeError" msg.

Definition int_conversion_error (digits : nat) : PyExc :=
  mkExc "ValueError"
        ("Exceeds the limit (4300 digits) for integer string conversion: value has "
           ++ str_of_int (Z.of_nat digits)
           ++ " digits; use sys.set_int_max_str_digits() to increase the limit").

(** [json.loads]; [None] for a document that leads outside the model.  The
    rounds given to the recursion are never used up
    ([json_loads_has_fuel]). *)
Definition json_loads (s : string) : option (outcome pyval) :=
  match parse_value (2 * String.length s + 1) (skip_ws s) with
  | Parsed v rest =>
      match skip_ws rest with
      | EmptyString => Some (Returned v)
      | String _ _ => Some (Raised (JSONDecodeError "Extra data"))
      end
  | Stopped Malformed => Some (Raised (JSONDecodeError "Expecting value"))
  | Stopped (DigitLimit digits) => Some (Raised (int_conversion_error digits))
  | Stopped WideCharacter => None
  | Stopped NoFuel => None
  end.

(** The decoder of the scenarios: [json.loads] on the documents the model
    covers, which are the only ones the scenarios contain. *)
Definition loads_covered (s : string) : outcome pyval :=
  match json_loads s with
  | Some result => result
  | None => Raised (mkExc "NotImplementedError" "document outside the model")
  end.

(** A dict has each key once; [well_formed] says so for every dict inside a
    value. *)
Fixpoint distinct_keys (keys : list string) : bool :=
  match keys with
  | [] => true
  | k :: rest =>
      negb (existsb (String.eqb k) rest) && distinct_keys rest
  end.

Fixpoint well_formed (v : pyval) : bool :=
  match v with
  | PyList l => forallb well_formed l
  | PyTuple l => forallb well_formed l
  | PyDict items =>
      distinct_keys (map fst items)
      && forallb (fun kv => well_formed (snd kv)) items
  | _ => true
  end.



(** ** [SearchUsersTool] of [src/tools.py] *)

Definition py_truthy (v : pyval) : bool :=
  match v with
  | PyNone => false
  | PyBool b => b
  | PyInt z => negb (z =? 0)
  | PyStr s => str_truthy s
  | PyList l => match l with [] => false | _ :: _ => true end
  | PyDict d => match d with [] => false | _ :: _ => true end
  | PyObject _ => true
  | PyFloat f =>
      match f with
      | S754_zero _ => false
      | _ => true
      end
  | PyTuple l => match l with [] => false | _ :: _ => true end
  end.

(** [a or b] *)
Definition py_or (a b : pyval) : pyval := if py_truthy a then a else b.

Definition string_property (desc : string) (enum : list string) : pyval :=
  PyDict ([("type", PyStr "string")]
            ++ match enum with
               | [] => []
               | _ :: _ => [("enum", PyList (map PyStr enum))]
               end
            ++ [("description", PyStr desc)])%list.

Definition search_users_params : list string :=
  ["email"; "subscription_status"; "account_type"].

Definition quoted (s : string) : string := "'" ++ s ++ "'".

(** The names of the missing arguments as the interpreter lists them:
    ['a'], ['a' and 'b'], ['a', 'b', and 'c']. *)
Definition missing_names (names : list string) : string :=
  match rev names with
  | [] => EmptyString
  | [a] => quoted a
  | [b; a] => quoted a ++ " and " ++ quoted b
  | c :: b :: front =>
      String.concat ", " (map quoted (rev front))
        ++ ", " ++ quoted b ++ ", and " ++ quoted c
  end.

(** The binding of the keywords of [execute( **kw )] to the parameters of a
    method: the first keyword, in the order of the dict, that is [self] or
    no parameter is an error; then the required parameters without a
    keyword are.  The messages are worded as the interpreter words them,
    without the spelling hints of recent versions. *)
Definition bind_arguments (qualname : string) (required optional : list string)
           (kw : list (string * pyval)) : outcome unit :=
  match find (fun kv =>
                negb (existsb (String.eqb (fst kv)) (required ++ optional)))
             kw with
  | Some (k, _) =>
      if String.eqb k "self"
      then Raised (mkExc "TypeError"
                     (qualname ++ "() got multiple values for argument 'self'"))
      else Raised (mkExc "TypeError"
                     (qualname ++ "() got an unexpected keyword argument "
                               ++ quoted k))
  | None =>
      match filter (fun p => negb (dict_contains kw p)) required with
      | [] => Returned tt
      | missing =>
          Raised (mkExc "TypeError"
                    (qualname ++ "() missing "
                       ++ str_of_int (Z.of_nat (List.length missing))
                       ++ " required positional argument"
                       ++ (match missing with [_] => EmptyString | _ => "s" end)
                       ++ ": " ++ missing_names missing))
      end
  end.

(** The value bound to a parameter, [None] being the default of the optional
    ones. *)
Definition argument (kw : list (string * pyval)) (p : string) : pyval :=
  match dict_get kw p with Some v => v | None => PyNone end.

(** The result of the [except] branch of a tool. *)
Definition failed_result (text : string) (e : PyExc) : ToolResult :=
  {| success := false; message := text ++ exc_str e; data := PyNone |}.

(** The call binds the keywords to the three optional parameters; the body
    of [execute] is one [try] block. *)
Definition search_users_execute (kw : list (string * pyval))
  : outcome ToolResult :=
  _ <- bind_arguments "SearchUsersTool.execute" [] search_users_params kw ;;
  let email := argument kw "email" in
  let subscription_status := argument kw "subscription_status" in
  let account_type := argument kw "account_type" in
  try_except
    (let mock_users :=
       [PyDict [("user_id", PyStr "user_123");
                ("email", py_or email (PyStr "john@example.com"));
                ("subscription_status",
                 py_or subscription_status (PyStr "active"));
                ("account_type", py_or account_type (PyStr "pro"))]] in
     Returned
       {| success := true;
          message := "Found " ++ str_of_int (Z.of_nat (List.length mock_users))
                              ++ " user(s) matching criteria";
          data := PyDict [("users", PyList mock_users);
                          ("total_count",
                           PyInt (Z.of_nat (List.length mock_users)))] |})
    (fun e => Returned (failed_result "Failed to search users: " e)).

Definition SearchUsersTool : Tool :=
  {| name := "search_users";
     description :=
       "Search for users using business-relevant criteria like subscription status or account type";
     parameters :=
       PyDict
         [("type", PyStr "object");
          ("properties",
           PyDict
             [("email", string_property "Search by email address" []);
              ("subscription_status",
               string_property "Filter by subscription status"
                               ["active"; "cancelled"; "expired"; "trial"]);
              ("account_type",
               string_property "Filter by account type"
                               ["free"; "pro"; "enterprise"])])];
     execute := search_users_execute |}.

(** ** Vocabulary of the statements *)

Definition call_name (tool_call : ToolCall) : string :=
  fn_name (function tool_call).

Definition is_assistant_turn (m : Message) : bool :=
  match m with MsgObj _ => true | MsgDict _ => false end.

(** The number of assistant messages in a transcript: one per call of the
    model, hence one per executed iteration. *)
Definition llm_turns (msgs : list Message) : nat :=
  List.length (filter is_assistant_turn msgs).

(** The text [json.dumps] gives for a failed result with message [m]. *)
Definition failed_json (m : string) : string :=
  "{" ++ ((encode_str "success" ++ ": " ++ "false") ++ ", "
            ++ (encode_str "message" ++ ": " ++ encode_str m) ++ ", "
            ++ (encode_str "data" ++ ": " ++ "null")) ++ "}".

(** The state after the round of the for loop for [tool_call] whose result
    serialized to [c]. *)
Definition record_turn (tool_call : ToolCall) (c : string) (st : LoopState)
  : LoopState :=
  {| messages := (messages st ++ [tool_message tool_call c])%list;
     iteration := iteration st;
     done := done st;
     tools_used := (tools_used st ++ [call_name tool_call])%list |}.

(** The state once the assistant message is appended, and once the
    iteration counter is incremented. *)
Definition with_assistant (st : LoopState) (m : ChatCompletionMessage)
  : LoopState :=
  {| messages := (messages st ++ [MsgObj m])%list;
     iteration := iteration st;
     done := done st;
     tools_used := tools_used st |}.

Definition next_iteration (st : LoopState) : LoopState :=
  {| messages := messages st;
     iteration := iteration st + 1;
     done := done st;
     tools_used := tools_used st |}.

(** Whether [json.dumps] accepts what dispatch returned for a call. *)
Definition dumps_ok (r : outcome ToolResult) : bool :=
  match r with
  | Returned res =>
      match encode (ToolResult_dict res) with Some _ => true | None => false end
  | Raised _ => false
  end.

(** A client that answers the n-th call with the n-th message of a script
    and fails afterwards. *)
Definition scripted (script : list ChatCompletionMessage) (req : Request)
  : outcome ChatCompletionMessage :=
  match nth_error script (llm_turns (req_messages req)) with
  | Some m => Returned m
  | None => Raised (mkExc "APIConnectionError" "Connection error.")
  end.

Definition tool_call_message (calls : list ToolCall) : ChatCompletionMessage :=
  {| content := ContentNone; tool_calls := Some calls |}.

Definition text_message (s : string) : ChatCompletionMessage :=
  {| content := ContentStr s; tool_calls := None |}.

Definition empty_message : ChatCompletionMessage :=
  {| content := ContentNone; tool_calls := None |}.

Definition search_call (i args : string) : ToolCall :=
  {| call_id := i;
     function := {| fn_name := "search_users"; arguments := args |} |}.

Definition no_hooks : Hooks := {| metadata := [] |}.

Definition options_with (n : Z) : AgentOptions :=
  {| model := model default_options;
     max_iterations := n;
     system_prompt := system_prompt default_options;
     temperature := temperature default_options |}.

(** Whether a function schema carries the name [k]. *)
Definition schema_named (k : string) (schema : pyval) : bool :=
  match schema with
  | PyDict d =>
      match dict_get d "name" with
      | Some (PyStr n) => String.eqb n k
      | _ => false
      end
  | _ => false
  end.

(** The dict comprehension of [__init__], continued from a dict [d], and
    the property of its entries that each key is the name of its tool. *)
Definition register (d : list (string * Tool)) (l : list Tool)
  : list (string * Tool) :=
  fold_left (fun d kv => dict_set d (fst kv) (snd kv))
            (map (fun t => (name t, t)) l) d.

Definition named_entries (d : list (string * Tool)) : Prop :=
  Forall (fun kv => name (snd kv) = fst kv) d.

(** Measures of a value: the nodes of a value, and of the items of a list
    or dict body. *)
Fixpoint size (v : pyval) : nat :=
  match v with
  | PyList l => S (fold_right (fun x acc => S (size x + acc)) 0 l)
  | PyTuple l => S (fold_right (fun x acc => S (size x + acc)) 0 l)
  | PyDict items =>
      S (fold_right (fun kv acc => S (size (snd kv) + acc)) 0 items)
  | _ => 1
  end%nat.

Definition size_list (l : list pyval) : nat :=
  fold_right (fun x acc => S (size x + acc))%nat 0%nat l.

Definition size_items (items : list (string * pyval)) : nat :=
  fold_right (fun kv acc => S (size (snd kv) + acc))%nat 0%nat items.

(** The serialized items of a list body and of a dict body. *)
Definition encode_list (l : list pyval) : option (list string) :=
  sequence_opt (map encode l).

Definition encode_items (items : list (string * pyval)) : option (list string) :=
  sequence_opt
    (map (fun kv =>
            match encode (snd kv) with
            | Some e => Some (encode_str (fst kv) ++ ": " ++ e)
            | None => None
            end) items).




(** Digits that start with a zero and go on. *)
Definition leading_zero (u : Decimal.uint) : bool :=
  match u with
  | Decimal.D0 Decimal.Nil => false
  | Decimal.D0 _ => true
  | _ => false
  end.




(** The agents and clients of the scenarios: one registered tool, a cap of
    [n] iterations, no system prompt. *)
Definition search_agent (n : Z) : AgentWhileLoop :=
  init [SearchUsersTool] (options_with n).

Definition always_search (_ : Request) : outcome ChatCompletionMessage :=
  Returned (tool_call_message [search_call "call_1" "{}"]).

Definition unknown_call : ToolCall :=
  {| call_id := "call_9";
     function := {| fn_name := "delete_user"; arguments := "{}" |} |}.

(** Arguments that decode to a dict with a keyword [execute] does not
    have. *)
Definition bad_keyword_call : ToolCall :=
  search_call "call_2" ("{" ++ encode_str "foo" ++ ": 1}").

(** A second tool registered under the name of [SearchUsersTool]. *)
Definition StubSearchTool : Tool :=
  {| name := "search_users";
     description := "Search stub";
     parameters := PyDict [("type", PyStr "object")];
     execute := fun _ =>
                  Returned {| success := true; message := "stub";
                              data := PyNone |} |}.

(** What [SearchUsersTool] returns when called without arguments, and its
    serialization. *)
Definition search_result : ToolResult :=
  {| success := true;
     message := "Found 1 user(s) matching criteria";
     data :=
       PyDict
         [("users",
           PyList [PyDict [("user_id", PyStr "user_123");
                           ("email", PyStr "john@example.com");
                           ("subscription_status", PyStr "active");
                           ("account_type", PyStr "pro")]]);
          ("total_count", PyInt 1)] |}.

Definition search_result_json : string :=
  match encode (ToolResult_dict search_result) with
  | Some c => c
  | None => EmptyString
  end.

(** A response with both a tool call and text. *)
Definition call_with_text : ChatCompletionMessage :=
  {| content := ContentStr "Let me look that up.";
     tool_calls := Some [search_call "call_1" "{}"] |}.

(** The scripted clients and inputs of the scenarios. *)
Definition search_then_done : Request -> outcome ChatCompletionMessage :=
  scripted [tool_call_message [search_call "call_1" "{}"];
            text_message "Done."].

Definition search_then_empty : Request -> outcome ChatCompletionMessage :=
  scripted [tool_call_message [search_call "call_1" "{}"]; empty_message].

Definition text_call_then_done : Request -> outcome ChatCompletionMessage :=
  scripted [call_with_text; text_message "Done."].

Definition three_calls : list ToolCall :=
  [search_call "call_1" "{}"; unknown_call; bad_keyword_call].

Definition duplicate_agent : AgentWhileLoop :=
  init [SearchUsersTool; StubSearchTool] default_options.

Definition unexpected_keyword : PyExc :=
  mkExc "TypeError"
        "SearchUsersTool.execute() got an unexpected keyword argument 'foo'".

(** A tool whose execution is cancelled: the [await] of [execute] raises
    [asyncio.CancelledError], which derives from [BaseException] only. *)
Definition CancelledError : PyExc :=
  {| exc_type := "CancelledError";
     exc_str := EmptyString;
     is_Exception := false |}.

Definition ExportTool : Tool :=
  {| name := "export_report";
     description := "Export a report";
     parameters := PyDict [("type", PyStr "object")];
     execute := fun _ => Raised CancelledError |}.

Definition export_call : ToolCall :=
  {| call_id := "call_3";
     function := {| fn_name := "export_report"; arguments := "{}" |} |}.

Definition export_agent : AgentWhileLoop :=
  init [ExportTool] (options_with 2).

Definition export_then_done : Request -> outcome ChatCompletionMessage :=
  scripted [tool_call_message [export_call]; text_message "Done."].






(** ** Vocabulary of the transcript *)

(** The tool names the assistant messages of a transcript request, in
    order. *)
Definition requested_names (msgs : list Message) : list string :=
  flat_map (fun m =>
              match m with
              | MsgObj o => map call_name (calls_of (tool_calls o))
              | MsgDict _ => []
              end) msgs.

(** The [tool_call_id] entry of a dict message. *)
Definition message_tool_call_id (m : Message) : option string :=
  match m with
  | MsgDict d =>
      match dict_get d "tool_call_id" with
      | Some (PyStr i) => Some i
      | _ => None
      end
  | MsgObj _ => None
  end.

(** What a content part contributes to the answer, and whether [str.join]
    accepts it. *)
Definition text_of_part (part : list (string * pyval)) : string :=
  match dict_get part "text" with
  | Some (PyStr s) => s
  | _ => EmptyString
  end.

Definition text_is_str (part : list (string * pyval)) : bool :=
  match dict_get part "text" with
  | None => true
  | Some (PyStr _) => true
  | Some _ => false
  end.

(** The state with [done] set. *)
Definition set_done (st : LoopState) : LoopState :=
  {| messages := messages st;
     iteration := iteration st;
     done := true;
     tools_used := tools_used st |}.

(** How the transcript ends between two iterations: with a dict while the
    loop is not done, or with an assistant message without tool calls
    whose text decides [done]. *)
Definition ends_consistently (st : LoopState) : Prop :=
  exists front last,
    messages st = (front ++ [last])%list
    /\ match last with
       | MsgDict _ => done st = false
       | MsgObj m =>
           tool_calls_truthy (tool_calls m) = false
           /\ done st = content_truthy (content m)
       end.

(** The tool messages the for loop writes for a list of calls. *)
Definition tool_messages_for
           (loads : string -> outcome pyval) (self : AgentWhileLoop)
           (calls : list ToolCall) (msgs : list Message) : Prop :=
  Forall2 (fun tc m =>
             exists r c,
               _execute_tool loads self tc = Returned r
               /\ json_dumps (ToolResult_dict r) = Returned c
               /\ m = tool_message tc c) calls msgs.

(** The texts of the parts of a content, joined in order. *)
Definition joined_text (parts : list (list (string * pyval))) : string :=
  fold_right (fun p acc => text_of_part p ++ acc) EmptyString parts.

(** A client whose every call fails, and an agent without tools. *)
Definition unreachable_client (_ : Request) : outcome ChatCompletionMessage :=
  Raised (mkExc "APIConnectionError" "Connection error.").

Definition toolless_agent (n : Z) : AgentWhileLoop := init [] (options_with n).

Definition two_parts : list (list (string * pyval)) :=
  [[("type", PyStr "text"); ("text", PyStr "Done")];
   [("type", PyStr "refusal")];
   [("text", PyStr ".")]].

Definition parts_message : ChatCompletionMessage :=
  {| content := ContentParts two_parts; tool_calls := None |}.

(** ** The other tools of [src/tools.py] *)

Section Tools.

(** [print], and the text of a list, a tuple, a dict or another object in
    an f-string, are left to the interpreter; both may raise.  What
    [print] writes is not part of the model. *)
Variable print : string -> outcome unit.
Variable str_object : pyval -> outcome string.

(** The text of a value in an f-string, which is [str(v)] for the values
    spelled out here. *)
Definition py_str (v : pyval) : outcome string :=
  match v with
  | PyStr s => Returned s
  | PyNone => Returned "None"
  | PyBool true => Returned "True"
  | PyBool false => Returned "False"
  | PyInt z => int_str z
  | PyFloat f => Returned (float_repr f)
  | _ => str_object v
  end.

(** [NotifyCustomerTool] *)
Definition notify_customer_execute (kw : list (string * pyval))
  : outcome ToolResult :=
  _ <- bind_arguments "NotifyCustomerTool.execute"
                      ["user_id"; "message"; "notification_type"] [] kw ;;
  let user_id := argument kw "user_id" in
  let text := argument kw "message" in
  let notification_type := argument kw "notification_type" in
  try_except
    (kind <- py_str notification_type ;;
     user <- py_str user_id ;;
     body <- py_str text ;;
     _ <- print ("Sending " ++ kind ++ " to user " ++ user ++ ": " ++ body) ;;
     kind <- py_str notification_type ;;
     user <- py_str user_id ;;
     Returned
       {| success := true;
          message := "Successfully sent " ++ kind
                       ++ " notification to user " ++ user;
          data := PyDict [("user_id", user_id);
                          ("notification_type", notification_type);
                          ("sent_at", PyStr "2024-01-15T10:30:00Z")] |})
    (fun e => Returned (failed_result "Failed to send notification: " e)).

Definition NotifyCustomerTool : Tool :=
  {| name := "notify_customer";
     description :=
       "Send a notification to a customer about their account or service";
     parameters :=
       PyDict
         [("type", PyStr "object");
          ("properties",
           PyDict
             [("user_id", string_property "The customer's user ID" []);
              ("message",
               string_property "The notification message to send" []);
              ("notification_type",
               string_property "Type of notification to send"
                               ["email"; "sms"; "push"])]);
          ("required",
           PyList [PyStr "user_id"; PyStr "message";
                   PyStr "notification_type"])];
     execute := notify_customer_execute |}.

(** [GetUserDetailsTool] *)
Definition get_user_details_execute (kw : list (string * pyval))
  : outcome ToolResult :=
  _ <- bind_arguments "GetUserDetailsTool.execute" ["user_id"] [] kw ;;
  let user_id := argument kw "user_id" in
  try_except
    (let mock_user_details :=
       PyDict [("user_id", user_id);
               ("email", PyStr "john@example.com");
               ("name", PyStr "John Doe");
               ("subscription_status", PyStr "active");
               ("account_type", PyStr "pro");
               ("created_at", PyStr "2023-01-15T10:30:00Z");
               ("last_login", PyStr "2024-01-14T15:45:00Z");
               ("billing_info",
                PyDict [("next_billing_date", PyStr "2024-02-15T00:00:00Z");
                        ("amount", PyStr "$29.99")])] in
     user <- py_str user_id ;;
     Returned
       {| success := true;
          message := "Retrieved details for user " ++ user;
          data := PyDict [("user", mock_user_details)] |})
    (fun e => Returned (failed_result "Failed to get user details: " e)).

Definition GetUserDetailsTool : Tool :=
  {| name := "get_user_details";
     description :=
       "Get detailed information about a specific user including account status and history";
     parameters :=
       PyDict
         [("type", PyStr "object");
          ("properties",
           PyDict
             [("user_id", string_property "The user's unique identifier" [])]);
          ("required", PyList [PyStr "user_id"])];
     execute := get_user_details_execute |}.

(** [UpdateSubscriptionTool] *)
Definition update_subscription_execute (kw : list (string * pyval))
  : outcome ToolResult :=
  _ <- bind_arguments "UpdateSubscriptionTool.execute"
                      ["user_id"; "action"] ["new_plan"] kw ;;
  let user_id := argument kw "user_id" in
  let action := argument kw "action" in
  let new_plan := argument kw "new_plan" in
  try_except
    (act <- py_str action ;;
     user <- py_str user_id ;;
     let result_message :=
       "Successfully performed " ++ act ++ " for user " ++ user in
     result_message <-
       (if py_truthy new_plan
        then plan <- py_str new_plan ;;
             Returned (result_message ++ (" to " ++ plan ++ " plan"))
        else Returned result_message) ;;
     Returned
       {| success := true;
          message := result_message;
          data := PyDict [("user_id", user_id);
                          ("action", action);
                          ("new_plan", new_plan);
                          ("effective_date", PyStr "2024-01-15T10:30:00Z")] |})
    (fun e => Returned (failed_result "Failed to update subscription: " e)).

Definition UpdateSubscriptionTool : Tool :=
  {| name := "update_subscription";
     description := "Update a user's subscription plan or status";
     parameters :=
       PyDict
         [("type", PyStr "object");
          ("properties",
           PyDict
             [("user_id", string_property "The user's unique identifier" []);
              ("action",
               string_property "The subscription action to perform"
                               ["upgrade"; "downgrade"; "cancel";
                                "reactivate"]);
              ("new_plan",
               string_property
                 "The new subscription plan (required for upgrade/downgrade)"
                 ["free"; "pro"; "enterprise"])]);
          ("required", PyList [PyStr "user_id"; PyStr "action"])];
     execute := update_subscription_execute |}.

Definition get_tools : list Tool :=
  [NotifyCustomerTool; SearchUsersTool; GetUserDetailsTool;
   UpdateSubscriptionTool].

End Tools.

(** Whether a set of keywords binds to a signature: every keyword is a
    parameter and every required parameter has a keyword. *)
Definition accepts (required optional : list string)
           (kw : list (string * pyval)) : bool :=
  forallb (fun kv => existsb (String.eqb (fst kv)) (required ++ optional)) kw
  && forallb (dict_contains kw) required.

(** The values [json.loads] returns: neither a tuple nor an object the
    encoder has no case for, every [int] within the digit limit, every key
    of a dict once. *)
Fixpoint json_value (v : pyval) : bool :=
  match v with
  | PyObject _ => false
  | PyTuple _ => false
  | PyInt z => within_digit_limit z
  | PyList l => forallb json_value l
  | PyDict items =>
      distinct_keys (map fst items)
      && forallb (fun kv => json_value (snd kv)) items
  | _ => true
  end.

(** Text of printable ASCII characters, space to tilde. *)
Definition printable_char (c : ascii) : bool :=
  ((32 <=? N_of_ascii c) && (N_of_ascii c <=? 126))%N.

Fixpoint printable (s : string) : bool :=
  match s with
  | EmptyString => true
  | String c r => printable_char c && printable r
  end.

(** Where an exception inside the [try] block of a tool comes from: a
    call of [print], or [str] of an argument. *)
Definition raised_by_print (print : string -> outcome unit) (e : PyExc)
  : Prop :=
  exists text, print text = Raised e.

Definition raised_by_str (str_object : pyval -> outcome string) (e : PyExc)
  : Prop :=
  exists v, py_str str_object v = Raised e.

(** A tool whose call raises the [TypeError] of the binding, outside its
    [try] block, for keywords that do not bind to the signature, and whose
    body lets no exception derived from [Exception] out: with keywords
    that bind, [execute] returns a success, or returns the failed result
    of its [except] branch for an exception derived from [Exception], or
    raises an exception outside [Exception]; [origin] says where the
    exceptions of the body come from. *)
Definition guarded (t : Tool) (required optional : list string)
           (text : string) (origin : PyExc -> Prop) : Prop :=
  forall kw,
    if accepts required optional kw
    then match execute t kw with
         | Returned r =>
             success r = true
             \/ exists e,
                 origin e /\ is_Exception e = true
                 /\ r = failed_result text e
         | Raised e => origin e /\ is_Exception e = false
         end
    else exists msg, execute t kw = Raised (mkExc "TypeError" msg).

(** The system prompt of [src/prompt.py] and the agent of
    [src/evals/base.py]. *)
Definition newline : string := String "010"%char EmptyString.

Definition SYSTEM_PROMPT : string :=
  String.concat newline
    [EmptyString;
     EmptyString;
     "You are a helpful customer service agent. Your goal is to assist customers with their";
     "account issues, subscription changes, and general inquiries.";
     EmptyString;
     "When helping customers:";
     "1. Always search for their user information first";
     "2. Provide clear, helpful responses";
     "3. Use the available tools to make necessary changes";
     "4. Confirm any actions taken";
     "5. Be polite and professional";
     EmptyString;
     "Available tools:";
     "- notify_customer: Send notifications to customers";
     "- search_users: Find users by email or subscription status";
     "- get_user_details: Get comprehensive user information";
     "- update_subscription: Handle subscription changes";
     EmptyString].

Definition create_customer_service_agent
           (print : string -> outcome unit)
           (str_object : pyval -> outcome string)
  : AgentWhileLoop :=
  init (get_tools print str_object)
       {| model := "gpt-4o";
          max_iterations := 10;
          system_prompt := SYSTEM_PROMPT;
          temperature := (1 # 10)%Q |}.

(** [run_agent_task] *)
Definition run_agent_task
           (print : string -> outcome unit)
           (str_object : pyval -> outcome string)
           (loads : string -> outcome pyval)
           (create : Request -> outcome ChatCompletionMessage)
           (input_data : string) (hooks : Hooks) : outcome RunResult :=
  run loads create (create_customer_service_agent print str_object)
      input_data hooks.

(** A [print] that returns and a [str] of an object, for the scenarios. *)
Definition quiet_print (_ : string) : outcome unit := Returned tt.

Definition plain_str_object (_ : pyval) : outcome string :=
  Returned "<object>".

(** [print] when the standard output is closed, and a call of
    [notify_customer]. *)
Definition closed_file_error : PyExc :=
  mkExc "ValueError" "I/O operation on closed file.".

Definition closed_stdout_print (_ : string) : outcome unit :=
  Raised closed_file_error.

Definition notify_keywords : list (string * pyval) :=
  [("user_id", PyStr "user_123");
   ("message", PyStr "Your plan was renewed");
   ("notification_type", PyStr "email")].


(** ** [tool_usage_scorer] of [src/scorers.py]

    [expected] and [metadata] are [None] or dicts.  Under ["tools_used"]
    the datasets and [run] put lists of tool names; the scorer is modelled
    on such entries, and its result is [None] where an entry has another
    shape.  What the scorer prints is not part of the model. *)

Fixpoint names_of_list (l : list pyval) : option (list string) :=
  match l with
  | [] => Some []
  | PyStr s :: rest =>
      match names_of_list rest with
      | Some names => Some (s :: names)
      | None => None
      end
  | _ :: _ => None
  end.

Definition names_of (v : pyval) : option (list string) :=
  match v with
  | PyList l => names_of_list l
  | _ => None
  end.

(** [all(tool in used_tools for tool in expected_tools)] on lists of names. *)
Definition all_used (expected_tools used_tools : list string) : bool :=
  forallb (fun tool => existsb (String.eqb tool) used_tools) expected_tools.

(** [metadata.get("tools_used", []) if metadata else []] *)
Definition used_tools_of (metadata : option (list (string * pyval))) : pyval :=
  match metadata with
  | Some (entry :: rest) =>
      match dict_get (entry :: rest) "tools_used" with
      | Some v => v
      | None => PyList []
      end
  | Some [] => PyList []
  | None => PyList []
  end.

Definition tool_usage_scorer
           (expected metadata : option (list (string * pyval)))
  : option pyval :=
  match expected with
  | Some (entry :: rest) =>
      match dict_get (entry :: rest) "tools_used" with
      | None => Some (PyDict [("name", PyStr "tool_usage"); ("score", PyInt 1)])
      | Some expected_tools =>
          let used_tools := used_tools_of metadata in
          match names_of expected_tools, names_of used_tools with
          | Some exp, Some used =>
              let correct_tools_used := all_used exp used in
              Some (PyDict
                      [("name", PyStr "tool_usage");
                       ("score", PyInt (if correct_tools_used then 1 else 0));
                       ("metadata",
                        PyDict [("expected_tools", expected_tools);
                                ("used_tools", used_tools);
                                ("correct", PyBool correct_tools_used)])])
          | _, _ => None
          end
      end
  | Some [] => Some (PyDict [("name", PyStr "tool_usage"); ("score", PyInt 1)])
  | None => Some (PyDict [("name", PyStr "tool_usage"); ("score", PyInt 1)])
  end.

(** The [score] entry of a scorer's result. *)
Definition score_of (result : option pyval) : option Z :=
  match result with
  | Some (PyDict d) =>
      match dict_get d "score" with
      | Some (PyInt z) => Some z
      | _ => None
      end
  | _ => None
  end.

(** An expectation as the entries of [src/datasets.py] write it. *)
Definition expects (tool_names : list string) : list (string * pyval) :=
  [("tools_used", PyList (map PyStr tool_names));
   ("required_phrases", PyList [PyStr "John Doe"; PyStr "pro"; PyStr "active"])].

Definition dataset_metadata : Hooks :=
  {| metadata := [("category", PyStr "single-lookup");
                  ("difficulty", PyStr "easy")] |}.

(** Further fixtures of the scenarios. *)
Definition fails_after_one_call : Request -> outcome ChatCompletionMessage :=
  scripted [tool_call_message [search_call "call_1" "{}"]].


(** A string with a character above tilde and a line feed. *)
Definition accented : pyval :=
  PyStr (String "233"%char (String "010"%char "t")).

Definition accented_json : string :=
  match encode accented with Some c => c | None => EmptyString end.

Definition fallback_result : RunResult :=
  {| output :=
       "Agent reached maximum iterations (2) without completing the task.";
     hooks_after := dataset_metadata;
     metrics := [("total_iterations", 2); ("max_iterations_reached", 1)] |}.

Definition answer_result : RunResult :=
  {| output := "Done.";
     hooks_after :=
       {| metadata := [("category", PyStr "single-lookup");
                       ("difficulty", PyStr "easy");
                       ("tools_used", PyList [PyStr "search_users"])] |};
     metrics := [("total_iterations", 2)] |}.

Definition connection_error : PyExc :=
  mkExc "APIConnectionError" "Connection error.".

(** * Properties *)

(** ** Outcomes *)

Lemma bind_returned {A B : Type} (m : outcome A) (k : A -> outcome B) (b : B) :
  bind m k = Returned b -> exists a, m = Returned a /\ k a = Returned b.
Proof.
  destruct m as [a | e]; simpl; intros H.
  - exists a. split; [reflexivity | exact H].
  - discriminate H.
Qed.

Ltac bind_inv H :=
  let a := fresh "a" in
  let Ha := fresh "Ha" in
  apply bind_returned in H; destruct H as [a [Ha H]].

(** ** Serialization of failed results *)

Lemma dumps_failed (m : string) :
  json_dumps (ToolResult_dict {| success := false; message := m; data := PyNone |})
  = Returned (failed_json m).
Proof. reflexivity. Qed.

(** ** Dispatch *)

Section Dispatch.

Variable loads : string -> outcome pyval.
Variable self : AgentWhileLoop.

(** Every way dispatch ends: the unknown-tool result, what the tool
    returned, the error result for an exception derived from [Exception],
    or any other exception, which passes through. *)
Lemma execute_tool_cases (tool_call : ToolCall) :
  match dict_get (tools self) (call_name tool_call) with
  | None =>
      _execute_tool loads self tool_call
      = Returned (unknown_tool_result (call_name tool_call))
  | Some t =>
      match try_execute loads t tool_call with
      | Returned r => _execute_tool loads self tool_call = Returned r
      | Raised e =>
          _execute_tool loads self tool_call
          = if is_Exception e
            then Returned (error_result (call_name tool_call) e)
            else Raised e
      end
  end.
Proof.
  unfold _execute_tool, call_name.
  destruct (dict_get (tools self) (fn_name (function tool_call))) as [t |];
    [| reflexivity].
  destruct (try_execute loads t tool_call) as [r | e]; reflexivity.
Qed.

Lemma execute_tool_unknown (tool_call : ToolCall) :
  dict_get (tools self) (call_name tool_call) = None ->
  _execute_tool loads self tool_call
  = Returned (unknown_tool_result (call_name tool_call)).
Proof.
  unfold _execute_tool, call_name. intros ->. reflexivity.
Qed.

Lemma execute_tool_raised (tool_call : ToolCall) (t : Tool) (e : PyExc) :
  dict_get (tools self) (call_name tool_call) = Some t ->
  try_execute loads t tool_call = Raised e ->
  is_Exception e = true ->
  _execute_tool loads self tool_call
  = Returned (error_result (call_name tool_call) e).
Proof.
  unfold _execute_tool, call_name, try_except. intros -> -> ->. reflexivity.
Qed.

Lemma execute_tool_escaped (tool_call : ToolCall) (t : Tool) (e : PyExc) :
  dict_get (tools self) (call_name tool_call) = Some t ->
  try_execute loads t tool_call = Raised e ->
  is_Exception e = false ->
  _execute_tool loads self tool_call = Raised e.
Proof.
  unfold _execute_tool, call_name, try_except. intros -> -> ->. reflexivity.
Qed.

(** The two ways the [try] block raises: the decoder does, or the call of
    [execute] does. *)
Lemma try_execute_loads_raised (t : Tool) (tool_call : ToolCall) (e : PyExc) :
  loads (arguments (function tool_call)) = Raised e ->
  try_execute loads t tool_call = Raised e.
Proof. unfold try_execute. intros ->. reflexivity. Qed.

Lemma try_execute_execute_raised
      (t : Tool) (tool_call : ToolCall) (kw : list (string * pyval))
      (e : PyExc) :
  loads (arguments (function tool_call)) = Returned (PyDict kw) ->
  execute t kw = Raised e ->
  try_execute loads t tool_call = Raised e.
Proof. unfold try_execute. intros -> H. simpl. exact H. Qed.

(** A round of the for loop whose dispatch gave a failed result with no
    data always completes. *)
Lemma tool_turn_failed (tool_call : ToolCall) (m : string) (st : LoopState) :
  _execute_tool loads self tool_call
  = Returned {| success := false; message := m; data := PyNone |} ->
  tool_turn loads self tool_call st
  = Returned (record_turn tool_call (failed_json m) st).
Proof.
  intros H. unfold tool_turn. rewrite H.
  cbv beta iota delta [bind]. rewrite dumps_failed. reflexivity.
Qed.

Lemma tool_turn_returned (tool_call : ToolCall) (st st' : LoopState) :
  tool_turn loads self tool_call st = Returned st' ->
  exists c, st' = record_turn tool_call c st.
Proof.
  unfold tool_turn. intros H.
  bind_inv H. bind_inv H. injection H as <-.
  eexists. reflexivity.
Qed.

Lemma tool_turn_dumps_ok (tool_call : ToolCall) (st : LoopState) :
  dumps_ok (_execute_tool loads self tool_call) = true ->
  exists c, tool_turn loads self tool_call st
            = Returned (record_turn tool_call c st).
Proof.
  unfold tool_turn, dumps_ok, json_dumps.
  destruct (_execute_tool loads self tool_call) as [r | e]; [| discriminate].
  cbv beta iota delta [bind].
  destruct (encode (ToolResult_dict r)) as [c |]; [| discriminate].
  intros _. exists c. reflexivity.
Qed.

Lemma for_tool_calls_returned (calls : list ToolCall) :
  forall st st',
    for_tool_calls loads self calls st = Returned st' ->
    iteration st' = iteration st
    /\ done st' = done st
    /\ tools_used st' = (tools_used st ++ map call_name calls)%list
    /\ llm_turns (messages st') = llm_turns (messages st)
    /\ (calls <> [] ->
        exists d front, messages st' = (front ++ [MsgDict d])%list).
Proof.
  induction calls as [| tc rest IH]; intros st st' H; simpl in H.
  - injection H as <-. rewrite List.app_nil_r.
    repeat split; try reflexivity. intros C. contradiction.
  - bind_inv H. apply tool_turn_returned in Ha. destruct Ha as [c ->].
    destruct (IH _ _ H) as (Hi & Hd & Hu & Hl & Hm).
    simpl in Hi, Hd, Hu, Hl.
    repeat split; try assumption.
    + rewrite Hu, <- List.app_assoc. reflexivity.
    + rewrite Hl. unfold llm_turns. rewrite List.filter_app. simpl.
      rewrite List.app_nil_r. reflexivity.
    + intros _. destruct rest as [| tc' rest'].
      * simpl in H. injection H as <-. simpl.
        eexists. eexists. reflexivity.
      * apply Hm. discriminate.
Qed.

Lemma for_tool_calls_total (calls : list ToolCall) :
  forall st,
    forallb (fun tc => dumps_ok (_execute_tool loads self tc)) calls = true ->
    exists st', for_tool_calls loads self calls st = Returned st'.
Proof.
  induction calls as [| tc rest IH]; intros st H; simpl in *.
  - eauto.
  - apply andb_true_iff in H. destruct H as [H1 H2].
    destruct (tool_turn_dumps_ok tc st H1) as [c ->]. simpl.
    apply IH. exact H2.
Qed.

End Dispatch.

(** ** The while loop *)

Section Loop.

Variable loads : string -> outcome pyval.
Variable create : Request -> outcome ChatCompletionMessage.
Variable self : AgentWhileLoop.

Lemma llm_turns_assistant (msgs : list Message) (m : ChatCompletionMessage) :
  llm_turns (msgs ++ [MsgObj m]) = S (llm_turns msgs).
Proof.
  unfold llm_turns. rewrite List.filter_app, List.length_app. simpl. lia.
Qed.

Lemma loop_body_tool_branch (st : LoopState) (m : ChatCompletionMessage) :
  _get_llm_response create self (messages st) = Returned m ->
  tool_calls_truthy (tool_calls m) = true ->
  loop_body loads create self st
  = (st2 <- for_tool_calls loads self (calls_of (tool_calls m))
                           (with_assistant st m) ;;
     Returned (next_iteration st2)).
Proof.
  intros Hm Ht. unfold loop_body. rewrite Hm.
  cbv beta iota delta [bind]. rewrite Ht. reflexivity.
Qed.

Lemma loop_body_returned (st st' : LoopState) :
  loop_body loads create self st = Returned st' ->
  iteration st' = iteration st + 1
  /\ llm_turns (messages st') = S (llm_turns (messages st))
  /\ (done st = false -> done st' = true ->
      exists m front,
        messages st' = (front ++ [MsgObj m])%list
        /\ tool_calls_truthy (tool_calls m) = false
        /\ content_truthy (content m) = true).
Proof.
  unfold loop_body. intros H.
  bind_inv H. rename a into m. bind_inv H. rename a into st2.
  injection H as <-. simpl.
  destruct (tool_calls_truthy (tool_calls m)) eqn:Ht.
  - apply for_tool_calls_returned in Ha0.
    destruct Ha0 as (Hi & Hd & _ & Hl & _). simpl in Hi, Hd, Hl.
    rewrite Hi, Hl, Hd, llm_turns_assistant.
    repeat split. intros -> D. discriminate D.
  - destruct (content_truthy (content m)) eqn:Hc;
      injection Ha0 as <-; simpl; rewrite llm_turns_assistant;
      repeat split.
    + intros _ _. exists m, (messages st). repeat split; assumption.
    + intros -> D. discriminate D.
Qed.

(** What the loop preserves: the iteration counter stays in step with the
    number of model calls, and never passes the cap it started below. *)
Lemma while_loop_returned (rounds : nat) :
  forall st st',
    while_loop loads create self rounds st = Returned st' ->
    iteration st <= iteration st'
    /\ Z.of_nat (llm_turns (messages st')) - iteration st'
       = Z.of_nat (llm_turns (messages st)) - iteration st
    /\ (iteration st <= max_iterations (options self) ->
        iteration st' <= max_iterations (options self)).
Proof.
  induction rounds as [| n IH]; intros st st' H; simpl in H.
  - destruct (loop_guard self st); injection H as <-;
      repeat split; try lia.
  - destruct (loop_guard self st) eqn:G.
    + bind_inv H. rename a into st1.
      apply loop_body_returned in Ha. destruct Ha as (Hi & Hl & _).
      destruct (IH _ _ H) as (I1 & I2 & I3).
      unfold loop_guard in G. apply andb_true_iff in G.
      destruct G as [_ G]. apply Z.ltb_lt in G.
      repeat split; try lia.
    + injection H as <-. repeat split; try lia.
Qed.

(** The number of rounds [run_loop] allows is never what stops the loop:
    a returned state falsifies the guard. *)
Lemma while_loop_exit (rounds : nat) :
  forall st st',
    max_iterations (options self) - iteration st <= Z.of_nat rounds ->
    while_loop loads create self rounds st = Returned st' ->
    loop_guard self st' = false.
Proof.
  induction rounds as [| n IH]; intros st st' Hr H; simpl in H.
  - destruct (loop_guard self st) eqn:G.
    + unfold loop_guard in G. apply andb_true_iff in G.
      destruct G as [_ G]. apply Z.ltb_lt in G. lia.
    + injection H as <-. exact G.
  - destruct (loop_guard self st) eqn:G.
    + bind_inv H. rename a into st1.
      apply loop_body_returned in Ha. destruct Ha as (Hi & _).
      apply (IH st1 st'); [lia | exact H].
    + injection H as <-. exact G.
Qed.

Lemma run_loop_exit (query : string) (st' : LoopState) :
  run_loop loads create self query = Returned st' ->
  loop_guard self st' = false.
Proof.
  unfold run_loop. apply while_loop_exit. simpl. lia.
Qed.

Lemma initial_no_turns (query : string) :
  llm_turns (initial_messages self query) = 0%nat.
Proof.
  unfold initial_messages.
  destruct (str_truthy (system_prompt (options self))); reflexivity.
Qed.

Lemma finish_total_iterations (st : LoopState) (hooks : Hooks) (res : RunResult) :
  finish self st hooks = Returned res ->
  dict_get (metrics res) "total_iterations" = Some (iteration st).
Proof.
  unfold finish. intros H.
  bind_inv H. bind_inv H. destruct a0.
  - bind_inv H. bind_inv H. injection H as <-. reflexivity.
  - injection H as <-. reflexivity.
Qed.

(** C6. However many rounds the while loop is given, when it returns from
    the initial state [iteration] is at most [max_iterations] (for a cap
    that is not negative) and equals the number of iterations executed,
    counted as the calls of the model in the transcript; the code after
    the loop reports that number as [total_iterations].  With the rounds
    of [run_loop], or more, the loop has stopped because its guard is
    false, and the [total_iterations] metric of a returning [run] is the
    number of iterations executed. *)
Theorem iteration_bounded_and_counted
        (rounds : nat) (query : string) (hooks : Hooks) (st' : LoopState) :
  0 <= max_iterations (options self) ->
  while_loop loads create self rounds (initial_state self query)
  = Returned st' ->
  iteration st' <= max_iterations (options self)
  /\ iteration st' = Z.of_nat (llm_turns (messages st'))
  /\ (forall res,
         finish self st' hooks = Returned res ->
         dict_get (metrics res) "total_iterations"
         = Some (Z.of_nat (llm_turns (messages st'))))
  /\ ((Z.to_nat (max_iterations (options self)) <= rounds)%nat ->
      loop_guard self st' = false)
  /\ (rounds = Z.to_nat (max_iterations (options self)) ->
      forall res,
        run loads create self query hooks = Returned res ->
        dict_get (metrics res) "total_iterations"
        = Some (Z.of_nat (llm_turns (messages st')))).
Proof.
  intros Hmax Hloop.
  pose proof Hloop as H.
  apply while_loop_returned in H. destruct H as (_ & H2 & H3).
  simpl in H2, H3. rewrite initial_no_turns in H2.
  assert (E : iteration st' = Z.of_nat (llm_turns (messages st'))) by lia.
  assert (F : forall res,
             finish self st' hooks = Returned res ->
             dict_get (metrics res) "total_iterations"
             = Some (Z.of_nat (llm_turns (messages st')))).
  { intros res Hres. apply finish_total_iterations in Hres.
    rewrite Hres, E. reflexivity. }
  repeat split.
  - apply H3. exact Hmax.
  - exact E.
  - exact F.
  - intros Hr. apply (while_loop_exit rounds _ _) in Hloop; [exact Hloop |].
    simpl. lia.
  - intros -> res Hrun. unfold run, run_loop in Hrun. rewrite Hloop in Hrun.
    simpl in Hrun. apply F. exact Hrun.
Qed.

Lemma while_loop_stops (rounds : nat) (st : LoopState) :
  loop_guard self st = false ->
  while_loop loads create self rounds st = Returned st.
Proof. intros G. destruct rounds; simpl; rewrite G; reflexivity. Qed.

Lemma while_loop_step (rounds : nat) (st : LoopState) :
  loop_guard self st = true ->
  while_loop loads create self (S rounds) st
  = (st' <- loop_body loads create self st ;;
     while_loop loads create self rounds st').
Proof. intros G. simpl. rewrite G. reflexivity. Qed.

Lemma last_message_snoc (msgs : list Message) (m : Message) :
  last_message (msgs ++ [m]) = Returned m.
Proof. unfold last_message. rewrite List.rev_app_distr. reflexivity. Qed.

Lemma str_truthy_nonempty (s : string) :
  s <> EmptyString -> str_truthy s = true.
Proof. destruct s; [contradiction | reflexivity]. Qed.

(** C7. When max_iterations is at least 1 and the first response of the
    model carries no tool calls and a non-empty plain string, the loop
    exits after one iteration and [run] returns that string unchanged. *)
Theorem first_answer_verbatim
        (query : string) (hooks : Hooks) (m : ChatCompletionMessage)
        (s : string) :
  1 <= max_iterations (options self) ->
  _get_llm_response create self (initial_messages self query) = Returned m ->
  tool_calls_truthy (tool_calls m) = false ->
  content m = ContentStr s ->
  s <> EmptyString ->
  run_loop loads create self query
  = Returned {| messages := (initial_messages self query ++ [MsgObj m])%list;
                iteration := 1;
                done := true;
                tools_used := [] |}
  /\ run loads create self query hooks
     = Returned {| output := s;
                   hooks_after :=
                     {| metadata :=
                          dict_set (metadata hooks) "tools_used" (PyList []) |};
                   metrics := [("total_iterations", 1)] |}.
Proof.
  intros Hmax Hm Ht Hc Hs.
  assert (L : run_loop loads create self query
              = Returned {| messages :=
                              (initial_messages self query ++ [MsgObj m])%list;
                            iteration := 1;
                            done := true;
                            tools_used := [] |}).
  { unfold run_loop.
    destruct (Z.to_nat (max_iterations (options self))) as [| n] eqn:E;
      [lia |].
    rewrite while_loop_step.
    - unfold loop_body. simpl messages. rewrite Hm.
      cbv beta iota delta [bind]. rewrite Ht, Hc. simpl content_truthy.
      rewrite (str_truthy_nonempty s Hs). simpl.
      apply while_loop_stops. reflexivity.
    - unfold loop_guard. simpl. apply Z.ltb_lt. lia. }
  split; [exact L |].
  unfold run. rewrite L. cbv beta iota delta [bind].
  unfold finish. simpl messages. rewrite last_message_snoc.
  simpl. rewrite Hc. simpl. rewrite (str_truthy_nonempty s Hs).
  reflexivity.
Qed.

(** *** Tool calls inside an iteration *)

Lemma for_tool_calls_failed_head
      (tool_call : ToolCall) (msg : string) (rest : list ToolCall)
      (st : LoopState) :
  _execute_tool loads self tool_call
  = Returned {| success := false; message := msg; data := PyNone |} ->
  for_tool_calls loads self (tool_call :: rest) st
  = for_tool_calls loads self rest
                   (record_turn tool_call (failed_json msg) st).
Proof.
  intros H. simpl. rewrite (tool_turn_failed loads self _ _ st H).
  reflexivity.
Qed.

Lemma single_failed_call_iteration
      (tool_call : ToolCall) (msg : string) (st : LoopState)
      (m : ChatCompletionMessage) (rounds : nat) :
  _execute_tool loads self tool_call
  = Returned {| success := false; message := msg; data := PyNone |} ->
  loop_guard self st = true ->
  _get_llm_response create self (messages st) = Returned m ->
  tool_calls m = Some [tool_call] ->
  while_loop loads create self (S rounds) st
  = while_loop loads create self rounds
      (next_iteration
         (record_turn tool_call (failed_json msg) (with_assistant st m))).
Proof.
  intros He G Hm Hc. rewrite (while_loop_step _ _ G).
  rewrite (loop_body_tool_branch st m Hm) by (rewrite Hc; reflexivity).
  rewrite Hc. simpl calls_of.
  rewrite (for_tool_calls_failed_head _ _ _ _ He). reflexivity.
Qed.

(** C3, as amended.  When the tool of a dispatched call is registered
    and the decoding of the arguments or the call of [execute] raises an
    exception [e] of a class derived from [Exception], dispatch returns the
    failed result with message "Error executing <name>: <str(e)>" and no
    data; the for loop records it and goes on with the sibling calls
    exactly as after any other result, and an iteration whose only call
    fails this way completes and hands over to the next round of the while
    loop. *)
Theorem tool_failure_is_isolated
        (tool_call : ToolCall) (t : Tool) (e : PyExc) :
  dict_get (tools self) (call_name tool_call) = Some t ->
  is_Exception e = true ->
  (loads (arguments (function tool_call)) = Raised e
   \/ exists v, loads (arguments (function tool_call)) = Returned v
                /\ execute_kwargs t v = Raised e) ->
  let msg := "Error executing " ++ call_name tool_call ++ ": " ++ exc_str e in
  _execute_tool loads self tool_call
  = Returned {| success := false; message := msg; data := PyNone |}
  /\ (forall rest st,
         for_tool_calls loads self (tool_call :: rest) st
         = for_tool_calls loads self rest
                          (record_turn tool_call (failed_json msg) st))
  /\ (forall st m rounds,
         loop_guard self st = true ->
         _get_llm_response create self (messages st) = Returned m ->
         tool_calls m = Some [tool_call] ->
         while_loop loads create self (S rounds) st
         = while_loop loads create self rounds
             (next_iteration
                (record_turn tool_call (failed_json msg)
                             (with_assistant st m)))).
Proof.
  intros Ht He Hraise msg.
  assert (Htry : try_execute loads t tool_call = Raised e).
  { unfold try_execute. destruct Hraise as [-> | [v [-> Hv]]].
    - reflexivity.
    - simpl. exact Hv. }
  assert (Hd : _execute_tool loads self tool_call
               = Returned {| success := false; message := msg;
                             data := PyNone |}).
  { rewrite (execute_tool_raised loads self _ _ _ Ht Htry He). reflexivity. }
  split; [exact Hd | split].
  - intros rest st. apply for_tool_calls_failed_head. exact Hd.
  - intros st m rounds. apply single_failed_call_iteration. exact Hd.
Qed.

(** C4. A dispatched call whose name has no entry in the registry gives
    the failed result with message "Unknown tool: <name>" and no data,
    without raising; the for loop records it as a tool message and goes on
    with the remaining calls, and an iteration whose only call is unknown
    completes and hands over to the next round of the while loop. *)
Theorem unknown_tool_is_recorded (tool_call : ToolCall) :
  dict_get (tools self) (call_name tool_call) = None ->
  let msg := "Unknown tool: " ++ call_name tool_call in
  _execute_tool loads self tool_call
  = Returned {| success := false; message := msg; data := PyNone |}
  /\ (forall rest st,
         for_tool_calls loads self (tool_call :: rest) st
         = for_tool_calls loads self rest
                          (record_turn tool_call (failed_json msg) st))
  /\ (forall st m rounds,
         loop_guard self st = true ->
         _get_llm_response create self (messages st) = Returned m ->
         tool_calls m = Some [tool_call] ->
         while_loop loads create self (S rounds) st
         = while_loop loads create self rounds
             (next_iteration
                (record_turn tool_call (failed_json msg)
                             (with_assistant st m)))).
Proof.
  intros Hn msg.
  assert (Hd : _execute_tool loads self tool_call
               = Returned {| success := false; message := msg;
                             data := PyNone |}).
  { rewrite (execute_tool_unknown loads self _ Hn). reflexivity. }
  split; [exact Hd | split].
  - intros rest st. apply for_tool_calls_failed_head. exact Hd.
  - intros st m rounds. apply single_failed_call_iteration. exact Hd.
Qed.

Lemma dispatch_dumps_ok (tool_call : ToolCall) :
  (forall t r,
      dict_get (tools self) (call_name tool_call) = Some t ->
      try_execute loads t tool_call = Returned r ->
      encode (ToolResult_dict r) <> None) ->
  (forall t e,
      dict_get (tools self) (call_name tool_call) = Some t ->
      try_execute loads t tool_call = Raised e ->
      is_Exception e = true) ->
  dumps_ok (_execute_tool loads self tool_call) = true.
Proof.
  intros H He. pose proof (execute_tool_cases loads self tool_call) as C.
  destruct (dict_get (tools self) (call_name tool_call)) as [t |].
  - destruct (try_execute loads t tool_call) as [r | e] eqn:E.
    + specialize (H t r eq_refl E). rewrite C. unfold dumps_ok.
      destruct (encode (ToolResult_dict r)); [reflexivity | contradiction].
    + rewrite C, (He t e eq_refl E). reflexivity.
  - rewrite C. reflexivity.
Qed.

(** C10. Whenever the for loop over the requested calls returns, it has
    appended every requested name to [tools_used], in request order,
    whether the name is registered or not and whether the execution
    failed or not.  And it does return when the run goes on at every call:
    when what a successful execution returned can be serialized, and what
    a failed one raised is derived from [Exception], the class the
    dispatch catches; unknown names and caught failures need no
    assumption. *)
Theorem tools_used_records_requests (calls : list ToolCall) (st : LoopState) :
  (forall st',
      for_tool_calls loads self calls st = Returned st' ->
      tools_used st' = (tools_used st ++ map call_name calls)%list)
  /\ ((forall tc t r,
          In tc calls ->
          dict_get (tools self) (call_name tc) = Some t ->
          try_execute loads t tc = Returned r ->
          encode (ToolResult_dict r) <> None) ->
      (forall tc t e,
          In tc calls ->
          dict_get (tools self) (call_name tc) = Some t ->
          try_execute loads t tc = Raised e ->
          is_Exception e = true) ->
      exists st',
        for_tool_calls loads self calls st = Returned st'
        /\ tools_used st' = (tools_used st ++ map call_name calls)%list).
Proof.
  split.
  { intros st' Hst'. apply for_tool_calls_returned in Hst'. tauto. }
  intros H He.
  assert (Hall : forallb (fun tc => dumps_ok (_execute_tool loads self tc))
                         calls = true).
  { apply forallb_forall. intros tc Hin. apply dispatch_dumps_ok.
    - intros t r. apply H. exact Hin.
    - intros t e. apply He. exact Hin. }
  destruct (for_tool_calls_total loads self calls st Hall) as [st' Hst'].
  exists st'. split; [exact Hst' |].
  apply for_tool_calls_returned in Hst'. tauto.
Qed.

(** C5. In an iteration the loop executes, a message with both tool calls
    and text goes through the tool-call branch: the calls are dispatched,
    a returned state has [done] still false, the counter incremented and
    the requested names logged, so that the guard holds again below the
    cap and the while loop goes into its next round; the iteration returns
    whenever the dispatched results can be serialized. *)
Theorem tool_calls_take_priority (st : LoopState) (m : ChatCompletionMessage) :
  loop_guard self st = true ->
  _get_llm_response create self (messages st) = Returned m ->
  tool_calls_truthy (tool_calls m) = true ->
  content_truthy (content m) = true ->
  loop_body loads create self st
  = (st2 <- for_tool_calls loads self (calls_of (tool_calls m))
                           (with_assistant st m) ;;
     Returned (next_iteration st2))
  /\ (forall st',
         loop_body loads create self st = Returned st' ->
         done st' = false
         /\ iteration st' = iteration st + 1
         /\ tools_used st'
            = (tools_used st ++ map call_name (calls_of (tool_calls m)))%list
         /\ (iteration st' < max_iterations (options self) ->
             loop_guard self st' = true)
         /\ forall rounds,
             while_loop loads create self (S rounds) st
             = while_loop loads create self rounds st')
  /\ (forallb (fun tc => dumps_ok (_execute_tool loads self tc))
              (calls_of (tool_calls m)) = true ->
      exists st', loop_body loads create self st = Returned st').
Proof.
  intros G Hm Ht Hc.
  pose proof (loop_body_tool_branch st m Hm Ht) as Hb.
  assert (Gd : done st = false).
  { unfold loop_guard in G. apply andb_true_iff in G.
    destruct G as [G _]. destruct (done st); [discriminate | reflexivity]. }
  split; [exact Hb | split].
  - intros st' Hst'.
    assert (Hw : forall rounds,
               while_loop loads create self (S rounds) st
               = while_loop loads create self rounds st').
    { intros rounds. rewrite (while_loop_step _ _ G), Hst'. reflexivity. }
    rewrite Hb in Hst'. bind_inv Hst'. rename a into st2.
    injection Hst' as <-.
    apply for_tool_calls_returned in Ha.
    destruct Ha as (Hi & Hd & Hu & _ & _). simpl in Hi, Hd, Hu.
    assert (D : done (next_iteration st2) = false)
      by (simpl; rewrite Hd; exact Gd).
    repeat split.
    + exact D.
    + simpl. rewrite Hi. reflexivity.
    + simpl. exact Hu.
    + intros Hlt. unfold loop_guard. rewrite D. simpl negb.
      rewrite andb_true_l. apply Z.ltb_lt. exact Hlt.
    + exact Hw.
  - intros Hall.
    destruct (for_tool_calls_total loads self _ (with_assistant st m) Hall)
      as [st2 Hst2].
    exists (next_iteration st2). rewrite Hb, Hst2. reflexivity.
Qed.

End Loop.

(** ** The end of [run] *)

Section Finish.

Variable loads : string -> outcome pyval.
Variable create : Request -> outcome ChatCompletionMessage.
Variable self : AgentWhileLoop.

Lemma dict_get_set_same {V : Type} (d : list (string * V)) (k : string) (v : V) :
  dict_get (dict_set d k v) k = Some v.
Proof.
  induction d as [| [k' v'] d IH]; simpl.
  - rewrite String.eqb_refl. reflexivity.
  - destruct (String.eqb k' k) eqn:E; simpl; rewrite E; [reflexivity | exact IH].
Qed.

(** What [finish] does with the hooks: the answer branch writes the log,
    the fallback branch leaves the hooks as they were. *)
Lemma finish_hooks (st : LoopState) (hooks : Hooks) (res : RunResult) :
  finish self st hooks = Returned res ->
  (dict_get (metrics res) "max_iterations_reached" = None
   /\ dict_get (metadata (hooks_after res)) "tools_used"
      = Some (PyList (map PyStr (tools_used st))))
  \/ (dict_get (metrics res) "max_iterations_reached" = Some 1
      /\ output res = fallback_message self
      /\ hooks_after res = hooks).
Proof.
  unfold finish. intros H.
  bind_inv H. bind_inv H. destruct a0.
  - bind_inv H. bind_inv H. injection H as <-. left. simpl.
    split; [reflexivity | apply dict_get_set_same].
  - injection H as <-. right. simpl. repeat split.
Qed.

Lemma finish_after_dict (st : LoopState) (hooks : Hooks)
      (front : list Message) (d : list (string * pyval)) :
  messages st = (front ++ [MsgDict d])%list ->
  finish self st hooks = Raised (AttributeError "role").
Proof.
  intros E. unfold finish. rewrite E, last_message_snoc. reflexivity.
Qed.

Lemma while_loop_ends_on_dict (rounds : nat) :
  (forall req, exists m,
      create req = Returned m /\ tool_calls_truthy (tool_calls m) = true) ->
  forall st st',
    (exists front d, messages st = (front ++ [MsgDict d])%list) ->
    while_loop loads create self rounds st = Returned st' ->
    exists front d, messages st' = (front ++ [MsgDict d])%list.
Proof.
  intros Hcalls.
  induction rounds as [| n IH]; intros st st' Hlast H; simpl in H.
  - destruct (loop_guard self st); injection H as <-; exact Hlast.
  - destruct (loop_guard self st) eqn:G.
    + bind_inv H. rename a into st1.
      apply (IH st1 st'); [| exact H].
      destruct (Hcalls {| req_model := model (options self);
                          req_messages := messages st;
                          req_tools :=
                            map (fun func =>
                                   PyDict [("type", PyStr "function");
                                           ("function", func)])
                                (functions self);
                          req_temperature := temperature (options self) |})
        as [m [Hm Ht]].
      rewrite (loop_body_tool_branch loads create self st m Hm Ht) in Ha.
      bind_inv Ha. rename a into st2. injection Ha as <-.
      apply for_tool_calls_returned in Ha0.
      destruct Ha0 as (_ & _ & _ & _ & Hd). simpl.
      destruct (Hd ltac:(destruct (tool_calls m) as [[| ? ?] |];
                         simpl in *; congruence)) as [d [front E]].
      exists front, d. exact E.
    + injection H as <-. exact Hlast.
Qed.

(** With a model that requests a tool call in every response, [run] never
    returns: the transcript ends with a tool message, a dict, on which
    the access to [role] raises. *)
Lemma always_tool_calls_never_returns (query : string) (hooks : Hooks) :
  (forall req, exists m,
      create req = Returned m /\ tool_calls_truthy (tool_calls m) = true) ->
  exists e, run loads create self query hooks = Raised e.
Proof.
  intros Hcalls. unfold run.
  destruct (run_loop loads create self query) as [st' | e] eqn:L;
    [| exists e; reflexivity].
  unfold run_loop in L.
  apply (while_loop_ends_on_dict _ Hcalls) in L.
  - destruct L as [front [d E]]. simpl.
    rewrite (finish_after_dict st' hooks front d E). eauto.
  - simpl. unfold initial_messages. eexists. eexists. reflexivity.
Qed.

End Finish.

(** ** Scenarios *)

(** C1, on the code: with [max_iterations = 1] and a model whose response
    carries a tool call, the while loop stops after its one iteration with
    a tool message last in the transcript, and [run] raises
    [AttributeError] where the specification has it return the fallback
    string. *)
Theorem max_iterations_after_tool_call_raises :
  (exists st,
      run_loop loads_covered always_search (search_agent 1) "Find users"
      = Returned st
      /\ iteration st = 1
      /\ done st = false
      /\ tools_used st = ["search_users"]
      /\ llm_turns (messages st) = 1%nat)
  /\ run loads_covered always_search (search_agent 1) "Find users" no_hooks
     = Raised (AttributeError "role").
Proof.
  split.
  - eexists. repeat split; vm_compute; reflexivity.
  - vm_compute. reflexivity.
Qed.

(** C2, on the code: a run of two iterations, the first with a tool call and
    the second with an empty response, returns the fallback string with the
    hooks untouched, although the loop logged one tool name. *)
Theorem fallback_leaves_hooks_unwritten :
  (exists st,
      run_loop loads_covered search_then_empty (search_agent 2) "Find users"
      = Returned st
      /\ tools_used st = ["search_users"])
  /\ exists res,
      run loads_covered search_then_empty (search_agent 2) "Find users" no_hooks
      = Returned res
      /\ output res
         = "Agent reached maximum iterations (2) without completing the task."
      /\ metrics res = [("total_iterations", 2); ("max_iterations_reached", 1)]
      /\ dict_get (metadata (hooks_after res)) "tools_used" = None.
Proof.
  split.
  - eexists. split; vm_compute; reflexivity.
  - eexists. repeat split; vm_compute; reflexivity.
Qed.

(** ** The registry *)

Section Registry.

Lemma dict_get_set_other {V : Type}
      (d : list (string * V)) (k k' : string) (v : V) :
  k <> k' -> dict_get (dict_set d k v) k' = dict_get d k'.
Proof.
  intros N. induction d as [| [k0 v0] d IH]; simpl.
  - apply String.eqb_neq in N. rewrite N. reflexivity.
  - destruct (String.eqb k0 k) eqn:E; simpl.
    + apply String.eqb_eq in E. subst k0.
      apply String.eqb_neq in N. rewrite N. reflexivity.
    + destruct (String.eqb k0 k'); [reflexivity | exact IH].
Qed.

Lemma dict_set_keys {V : Type} (d : list (string * V)) (k : string) (v : V) :
  dict_keys (dict_set d k v)
  = if existsb (String.eqb k) (dict_keys d)
    then dict_keys d
    else (dict_keys d ++ [k])%list.
Proof.
  unfold dict_keys. induction d as [| [k0 v0] d IH]; simpl.
  - reflexivity.
  - rewrite (String.eqb_sym k k0).
    destruct (String.eqb k0 k) eqn:E; simpl.
    + reflexivity.
    + rewrite IH.
      destruct (existsb (String.eqb k) (map fst d)); reflexivity.
Qed.

Lemma existsb_eqb_In (k : string) (l : list string) :
  existsb (String.eqb k) l = true <-> In k l.
Proof.
  rewrite existsb_exists. split.
  - intros [x [Hx E]]. apply String.eqb_eq in E. subst x. exact Hx.
  - intros H. exists k. split; [exact H | apply String.eqb_refl].
Qed.

Lemma dict_set_NoDup {V : Type} (d : list (string * V)) (k : string) (v : V) :
  NoDup (dict_keys d) -> NoDup (dict_keys (dict_set d k v)).
Proof.
  intros H. rewrite dict_set_keys.
  destruct (existsb (String.eqb k) (dict_keys d)) eqn:E; [exact H |].
  apply NoDup_app; [exact H | repeat constructor; intros [] |].
  intros x Hx [<- | []].
  apply existsb_eqb_In in Hx. congruence.
Qed.

Lemma dict_set_named (d : list (string * Tool)) (t : Tool) :
  named_entries d -> named_entries (dict_set d (name t) t).
Proof.
  unfold named_entries. induction d as [| [k0 t0] d IH]; simpl; intros H.
  - repeat constructor.
  - apply Forall_cons_iff in H. destruct H as [H0 Hd]. simpl in H0.
    destruct (String.eqb k0 (name t)) eqn:E.
    + apply String.eqb_eq in E. constructor; [simpl; congruence | exact Hd].
    + constructor; [exact H0 | apply IH; exact Hd].
Qed.

Lemma register_cons (d : list (string * Tool)) (t : Tool) (l : list Tool) :
  register d (t :: l) = register (dict_set d (name t) t) l.
Proof. reflexivity. Qed.

Lemma register_invariant (l : list Tool) :
  forall d,
    NoDup (dict_keys d) -> named_entries d ->
    NoDup (dict_keys (register d l)) /\ named_entries (register d l).
Proof.
  induction l as [| t l IH]; intros d Hn He.
  - split; assumption.
  - rewrite register_cons.
    apply IH; [apply dict_set_NoDup; exact Hn | apply dict_set_named; exact He].
Qed.

Lemma register_app (l1 l2 : list Tool) (d : list (string * Tool)) :
  register d (l1 ++ l2) = register (register d l1) l2.
Proof. unfold register. rewrite map_app, fold_left_app. reflexivity. Qed.

Lemma register_get_other (l : list Tool) (k : string) :
  forall d,
    (forall t, In t l -> name t <> k) ->
    dict_get (register d l) k = dict_get d k.
Proof.
  induction l as [| t l IH]; intros d H.
  - reflexivity.
  - rewrite register_cons, IH.
    + apply dict_get_set_other. apply H. left. reflexivity.
    + intros t' Ht'. apply H. right. exact Ht'.
Qed.

Lemma filter_named_absent (d : list (string * Tool)) (k : string) :
  named_entries d -> ~ In k (dict_keys d) ->
  filter (schema_named k) (map to_function_schema (dict_values d)) = [].
Proof.
  unfold named_entries.
  induction d as [| [k0 t0] d IH]; simpl; intros He Hk.
  - reflexivity.
  - apply Forall_cons_iff in He. destruct He as [H0 Hd]. simpl in H0. rewrite H0.
    destruct (String.eqb k0 k) eqn:E.
    + apply String.eqb_eq in E. exfalso. apply Hk. left. exact E.
    + apply IH; [exact Hd | intros C; apply Hk; right; exact C].
Qed.

Lemma filter_named_present (d : list (string * Tool)) (k : string) (t : Tool) :
  named_entries d -> NoDup (dict_keys d) -> dict_get d k = Some t ->
  filter (schema_named k) (map to_function_schema (dict_values d))
  = [to_function_schema t].
Proof.
  unfold named_entries.
  induction d as [| [k0 t0] d IH]; simpl; intros He Hn Hg.
  - discriminate Hg.
  - apply Forall_cons_iff in He. destruct He as [H0 Hd]. simpl in H0. rewrite H0.
    apply NoDup_cons_iff in Hn. destruct Hn as [Hnot Hn'].
    destruct (String.eqb k0 k) eqn:E.
    + apply String.eqb_eq in E. subst k0. injection Hg as ->.
      f_equal. apply filter_named_absent; [exact Hd | congruence].
    + apply IH; [exact Hd | exact Hn' | exact Hg].
Qed.

(** C9. When the list of tools given to the constructor holds two tools of
    one name, the later one being the last of that name, the registry maps
    the name to the later tool, dispatch of a call by that name runs the
    later tool, and exactly one advertised schema carries the name, that
    of the later tool; the constructor is a total function and raises
    nothing. *)
Theorem duplicate_name_keeps_last
        (pre mid post : list Tool) (t1 t2 : Tool) (opts : AgentOptions) :
  name t1 = name t2 ->
  (forall t, In t post -> name t <> name t2) ->
  let agent := init (pre ++ t1 :: mid ++ t2 :: post) opts in
  dict_get (tools agent) (name t2) = Some t2
  /\ filter (schema_named (name t2)) (functions agent)
     = [to_function_schema t2]
  /\ forall loads tool_call,
      call_name tool_call = name t2 ->
      _execute_tool loads agent tool_call
      = match try_execute loads t2 tool_call with
        | Returned r => Returned r
        | Raised e =>
            if is_Exception e
            then Returned (error_result (name t2) e)
            else Raised e
        end.
Proof.
  intros _ Hpost agent.
  assert (Hreg : tools agent
                 = register [] (pre ++ t1 :: mid ++ t2 :: post))
    by reflexivity.
  assert (Hget : dict_get (tools agent) (name t2) = Some t2).
  { rewrite Hreg.
    change (t1 :: mid ++ t2 :: post)%list
      with ((t1 :: mid) ++ [t2] ++ post)%list.
    rewrite !List.app_assoc, register_app.
    rewrite (register_get_other post (name t2)) by exact Hpost.
    rewrite register_app, register_cons. apply dict_get_set_same. }
  destruct (register_invariant (pre ++ t1 :: mid ++ t2 :: post) []
                               (NoDup_nil _) (Forall_nil _)) as [Hn He].
  rewrite <- Hreg in Hn, He.
  split; [exact Hget | split].
  - unfold functions. apply filter_named_present; assumption.
  - intros loads tool_call Hc. unfold _execute_tool.
    fold (call_name tool_call). rewrite Hc, Hget. reflexivity.
Qed.

End Registry.

(** ** Serialization round trip *)

Section RoundTrip.





(** *** Strings *)




(** *** What follows a number *)










Lemma parse_value_unfold (fuel : nat) (c : ascii) (r : string) :
  parse_value (S fuel) (String c r)
  = if is_char c 34 then
      match scan_string r with
      | Parsed str rest => Parsed (PyStr str) rest
      | Stopped why => Stopped why
      end
    else if is_char c 123 then
      match skip_ws r with
      | String c1 r1 =>
          if is_char c1 125 then Parsed (PyDict []) r1
          else
            match parse_members fuel (String c1 r1) with
            | Parsed pairs rest => Parsed (PyDict (dict_of_pairs pairs)) rest
            | Stopped why => Stopped why
            end
      | EmptyString => Stopped Malformed
      end
    else if is_char c 91 then
      match skip_ws r with
      | String c1 r1 =>
          if is_char c1 93 then Parsed (PyList []) r1
          else
            match parse_elements fuel (String c1 r1) with
            | Parsed vs rest => Parsed (PyList vs) rest
            | Stopped why => Stopped why
            end
      | EmptyString => Stopped Malformed
      end
    else if is_char c 110 then scan_constant "null" PyNone (String c r)
    else if is_char c 116 then scan_constant "true" (PyBool true) (String c r)
    else if is_char c 102 then
      scan_constant "false" (PyBool false) (String c r)
    else if is_char c 78 then
      scan_constant "NaN" (PyFloat S754_nan) (String c r)
    else if is_char c 73 then
      scan_constant "Infinity" (PyFloat (S754_infinity false)) (String c r)
    else
      match strip_prefix "-Infinity" (String c r) with
      | Some rest => Parsed (PyFloat (S754_infinity true)) rest
      | None => scan_number (String c r)
      end.
Proof. reflexivity. Qed.





(** *** Integers *)

Lemma length_string_of_uint (u : Decimal.uint) :
  String.length (NilEmpty.string_of_uint u) = Decimal.nb_digits u.
Proof. induction u; simpl; try rewrite IHu; reflexivity. Qed.


Lemma nzhead_no_leading_zero (u : Decimal.uint) :
  leading_zero (Decimal.nzhead u) = false.
Proof. induction u; simpl; try reflexivity; exact IHu. Qed.

Lemma unorm_no_leading_zero (u : Decimal.uint) :
  leading_zero (Decimal.unorm u) = false.
Proof.
  unfold Decimal.unorm.
  pose proof (nzhead_no_leading_zero u) as H.
  destruct (Decimal.nzhead u); try reflexivity; exact H.
Qed.

Lemma to_uint_no_leading_zero (p : positive) :
  leading_zero (Pos.to_uint p) = false.
Proof.
  pose proof (DecimalPos.Unsigned.to_of (Pos.to_uint p)) as H.
  rewrite DecimalPos.Unsigned.of_to in H. simpl in H.
  rewrite H. apply unorm_no_leading_zero.
Qed.



Lemma str_of_int_uint (z : Z) :
  exists (negative : bool) (u : Decimal.uint),
    str_of_int z
    = (if negative then "-" else EmptyString) ++ NilEmpty.string_of_uint u
    /\ u <> Decimal.Nil
    /\ leading_zero u = false
    /\ Z.of_int (if negative then Decimal.Neg u else Decimal.Pos u) = z
    /\ int_digits z = Decimal.nb_digits u.
Proof.
  unfold int_digits, str_of_int. destruct z as [| p | p]; simpl.
  - exists false, (Decimal.D0 Decimal.Nil). repeat split. discriminate.
  - exists false, (Pos.to_uint p).
    pose proof (DecimalPos.Unsigned.to_uint_nonnil p) as Hn.
    assert (E : NilZero.string_of_uint (Pos.to_uint p)
                = NilEmpty.string_of_uint (Pos.to_uint p)).
    { unfold NilZero.string_of_uint.
      destruct (Pos.to_uint p); try contradiction; reflexivity. }
    repeat split.
    + exact E.
    + exact Hn.
    + apply to_uint_no_leading_zero.
    + apply (DecimalZ.of_to (Z.pos p)).
    + rewrite E. apply length_string_of_uint.
  - exists true, (Pos.to_uint p).
    pose proof (DecimalPos.Unsigned.to_uint_nonnil p) as Hn.
    assert (E : NilZero.string_of_uint (Pos.to_uint p)
                = NilEmpty.string_of_uint (Pos.to_uint p)).
    { unfold NilZero.string_of_uint.
      destruct (Pos.to_uint p); try contradiction; reflexivity. }
    repeat split.
    + rewrite E. reflexivity.
    + exact Hn.
    + apply to_uint_no_leading_zero.
    + apply (DecimalZ.of_to (Z.neg p)).
    + rewrite E. apply length_string_of_uint.
Qed.




(** *** Floats *)









(** *** Unfolding the decoder *)




Lemma parse_elements_unfold (fuel : nat) (s : string) :
  parse_elements (S fuel) s
  = match parse_value fuel s with
    | Parsed v r =>
        match skip_ws r with
        | String c r1 =>
            if is_char c 44 then
              match parse_elements fuel (skip_ws r1) with
              | Parsed vs rest => Parsed (v :: vs) rest
              | Stopped why => Stopped why
              end
            else if is_char c 93 then Parsed [v] r1
            else Stopped Malformed
        | EmptyString => Stopped Malformed
        end
    | Stopped why => Stopped why
    end.
Proof. reflexivity. Qed.

Lemma parse_members_unfold (fuel : nat) (q : ascii) (r : string) :
  parse_members (S fuel) (String q r)
  = if is_char q 34 then
      match scan_string r with
      | Parsed k r1 =>
          match skip_ws r1 with
          | String c r2 =>
              if is_char c 58 then
                match parse_value fuel (skip_ws r2) with
                | Parsed v r3 =>
                    match skip_ws r3 with
                    | String c' r4 =>
                        if is_char c' 44 then
                          match parse_members fuel (skip_ws r4) with
                          | Parsed ms rest => Parsed ((k, v) :: ms) rest
                          | Stopped why => Stopped why
                          end
                        else if is_char c' 125 then Parsed [(k, v)] r4
                        else Stopped Malformed
                    | EmptyString => Stopped Malformed
                    end
                | Stopped why => Stopped why
                end
              else Stopped Malformed
          | EmptyString => Stopped Malformed
          end
      | Stopped why => Stopped why
      end
    else Stopped Malformed.
Proof. reflexivity. Qed.





(** *** Shapes of the serialized text *)

Lemma encode_PyList (l : list pyval) :
  encode (PyList l)
  = match encode_list l with
    | Some parts => Some ("[" ++ join_items parts ++ "]")
    | None => None
    end.
Proof. reflexivity. Qed.

Lemma encode_PyTuple (l : list pyval) : encode (PyTuple l) = encode (PyList l).
Proof. reflexivity. Qed.

Lemma encode_PyDict (items : list (string * pyval)) :
  encode (PyDict items)
  = match encode_items items with
    | Some parts => Some ("{" ++ join_items parts ++ "}")
    | None => None
    end.
Proof. reflexivity. Qed.


Lemma encode_list_cons (v : pyval) (vs : list pyval) (parts : list string) :
  encode_list (v :: vs) = Some parts ->
  exists p ps,
    parts = p :: ps /\ encode v = Some p /\ encode_list vs = Some ps.
Proof.
  unfold encode_list. simpl.
  destruct (encode v) as [p |]; [| discriminate].
  destruct (sequence_opt (map encode vs)) as [ps |]; [| discriminate].
  intros H. injection H as <-. exists p, ps. repeat split.
Qed.

Lemma encode_items_cons
      (k : string) (v : pyval) (items : list (string * pyval))
      (parts : list string) :
  encode_items ((k, v) :: items) = Some parts ->
  exists e ps,
    parts = (encode_str k ++ ": " ++ e) :: ps
    /\ encode v = Some e /\ encode_items items = Some ps.
Proof.
  unfold encode_items. simpl.
  destruct (encode v) as [e |]; [| discriminate].
  match goal with
  | |- context [sequence_opt ?x] => destruct (sequence_opt x) as [ps |]
  end; [| discriminate].
  intros H. injection H as <-. exists e, ps. repeat split.
Qed.








(** *** Dicts read back *)

Lemma distinct_keys_NoDup (keys : list string) :
  distinct_keys keys = true -> NoDup keys.
Proof.
  induction keys as [| k keys IH]; simpl; intros H.
  - constructor.
  - apply andb_true_iff in H. destruct H as [H1 H2].
    constructor; [| apply IH; exact H2].
    intros C. apply existsb_eqb_In in C. rewrite C in H1. discriminate H1.
Qed.

Lemma dict_set_fresh {V : Type} (d : list (string * V)) (k : string) (v : V) :
  ~ In k (dict_keys d) -> dict_set d k v = (d ++ [(k, v)])%list.
Proof.
  induction d as [| [k0 v0] d IH]; simpl; intros H.
  - reflexivity.
  - destruct (String.eqb k0 k) eqn:E.
    + apply String.eqb_eq in E. exfalso. apply H. left. exact E.
    + rewrite IH; [reflexivity |]. intros C. apply H. right. exact C.
Qed.

Lemma fold_dict_set_distinct {V : Type} (l : list (string * V)) :
  forall acc,
    NoDup (dict_keys (acc ++ l)) ->
    fold_left (fun d kv => dict_set d (fst kv) (snd kv)) l acc
    = (acc ++ l)%list.
Proof.
  induction l as [| [k v] l IH]; intros acc H; simpl.
  - rewrite List.app_nil_r. reflexivity.
  - assert (F : ~ In k (dict_keys acc)).
    { unfold dict_keys in *. rewrite map_app in H. simpl in H.
      apply NoDup_remove_2 in H. intros C. apply H.
      apply in_or_app. left. exact C. }
    rewrite (dict_set_fresh acc k v F), IH.
    + rewrite <- List.app_assoc. reflexivity.
    + rewrite <- List.app_assoc. exact H.
Qed.


(** *** Reading back what was written *)

Lemma size_positive (v : pyval) : (1 <= size v)%nat.
Proof. destruct v; simpl; lia. Qed.

Lemma size_PyList (l : list pyval) : size (PyList l) = S (size_list l).
Proof. reflexivity. Qed.

Lemma size_PyDict (items : list (string * pyval)) :
  size (PyDict items) = S (size_items items).
Proof. reflexivity. Qed.

Lemma size_PyTuple (l : list pyval) : size (PyTuple l) = S (size_list l).
Proof. reflexivity. Qed.

Lemma size_list_cons (v : pyval) (vs : list pyval) :
  size_list (v :: vs) = S (size v + size_list vs).
Proof. reflexivity. Qed.

Lemma size_items_cons (kv : string * pyval) (items : list (string * pyval)) :
  size_items (kv :: items) = S (size (snd kv) + size_items items).
Proof. reflexivity. Qed.

Lemma well_formed_PyDict (items : list (string * pyval)) :
  well_formed (PyDict items)
  = distinct_keys (map fst items)
    && forallb (fun kv => well_formed (snd kv)) items.
Proof. reflexivity. Qed.

Lemma well_formed_PyList (l : list pyval) :
  well_formed (PyList l) = forallb well_formed l.
Proof. reflexivity. Qed.





(** *** The decoder has enough rounds *)




End RoundTrip.

(** ** The statements at concrete runs *)

(** The scenario of two iterations: a call of [search_users], then the text
    "Done.". *)
Example scenario_tool_then_answer :
  run loads_covered search_then_done (search_agent 2) "Find users" no_hooks
  = Returned {| output := "Done.";
                hooks_after :=
                  {| metadata :=
                       [("tools_used", PyList [PyStr "search_users"])] |};
                metrics := [("total_iterations", 2)] |}.
Proof. vm_compute. reflexivity. Qed.

Lemma tool_failure_is_isolated_witness :
  _execute_tool loads_covered (search_agent 2) bad_keyword_call
  = Returned
      {| success := false;
         message :=
           "Error executing search_users: SearchUsersTool.execute() got an unexpected keyword argument 'foo'";
         data := PyNone |}
  /\ forall rest st,
      for_tool_calls loads_covered (search_agent 2) (bad_keyword_call :: rest) st
      = for_tool_calls loads_covered (search_agent 2) rest
          (record_turn
             bad_keyword_call
             (failed_json
                "Error executing search_users: SearchUsersTool.execute() got an unexpected keyword argument 'foo'")
             st).
Proof.
  pose proof (tool_failure_is_isolated
                loads_covered always_search (search_agent 2) bad_keyword_call
                SearchUsersTool unexpected_keyword eq_refl eq_refl
                (or_intror
                   (ex_intro _ (PyDict [("foo", PyInt 1)])
                             (conj eq_refl eq_refl)))) as H.
  cbv zeta in H. destruct H as (H1 & H2 & _).
  split; [exact H1 | exact H2].
Defined.

Lemma unknown_tool_is_recorded_witness :
  _execute_tool loads_covered (search_agent 2) unknown_call
  = Returned {| success := false;
                message := "Unknown tool: delete_user";
                data := PyNone |}
  /\ forall rest st,
      for_tool_calls loads_covered (search_agent 2) (unknown_call :: rest) st
      = for_tool_calls loads_covered (search_agent 2) rest
          (record_turn unknown_call (failed_json "Unknown tool: delete_user")
                       st).
Proof.
  pose proof (unknown_tool_is_recorded
                loads_covered always_search (search_agent 2) unknown_call
                eq_refl) as H.
  cbv zeta in H. destruct H as (H1 & H2 & _).
  split; [exact H1 | exact H2].
Defined.

Lemma tool_calls_take_priority_witness :
  loop_guard (search_agent 2) (initial_state (search_agent 2) "Find users")
  = true
  /\ exists st',
      loop_body loads_covered text_call_then_done (search_agent 2)
                (initial_state (search_agent 2) "Find users")
      = Returned st'
      /\ done st' = false
      /\ iteration st' = 1
      /\ tools_used st' = ["search_users"]
      /\ loop_guard (search_agent 2) st' = true.
Proof.
  destruct (tool_calls_take_priority
              loads_covered text_call_then_done (search_agent 2)
              (initial_state (search_agent 2) "Find users") call_with_text
              eq_refl eq_refl eq_refl eq_refl) as (_ & H2 & H3).
  split; [reflexivity |].
  destruct (H3 eq_refl) as [st' Hst'].
  exists st'. destruct (H2 st' Hst') as (D & I & U & G & _).
  repeat split; try assumption.
  apply G. rewrite I. reflexivity.
Defined.

Lemma iteration_bounded_and_counted_witness :
  exists st',
    while_loop loads_covered search_then_done (search_agent 2) 5
               (initial_state (search_agent 2) "Find users")
    = Returned st'
    /\ iteration st' <= 2
    /\ iteration st' = Z.of_nat (llm_turns (messages st'))
    /\ loop_guard (search_agent 2) st' = false.
Proof.
  destruct (while_loop loads_covered search_then_done (search_agent 2) 5
                       (initial_state (search_agent 2) "Find users"))
    as [st' | e] eqn:E; [| vm_compute in E; discriminate E].
  exists st'. split; [reflexivity |].
  destruct (iteration_bounded_and_counted
              loads_covered search_then_done (search_agent 2) 5 "Find users"
              no_hooks st') as (H1 & H2 & _ & H4 & _).
  - vm_compute. discriminate.
  - exact E.
  - repeat split; [exact H1 | exact H2 |].
    apply H4. vm_compute. repeat constructor.
Defined.

Lemma first_answer_verbatim_witness :
  1 <= max_iterations (options (search_agent 3))
  /\ run loads_covered (scripted [text_message "Done."]) (search_agent 3)
         "Hello" no_hooks
     = Returned {| output := "Done.";
                   hooks_after :=
                     {| metadata := [("tools_used", PyList [])] |};
                   metrics := [("total_iterations", 1)] |}.
Proof.
  assert (H : 1 <= max_iterations (options (search_agent 3)))
    by (vm_compute; discriminate).
  split; [exact H |].
  apply (proj2 (first_answer_verbatim
                  loads_covered (scripted [text_message "Done."]) (search_agent 3)
                  "Hello" no_hooks (text_message "Done.") "Done."
                  H eq_refl eq_refl eq_refl ltac:(discriminate))).
Defined.



(** C3 as stated fails for an exception outside [Exception]: a registered
    tool whose execution is cancelled makes dispatch raise, and [run] with
    it, before the sibling calls and the next iteration. *)
Lemma cancelled_tool_call_aborts_run :
  dict_get (tools export_agent) (call_name export_call) = Some ExportTool
  /\ loads_covered (arguments (function export_call)) = Returned (PyDict [])
  /\ execute_kwargs ExportTool (PyDict []) = Raised CancelledError
  /\ _execute_tool loads_covered export_agent export_call
     = Raised CancelledError
  /\ _execute_tool loads_covered export_agent export_call
     <> Returned {| success := false;
                    message := "Error executing " ++ call_name export_call
                                 ++ ": " ++ exc_str CancelledError;
                    data := PyNone |}
  /\ for_tool_calls loads_covered export_agent
                    [export_call; search_call "call_4" "{}"]
                    (initial_state export_agent "Export the report")
     = Raised CancelledError
  /\ run loads_covered export_then_done export_agent "Export the report"
         no_hooks
     = Raised CancelledError.
Proof.
  repeat split; try (vm_compute; reflexivity).
  vm_compute. discriminate.
Qed.

Lemma duplicate_name_keeps_last_witness :
  name SearchUsersTool = name StubSearchTool
  /\ dict_get (tools duplicate_agent) "search_users" = Some StubSearchTool
  /\ filter (schema_named "search_users") (functions duplicate_agent)
     = [to_function_schema StubSearchTool].
Proof.
  pose proof (duplicate_name_keeps_last
                [] [] [] SearchUsersTool StubSearchTool default_options
                eq_refl (fun t (H : In t []) => match H with end)) as H.
  cbv zeta in H. destruct H as (H1 & H2 & _).
  split; [reflexivity | split; [exact H1 | exact H2]].
Defined.

Lemma tools_used_records_requests_witness :
  exists st',
    for_tool_calls loads_covered (search_agent 2) three_calls
                   (initial_state (search_agent 2) "Find users")
    = Returned st'
    /\ tools_used st' = ["search_users"; "delete_user"; "search_users"].
Proof.
  apply (proj2 (tools_used_records_requests
                  loads_covered (search_agent 2) three_calls
                  (initial_state (search_agent 2) "Find users"))).
  - intros tc t r Hin Hl Ht.
    destruct Hin as [<- | [<- | [<- | []]]];
      vm_compute in Hl; try discriminate Hl; injection Hl as <-;
      vm_compute in Ht; try discriminate Ht; injection Ht as <-;
      vm_compute; discriminate.
  - intros tc t e Hin Hl Ht.
    destruct Hin as [<- | [<- | [<- | []]]];
      vm_compute in Hl; try discriminate Hl; injection Hl as <-;
      vm_compute in Ht; try discriminate Ht; injection Ht as <-;
      reflexivity.
Defined.

(** * Further properties of the loop *)

Section Transcript.

Variable loads : string -> outcome pyval.
Variable create : Request -> outcome ChatCompletionMessage.
Variable self : AgentWhileLoop.

Lemma requested_names_app (a b : list Message) :
  requested_names (a ++ b) = (requested_names a ++ requested_names b)%list.
Proof. unfold requested_names. apply flat_map_app. Qed.

Lemma tool_messages_request_nothing
      (calls : list ToolCall) (msgs : list Message) :
  tool_messages_for loads self calls msgs ->
  requested_names msgs = [] /\ llm_turns msgs = 0%nat.
Proof.
  unfold tool_messages_for.
  induction 1 as [| tc m calls msgs (r & c & _ & _ & ->) _ [IH1 IH2]].
  - split; reflexivity.
  - split.
    + change (requested_names (tool_message tc c :: msgs))
        with (requested_names msgs). exact IH1.
    + exact IH2.
Qed.

Lemma for_tool_calls_messages (calls : list ToolCall) :
  forall st st',
    for_tool_calls loads self calls st = Returned st' ->
    exists msgs,
      messages st' = (messages st ++ msgs)%list
      /\ tool_messages_for loads self calls msgs.
Proof.
  induction calls as [| tc rest IH]; intros st st' H; simpl in H.
  - injection H as <-. exists []. split.
    + rewrite List.app_nil_r. reflexivity.
    + constructor.
  - bind_inv H. rename a into st1. unfold tool_turn in Ha.
    bind_inv Ha. rename a into r. bind_inv Ha. rename a into c.
    injection Ha as <-.
    destruct (IH _ _ H) as [msgs [E F]]. simpl in E.
    exists (tool_message tc c :: msgs). split.
    + rewrite E, <- List.app_assoc. reflexivity.
    + constructor; [| exact F]. exists r, c. repeat split; assumption.
Qed.

(** The three ways an iteration returns. *)
Lemma loop_body_cases (st st' : LoopState) :
  loop_body loads create self st = Returned st' ->
  exists m,
    _get_llm_response create self (messages st) = Returned m
    /\ ((tool_calls_truthy (tool_calls m) = true
         /\ exists st2,
            for_tool_calls loads self (calls_of (tool_calls m))
                           (with_assistant st m) = Returned st2
            /\ st' = next_iteration st2)
        \/ (tool_calls_truthy (tool_calls m) = false
            /\ content_truthy (content m) = true
            /\ st' = next_iteration (set_done (with_assistant st m)))
        \/ (tool_calls_truthy (tool_calls m) = false
            /\ content_truthy (content m) = false
            /\ st' = next_iteration (with_assistant st m))).
Proof.
  unfold loop_body. intros H.
  bind_inv H. rename a into m. bind_inv H. rename a into st2.
  injection H as <-. exists m. split; [exact Ha |].
  destruct (tool_calls_truthy (tool_calls m)) eqn:Ht.
  - left. split; [reflexivity |]. exists st2. split; [exact Ha0 | reflexivity].
  - destruct (content_truthy (content m)) eqn:Hc; injection Ha0 as <-.
    + right. left. repeat split.
    + right. right. repeat split.
Qed.

Lemma falsy_calls_empty (m : ChatCompletionMessage) :
  tool_calls_truthy (tool_calls m) = false -> calls_of (tool_calls m) = [].
Proof. destruct (tool_calls m) as [[| ? ?] |]; simpl; congruence. Qed.

(** What one iteration does to the transcript and to the log. *)
Lemma loop_body_transcript (st st' : LoopState) :
  loop_body loads create self st = Returned st' ->
  exists m msgs,
    messages st' = (messages st ++ MsgObj m :: msgs)%list
    /\ tool_messages_for loads self (calls_of (tool_calls m)) msgs
    /\ tools_used st'
       = (tools_used st ++ map call_name (calls_of (tool_calls m)))%list.
Proof.
  intros H. apply loop_body_cases in H.
  destruct H as [m [_ [(Ht & st2 & Hf & ->) | [(Ht & _ & ->) | (Ht & _ & ->)]]]].
  - destruct (for_tool_calls_messages _ _ _ Hf) as [msgs [E F]].
    apply for_tool_calls_returned in Hf. destruct Hf as (_ & _ & Hu & _).
    exists m, msgs. simpl in *. repeat split.
    + rewrite E, <- List.app_assoc. reflexivity.
    + exact F.
    + exact Hu.
  - exists m, []. rewrite (falsy_calls_empty m Ht). simpl.
    rewrite List.app_nil_r. repeat split. constructor.
  - exists m, []. rewrite (falsy_calls_empty m Ht). simpl.
    rewrite List.app_nil_r. repeat split. constructor.
Qed.

Lemma while_loop_grows (rounds : nat) :
  forall st st',
    while_loop loads create self rounds st = Returned st' ->
    exists msgs names,
      messages st' = (messages st ++ msgs)%list
      /\ tools_used st' = (tools_used st ++ names)%list.
Proof.
  induction rounds as [| n IH]; intros st st' H; simpl in H.
  - exists [], []. rewrite !List.app_nil_r.
    destruct (loop_guard self st); injection H as <-; split; reflexivity.
  - destruct (loop_guard self st).
    + bind_inv H. rename a into st1.
      apply loop_body_transcript in Ha.
      destruct Ha as (m & msgs & E & _ & U).
      destruct (IH _ _ H) as (msgs' & names' & E' & U').
      exists ((MsgObj m :: msgs) ++ msgs')%list,
             (map call_name (calls_of (tool_calls m)) ++ names')%list.
      rewrite E', E, U', U, !List.app_assoc. split; reflexivity.
    + injection H as <-. exists [], []. rewrite !List.app_nil_r.
      split; reflexivity.
Qed.

(** X1. The transcript only grows: what [run_loop] returns begins with the
    messages the run started from, which are the system prompt, present
    exactly when it is not empty, and then the user's query. *)
Theorem transcript_starts_with_prompt_and_query
        (query : string) (st' : LoopState) :
  run_loop loads create self query = Returned st' ->
  exists msgs,
    messages st' = (initial_messages self query ++ msgs)%list
    /\ (system_prompt (options self) = EmptyString ->
        initial_messages self query
        = [MsgDict [("role", PyStr "user"); ("content", PyStr query)]])
    /\ (system_prompt (options self) <> EmptyString ->
        initial_messages self query
        = [MsgDict [("role", PyStr "system");
                    ("content", PyStr (system_prompt (options self)))];
           MsgDict [("role", PyStr "user"); ("content", PyStr query)]]).
Proof.
  intros L. unfold run_loop in L. apply while_loop_grows in L.
  destruct L as (msgs & _ & E & _). exists msgs.
  split; [exact E |]. unfold initial_messages. split.
  - intros ->. reflexivity.
  - intros N. rewrite (str_truthy_nonempty _ N). reflexivity.
Qed.

Lemma run_loop_log (query : string) (st' : LoopState) :
  run_loop loads create self query = Returned st' ->
  tools_used st' = requested_names (messages st').
Proof.
  assert (Inv : forall rounds st st1,
             tools_used st = requested_names (messages st) ->
             while_loop loads create self rounds st = Returned st1 ->
             tools_used st1 = requested_names (messages st1)).
  { induction rounds as [| n IH]; intros st st1 I H; simpl in H.
    - destruct (loop_guard self st); injection H as <-; exact I.
    - destruct (loop_guard self st); [| injection H as <-; exact I].
      bind_inv H. rename a into st2. apply (IH st2 st1); [| exact H].
      apply loop_body_transcript in Ha.
      destruct Ha as (m & msgs & E & F & U).
      apply tool_messages_request_nothing in F. destruct F as [F _].
      rewrite U, E, requested_names_app, I.
      change (MsgObj m :: msgs) with ([MsgObj m] ++ msgs)%list.
      rewrite requested_names_app, F. simpl.
      rewrite !List.app_nil_r. reflexivity. }
  unfold run_loop. apply Inv. simpl. unfold initial_messages.
  destruct (str_truthy (system_prompt (options self))); reflexivity.
Qed.

(** X2. The log of tool names is the list of the names requested by the
    assistant messages of the transcript, in transcript order and with
    repetitions, across all iterations; a returned answer writes exactly
    this list into the hooks. *)
Theorem tools_used_is_request_log
        (query : string) (hooks : Hooks) (st' : LoopState) :
  run_loop loads create self query = Returned st' ->
  tools_used st' = requested_names (messages st')
  /\ forall res,
      run loads create self query hooks = Returned res ->
      dict_get (metrics res) "max_iterations_reached" = None ->
      dict_get (metadata (hooks_after res)) "tools_used"
      = Some (PyList (map PyStr (requested_names (messages st')))).
Proof.
  intros L. pose proof (run_loop_log query st' L) as U.
  split; [exact U |].
  intros res H Hflag. unfold run in H. rewrite L in H. simpl in H.
  apply finish_hooks in H. destruct H as [[_ Hm] | [C _]].
  - rewrite <- U. exact Hm.
  - rewrite C in Hflag. discriminate Hflag.
Qed.

Lemma tool_messages_ids (calls : list ToolCall) (msgs : list Message) :
  tool_messages_for loads self calls msgs ->
  map message_tool_call_id msgs = map (fun tc => Some (call_id tc)) calls.
Proof.
  unfold tool_messages_for.
  induction 1 as [| tc m calls msgs (r & c & _ & _ & ->) _ IH].
  - reflexivity.
  - simpl map. rewrite IH. reflexivity.
Qed.

(** X3. When the for loop over the calls of a message returns, it has
    appended to the transcript exactly one tool message per call, in
    request order: each carries the identifier of its call and, as
    content, the serialization of what dispatch returned for it. *)
Theorem tool_messages_follow_requests
        (calls : list ToolCall) (st st' : LoopState) :
  for_tool_calls loads self calls st = Returned st' ->
  exists msgs,
    messages st' = (messages st ++ msgs)%list
    /\ tool_messages_for loads self calls msgs
    /\ map message_tool_call_id msgs
       = map (fun tc => Some (call_id tc)) calls.
Proof.
  intros H. destruct (for_tool_calls_messages _ _ _ H) as [msgs [E F]].
  exists msgs. repeat split; [exact E | exact F |].
  apply tool_messages_ids. exact F.
Qed.

End Transcript.

(** ** Failures of the model and of the tools *)

Section Failures.

Variable loads : string -> outcome pyval.
Variable create : Request -> outcome ChatCompletionMessage.
Variable self : AgentWhileLoop.

Lemma tool_turn_raised (tc : ToolCall) (st : LoopState) (e : PyExc) :
  tool_turn loads self tc st = Raised e ->
  (exists t,
      dict_get (tools self) (call_name tc) = Some t
      /\ try_execute loads t tc = Raised e
      /\ is_Exception e = false)
  \/ (exists r,
         _execute_tool loads self tc = Returned r
         /\ json_dumps (ToolResult_dict r) = Raised e).
Proof.
  unfold tool_turn. intros H.
  pose proof (execute_tool_cases loads self tc) as C.
  destruct (_execute_tool loads self tc) as [r | e'] eqn:D.
  - right. exists r. split; [reflexivity |].
    cbv beta iota delta [bind] in H.
    destruct (json_dumps (ToolResult_dict r)) as [c | e'']; [discriminate H |].
    injection H as ->. reflexivity.
  - simpl in H. injection H as ->. left.
    destruct (dict_get (tools self) (call_name tc)) as [t |];
      [| discriminate C].
    exists t. split; [reflexivity |].
    destruct (try_execute loads t tc) as [r | e'] eqn:T; [discriminate C |].
    destruct (is_Exception e') eqn:X; [discriminate C |].
    injection C as ->. split; [reflexivity | exact X].
Qed.

(** X4. The for loop over the tool calls fails in two ways only: the
    decoder or a registered tool raised an exception outside [Exception],
    which dispatch lets through, or [json.dumps] rejected the result of
    dispatch.  An unknown name, and an exception derived from [Exception],
    never end it. *)
Theorem tool_turns_fail_two_ways
        (calls : list ToolCall) (st : LoopState) (e : PyExc) :
  for_tool_calls loads self calls st = Raised e ->
  exists tc,
    In tc calls
    /\ ((exists t,
           dict_get (tools self) (call_name tc) = Some t
           /\ try_execute loads t tc = Raised e
           /\ is_Exception e = false)
        \/ (exists r,
              _execute_tool loads self tc = Returned r
              /\ json_dumps (ToolResult_dict r) = Raised e)).
Proof.
  revert st. induction calls as [| tc rest IH]; intros st H; simpl in H.
  - discriminate H.
  - destruct (tool_turn loads self tc st) as [st1 | e1] eqn:T.
    + simpl in H. destruct (IH st1 H) as [tc' [Hin Hc]].
      exists tc'. split; [right; exact Hin | exact Hc].
    + simpl in H. injection H as ->.
      exists tc. split; [left; reflexivity |].
      apply (tool_turn_raised tc st e T).
Qed.

(** X5. A raise of the model call in an iteration the loop executes ends
    the while loop with that exception: there is no retry and no
    fallback. *)
Theorem model_failure_propagates (rounds : nat) (st : LoopState) (e : PyExc) :
  loop_guard self st = true ->
  _get_llm_response create self (messages st) = Raised e ->
  while_loop loads create self (S rounds) st = Raised e.
Proof.
  intros G H. rewrite (while_loop_step _ _ _ _ _ G).
  unfold loop_body. rewrite H. reflexivity.
Qed.

Lemma loop_body_raised (st : LoopState) (e : PyExc) :
  (forall tc, dumps_ok (_execute_tool loads self tc) = true) ->
  loop_body loads create self st = Raised e ->
  _get_llm_response create self (messages st) = Raised e.
Proof.
  intros Hok H. unfold loop_body in H.
  destruct (_get_llm_response create self (messages st)) as [m | e'];
    [| simpl in H; injection H as ->; reflexivity].
  exfalso. cbv beta iota delta [bind] in H.
  destruct (tool_calls_truthy (tool_calls m)).
  - destruct (for_tool_calls_total
                loads self (calls_of (tool_calls m))
                {| messages := (messages st ++ [MsgObj m])%list;
                   iteration := iteration st;
                   done := done st;
                   tools_used := tools_used st |}) as [st2 E].
    + apply forallb_forall. intros tc _. apply Hok.
    + rewrite E in H. discriminate H.
  - destruct (content_truthy (content m)); discriminate H.
Qed.

(** X6. When every execution of a registered tool either returns a result
    [json.dumps] accepts or raises an exception derived from [Exception],
    an exception that leaves the while loop of [run] was raised by the
    model call of one of its iterations, on the transcript the completed
    iterations had built: no exception of a tool or of the decoding of its
    arguments leaves the loop. *)
Theorem loop_raises_only_model_errors (query : string) (e : PyExc) :
  (forall tc t r,
      dict_get (tools self) (call_name tc) = Some t ->
      try_execute loads t tc = Returned r ->
      encode (ToolResult_dict r) <> None) ->
  (forall tc t e',
      dict_get (tools self) (call_name tc) = Some t ->
      try_execute loads t tc = Raised e' ->
      is_Exception e' = true) ->
  run_loop loads create self query = Raised e ->
  exists rounds st,
    while_loop loads create self rounds (initial_state self query)
    = Returned st
    /\ loop_guard self st = true
    /\ _get_llm_response create self (messages st) = Raised e.
Proof.
  intros Hr He.
  assert (Hok : forall tc, dumps_ok (_execute_tool loads self tc) = true).
  { intros tc. apply dispatch_dumps_ok; [apply Hr | apply He]. }
  unfold run_loop.
  generalize (initial_state self query).
  induction (Z.to_nat (max_iterations (options self))) as [| n IH];
    intros st H; simpl in H.
  - destruct (loop_guard self st); discriminate H.
  - destruct (loop_guard self st) eqn:G; [| discriminate H].
    destruct (loop_body loads create self st) as [st1 | e1] eqn:B.
    + simpl in H. destruct (IH st1 H) as (k & st' & W & G' & L).
      exists (S k), st'. split; [| split; [exact G' | exact L]].
      rewrite (while_loop_step _ _ _ _ _ G), B. exact W.
    + simpl in H. injection H as ->.
      exists 0%nat, st. split; [| split; [exact G |]].
      * simpl. rewrite G. reflexivity.
      * apply (loop_body_raised st e Hok B).
Qed.

End Failures.

(** ** How [run] ends *)

Section Outcome.

Variable loads : string -> outcome pyval.
Variable create : Request -> outcome ChatCompletionMessage.
Variable self : AgentWhileLoop.

Lemma guard_not_done (st : LoopState) :
  loop_guard self st = true -> done st = false.
Proof.
  unfold loop_guard. intros G. apply andb_true_iff in G.
  destruct G as [G _]. destruct (done st); [discriminate G | reflexivity].
Qed.

Lemma loop_body_end (st st' : LoopState) :
  loop_guard self st = true ->
  loop_body loads create self st = Returned st' ->
  ends_consistently st'.
Proof.
  intros G H. apply guard_not_done in G. apply loop_body_cases in H.
  destruct H as [m [_ [(Ht & st2 & Hf & ->) | [(Ht & Hc & ->) | (Ht & Hc & ->)]]]].
  - apply for_tool_calls_returned in Hf.
    destruct Hf as (_ & Hd & _ & _ & Hlast).
    destruct Hlast as [d [front E]].
    { destruct (tool_calls m) as [[| ? ?] |]; simpl in *; congruence. }
    exists front, (MsgDict d). split; [exact E |].
    simpl in *. congruence.
  - exists (messages st), (MsgObj m). simpl. repeat split; congruence.
  - exists (messages st), (MsgObj m). simpl. repeat split; congruence.
Qed.

Lemma while_loop_end (rounds : nat) :
  forall st st',
    ends_consistently st ->
    while_loop loads create self rounds st = Returned st' ->
    ends_consistently st'.
Proof.
  induction rounds as [| n IH]; intros st st' I H; simpl in H.
  - destruct (loop_guard self st); injection H as <-; exact I.
  - destruct (loop_guard self st) eqn:G; [| injection H as <-; exact I].
    bind_inv H. rename a into st1.
    apply (IH st1 st'); [| exact H].
    apply (loop_body_end st st1 G Ha).
Qed.

Lemma run_loop_end (query : string) (st' : LoopState) :
  run_loop loads create self query = Returned st' ->
  ends_consistently st'.
Proof.
  unfold run_loop. apply while_loop_end.
  unfold ends_consistently, initial_state, initial_messages. simpl.
  eexists. eexists. split; reflexivity.
Qed.

Lemma snoc_inj {A : Type} (l1 l2 : list A) (a b : A) :
  (l1 ++ [a])%list = (l2 ++ [b])%list -> l1 = l2 /\ a = b.
Proof. apply app_inj_tail. Qed.

(** What a returning [run] found at the end of the loop. *)
Lemma run_returned (query : string) (hooks : Hooks) (res : RunResult) :
  run loads create self query hooks = Returned res ->
  exists st front m,
    run_loop loads create self query = Returned st
    /\ finish self st hooks = Returned res
    /\ messages st = (front ++ [MsgObj m])%list
    /\ tool_calls_truthy (tool_calls m) = false
    /\ done st = content_truthy (content m)
    /\ 1 <= iteration st <= max_iterations (options self).
Proof.
  unfold run. intros H. bind_inv H. rename a into st.
  pose proof (run_loop_end query st Ha) as (front & last & E & I).
  destruct last as [d | m].
  - rewrite (finish_after_dict self st hooks front d E) in H. discriminate H.
  - destruct I as [It Id].
    exists st, front, m. repeat split; try assumption.
    + pose proof Ha as L. unfold run_loop in L.
      apply while_loop_returned in L. destruct L as (_ & L & _).
      simpl in L. rewrite initial_no_turns in L.
      rewrite E, llm_turns_assistant in L. lia.
    + pose proof Ha as L. unfold run_loop in L.
      destruct (Z_le_gt_dec 0 (max_iterations (options self))) as [P | N].
      * apply while_loop_returned in L. destruct L as (_ & _ & L).
        apply L. simpl. exact P.
      * exfalso.
        assert (Z0 : Z.to_nat (max_iterations (options self)) = 0%nat) by lia.
        rewrite Z0 in L. simpl in L.
        assert (S0 : st = initial_state self query)
          by (destruct (loop_guard self (initial_state self query));
              injection L as <-; reflexivity).
        subst st. unfold initial_state, initial_messages in E. simpl in E.
        apply snoc_inj in E. destruct E as [_ E]. discriminate E.
Qed.

(** X7. When [run] returns the fallback, marked by the metric
    [max_iterations_reached], the last response of the model had neither
    tool calls nor text, the loop never set [done], exactly
    [max_iterations] iterations were executed, and the hooks are as they
    were passed in. *)
Theorem fallback_means_cap_reached
        (query : string) (hooks : Hooks) (res : RunResult) :
  run loads create self query hooks = Returned res ->
  dict_get (metrics res) "max_iterations_reached" = Some 1 ->
  exists st front m,
    run_loop loads create self query = Returned st
    /\ messages st = (front ++ [MsgObj m])%list
    /\ tool_calls_truthy (tool_calls m) = false
    /\ content_truthy (content m) = false
    /\ done st = false
    /\ iteration st = max_iterations (options self)
    /\ output res = fallback_message self
    /\ hooks_after res = hooks
    /\ metrics res = [("total_iterations", max_iterations (options self));
                      ("max_iterations_reached", 1)].
Proof.
  intros H Hflag.
  destruct (run_returned query hooks res H)
    as (st & front & m & L & F & E & Ht & Hd & Hi).
  exists st, front, m.
  unfold finish in F. rewrite E, last_message_snoc in F. simpl in F.
  destruct (content_truthy (content m)) eqn:Hc.
  - bind_inv F. injection F as <-. simpl in Hflag. discriminate Hflag.
  - injection F as <-. simpl.
    pose proof (run_loop_exit loads create self query st L) as G.
    unfold loop_guard in G. rewrite Hd in G. simpl in G.
    apply Z.ltb_ge in G.
    assert (Ei : iteration st = max_iterations (options self)) by lia.
    rewrite Ei. repeat split; assumption.
Qed.

(** X8. When [run] returns without the metric [max_iterations_reached],
    the loop ended on an assistant message with text and without tool
    calls, [done] is set, at most [max_iterations] iterations were
    executed, the returned text is the one extracted from that message,
    and the hooks carry under [tools_used] the log of the loop. *)
Theorem answer_means_done
        (query : string) (hooks : Hooks) (res : RunResult) :
  run loads create self query hooks = Returned res ->
  dict_get (metrics res) "max_iterations_reached" = None ->
  exists st front m,
    run_loop loads create self query = Returned st
    /\ messages st = (front ++ [MsgObj m])%list
    /\ tool_calls_truthy (tool_calls m) = false
    /\ content_truthy (content m) = true
    /\ done st = true
    /\ 1 <= iteration st <= max_iterations (options self)
    /\ answer_text (content m) = Returned (output res)
    /\ metrics res = [("total_iterations", iteration st)]
    /\ metadata (hooks_after res)
       = dict_set (metadata hooks) "tools_used"
                  (PyList (map PyStr (tools_used st))).
Proof.
  intros H Hflag.
  destruct (run_returned query hooks res H)
    as (st & front & m & L & F & E & Ht & Hd & Hi).
  exists st, front, m.
  unfold finish in F. rewrite E, last_message_snoc in F. simpl in F.
  destruct (content_truthy (content m)) eqn:Hc.
  - bind_inv F. rename a into text. injection F as <-. simpl.
    repeat split; try assumption; lia.
  - injection F as <-. simpl in Hflag. discriminate Hflag.
Qed.

(** X9. With a cap of zero or less the model is never called, and [run]
    raises instead of returning the fallback: the transcript ends with
    the user's dict, which has no attribute [role]. *)
Theorem zero_cap_raises (query : string) (hooks : Hooks) :
  max_iterations (options self) <= 0 ->
  run_loop loads create self query = Returned (initial_state self query)
  /\ run loads create self query hooks = Raised (AttributeError "role").
Proof.
  intros Hmax.
  assert (L : run_loop loads create self query
              = Returned (initial_state self query)).
  { unfold run_loop.
    assert (Z0 : Z.to_nat (max_iterations (options self)) = 0%nat) by lia.
    rewrite Z0. simpl.
    destruct (loop_guard self (initial_state self query)); reflexivity. }
  split; [exact L |].
  unfold run. rewrite L. simpl.
  apply (finish_after_dict self (initial_state self query) hooks
           (if str_truthy (system_prompt (options self))
            then [MsgDict [("role", PyStr "system");
                           ("content", PyStr (system_prompt (options self)))]]
            else [])
           [("role", PyStr "user"); ("content", PyStr query)]).
  reflexivity.
Qed.

Lemma join_parts_texts (parts : list (list (string * pyval))) :
  forallb text_is_str parts = true ->
  join_parts parts = Returned (joined_text parts).
Proof.
  induction parts as [| p parts IH]; simpl; intros H.
  - reflexivity.
  - apply andb_true_iff in H. destruct H as [Hp Hr].
    rewrite (IH Hr). unfold part_text, text_is_str, text_of_part in *.
    destruct (dict_get p "text") as [[| | | s | | | | |] |];
      try discriminate Hp; reflexivity.
Qed.

Lemma first_response_answers (query : string) (m : ChatCompletionMessage) :
  1 <= max_iterations (options self) ->
  _get_llm_response create self (initial_messages self query) = Returned m ->
  tool_calls_truthy (tool_calls m) = false ->
  content_truthy (content m) = true ->
  run_loop loads create self query
  = Returned {| messages := (initial_messages self query ++ [MsgObj m])%list;
                iteration := 1;
                done := true;
                tools_used := [] |}.
Proof.
  intros Hmax Hm Ht Hc. unfold run_loop.
  destruct (Z.to_nat (max_iterations (options self))) as [| n] eqn:E; [lia |].
  rewrite while_loop_step.
  - unfold loop_body. simpl messages. rewrite Hm.
    cbv beta iota delta [bind]. rewrite Ht, Hc. simpl.
    apply while_loop_stops. reflexivity.
  - unfold loop_guard. simpl. apply Z.ltb_lt. lia.
Qed.

(** X10. When the first response of the model has no tool calls and its
    content is a non-empty list of parts whose [text] entries are strings,
    [run] returns after one iteration the texts of the parts joined in
    order, a part without [text] contributing nothing. *)
Theorem parts_answer_is_joined
        (query : string) (hooks : Hooks) (m : ChatCompletionMessage)
        (parts : list (list (string * pyval))) :
  1 <= max_iterations (options self) ->
  _get_llm_response create self (initial_messages self query) = Returned m ->
  tool_calls_truthy (tool_calls m) = false ->
  content m = ContentParts parts ->
  parts <> [] ->
  forallb text_is_str parts = true ->
  run loads create self query hooks
  = Returned {| output := joined_text parts;
                hooks_after :=
                  {| metadata :=
                       dict_set (metadata hooks) "tools_used" (PyList []) |};
                metrics := [("total_iterations", 1)] |}.
Proof.
  intros Hmax Hm Ht Hc Hne Hs.
  assert (Htruthy : content_truthy (content m) = true).
  { rewrite Hc. destruct parts; [contradiction | reflexivity]. }
  unfold run. rewrite (first_response_answers query m Hmax Hm Ht Htruthy).
  cbv beta iota delta [bind].
  unfold finish. simpl messages. rewrite last_message_snoc.
  simpl. rewrite Htruthy, Hc. simpl.
  rewrite (join_parts_texts parts Hs). reflexivity.
Qed.

End Outcome.

(** ** What the decoder returns and what the encoder writes *)

Section Serializable.

Lemma sequence_opt_some {A : Type} (l : list (option A)) :
  match sequence_opt l with Some _ => true | None => false end
  = forallb (fun o => match o with Some _ => true | None => false end) l.
Proof.
  induction l as [| [a |] l IH]; simpl; try reflexivity.
  rewrite <- IH. destruct (sequence_opt l); reflexivity.
Qed.

Lemma forallb_over_map {A B : Type} (f : B -> bool) (g : A -> B) (l : list A) :
  forallb f (map g l) = forallb (fun x => f (g x)) l.
Proof. induction l as [| a l IH]; simpl; [| rewrite IH]; reflexivity. Qed.

Lemma serializable_PyList (l : list pyval) :
  serializable (PyList l) = forallb serializable l.
Proof.
  unfold serializable at 1. rewrite encode_PyList. unfold encode_list.
  pose proof (sequence_opt_some (map encode l)) as H.
  rewrite forallb_over_map in H. unfold serializable.
  destruct (sequence_opt (map encode l)); exact H.
Qed.

Lemma forallb_pointwise {A : Type} (f g : A -> bool) (l : list A) :
  (forall a, f a = g a) -> forallb f l = forallb g l.
Proof.
  intros H. induction l as [| a l IH]; simpl; [| rewrite H, IH]; reflexivity.
Qed.

Lemma encode_items_some (items : list (string * pyval)) :
  match encode_items items with Some _ => true | None => false end
  = forallb (fun kv => serializable (snd kv)) items.
Proof.
  unfold encode_items. rewrite sequence_opt_some, forallb_over_map.
  apply forallb_pointwise. intros [k v]. unfold serializable. simpl.
  destruct (encode v); reflexivity.
Qed.

Lemma serializable_PyDict (items : list (string * pyval)) :
  serializable (PyDict items)
  = forallb (fun kv => serializable (snd kv)) items.
Proof.
  unfold serializable at 1. rewrite encode_PyDict, <- encode_items_some.
  destruct (encode_items items); reflexivity.
Qed.

Lemma NoDup_distinct_keys (keys : list string) :
  NoDup keys -> distinct_keys keys = true.
Proof.
  induction 1 as [| k keys Hk _ IH]; simpl; [reflexivity |].
  rewrite IH, andb_true_r. apply negb_true_iff.
  destruct (existsb (String.eqb k) keys) eqn:E; [| reflexivity].
  apply existsb_eqb_In in E. contradiction.
Qed.

Lemma json_value_PyList (l : list pyval) :
  json_value (PyList l) = forallb json_value l.
Proof. reflexivity. Qed.

Lemma json_value_PyDict (items : list (string * pyval)) :
  json_value (PyDict items)
  = distinct_keys (map fst items)
    && forallb (fun kv => json_value (snd kv)) items.
Proof. reflexivity. Qed.

(** A value of JSON is accepted by the encoder, and its dicts have each
    key once. *)
Lemma json_value_accepted (n : nat) :
  (forall v,
      (size v <= n)%nat -> json_value v = true ->
      serializable v = true /\ well_formed v = true)
  /\ (forall l,
         (size_list l <= n)%nat -> forallb json_value l = true ->
         forallb serializable l = true /\ forallb well_formed l = true)
  /\ (forall items,
         (size_items items <= n)%nat ->
         forallb (fun kv => json_value (snd kv)) items = true ->
         forallb (fun kv => serializable (snd kv)) items = true
         /\ forallb (fun kv => well_formed (snd kv)) items = true).
Proof.
  induction n as [| n [IHv [IHl IHm]]].
  - split; [| split].
    + intros v Hs. pose proof (size_positive v). lia.
    + intros [| v vs] Hs; [split; reflexivity |].
      rewrite size_list_cons in Hs. lia.
    + intros [| kv items] Hs; [split; reflexivity |].
      rewrite size_items_cons in Hs. lia.
  - split; [| split].
    + intros v Hs Hj.
      destruct v as [| b | z | str | l | items | t | fl | tl];
        try (split; reflexivity); try discriminate Hj.
      * destruct b; split; reflexivity.
      * split; [| reflexivity]. unfold serializable. cbn [encode].
        change (json_value (PyInt z)) with (within_digit_limit z) in Hj.
        rewrite Hj. reflexivity.
      * rewrite json_value_PyList in Hj. rewrite size_PyList in Hs.
        rewrite serializable_PyList, well_formed_PyList.
        apply IHl; [lia | exact Hj].
      * rewrite json_value_PyDict in Hj. rewrite size_PyDict in Hs.
        apply andb_true_iff in Hj. destruct Hj as [Hk Hj].
        rewrite serializable_PyDict, well_formed_PyDict, Hk.
        apply IHm; [lia | exact Hj].
    + intros [| v vs] Hs Hj; [split; reflexivity |].
      rewrite size_list_cons in Hs. simpl in Hj.
      apply andb_true_iff in Hj. destruct Hj as [Hv Hvs].
      destruct (IHv v ltac:(lia) Hv) as [S1 W1].
      destruct (IHl vs ltac:(lia) Hvs) as [S2 W2].
      simpl. rewrite S1, W1, S2, W2. split; reflexivity.
    + intros [| [k v] items] Hs Hj; [split; reflexivity |].
      rewrite size_items_cons in Hs. simpl in Hs, Hj.
      apply andb_true_iff in Hj. destruct Hj as [Hv Hvs].
      destruct (IHv v ltac:(lia) Hv) as [S1 W1].
      destruct (IHm items ltac:(lia) Hvs) as [S2 W2].
      simpl. rewrite S1, W1, S2, W2. split; reflexivity.
Qed.

Lemma dict_set_values {V : Type} (P : V -> bool)
      (d : list (string * V)) (k : string) (v : V) :
  forallb (fun kv => P (snd kv)) d = true -> P v = true ->
  forallb (fun kv => P (snd kv)) (dict_set d k v) = true.
Proof.
  induction d as [| [k0 v0] d IH]; simpl; intros Hd Hv.
  - rewrite Hv. reflexivity.
  - apply andb_true_iff in Hd. destruct Hd as [H0 Hd].
    destruct (String.eqb k0 k); simpl.
    + rewrite Hv, Hd. reflexivity.
    + rewrite H0, (IH Hd Hv). reflexivity.
Qed.

Lemma dict_of_pairs_values {V : Type} (P : V -> bool)
      (pairs : list (string * V)) :
  forallb (fun kv => P (snd kv)) pairs = true ->
  forallb (fun kv => P (snd kv)) (dict_of_pairs pairs) = true
  /\ NoDup (dict_keys (dict_of_pairs pairs)).
Proof.
  unfold dict_of_pairs.
  assert (G : forall acc,
             forallb (fun kv => P (snd kv)) acc = true ->
             NoDup (dict_keys acc) ->
             forallb (fun kv => P (snd kv)) pairs = true ->
             forallb (fun kv => P (snd kv))
                     (fold_left (fun d kv => dict_set d (fst kv) (snd kv))
                                pairs acc) = true
             /\ NoDup (dict_keys
                         (fold_left (fun d kv => dict_set d (fst kv) (snd kv))
                                    pairs acc))).
  { induction pairs as [| [k v] pairs IH]; intros acc Ha Hn Hp; simpl.
    - split; assumption.
    - simpl in Hp. apply andb_true_iff in Hp. destruct Hp as [Hv Hp].
      apply IH; [apply dict_set_values; assumption
                | apply dict_set_NoDup; exact Hn | exact Hp]. }
  intros H. apply G; [reflexivity | constructor | exact H].
Qed.

Lemma json_value_dict_of_pairs (pairs : list (string * pyval)) :
  forallb (fun kv => json_value (snd kv)) pairs = true ->
  json_value (PyDict (dict_of_pairs pairs)) = true.
Proof.
  intros H.
  destruct (dict_of_pairs_values json_value pairs H) as [Hv Hn].
  rewrite json_value_PyDict. unfold dict_keys in Hn.
  rewrite (NoDup_distinct_keys _ Hn), Hv. reflexivity.
Qed.

(** *** Integers within the limit *)

Lemma scan_integer_nonnil (s : string) (u : Decimal.uint) (r : string) :
  scan_integer s = Some (u, r) -> u <> Decimal.Nil.
Proof.
  destruct s as [| c r0]; [discriminate |]. simpl.
  destruct (is_char c 48).
  - intros H. injection H as <- _. discriminate.
  - unfold digit_of.
    repeat match goal with
           | |- context [if ?b then _ else _] => destruct b
           end;
      try discriminate;
      destruct (scan_digits r0); intros H; injection H as <- _; discriminate.
Qed.

Lemma int_digits_of_uint (negative : bool) (u : Decimal.uint) :
  u <> Decimal.Nil ->
  (int_digits (Z.of_int (if negative then Decimal.Neg u else Decimal.Pos u))
   <= Decimal.nb_digits u)%nat.
Proof.
  intros Hn. unfold int_digits.
  assert (A : Z.abs (Z.of_int (if negative then Decimal.Neg u
                               else Decimal.Pos u))
              = Z.of_int (Decimal.Pos u)).
  { assert (P : 0 <= Z.of_uint u)
      by (unfold Z.of_uint; apply N2Z.is_nonneg).
    destruct negative; simpl Z.of_int.
    - rewrite Z.abs_opp. apply Z.abs_eq. exact P.
    - apply Z.abs_eq. exact P. }
  rewrite A. unfold str_of_int. rewrite DecimalZ.to_of. simpl.
  pose proof (nb_digits_unorm u Hn) as L.
  pose proof (unorm_nonnil u) as N.
  assert (S : NilZero.string_of_uint (Decimal.unorm u)
              = NilEmpty.string_of_uint (Decimal.unorm u)).
  { unfold NilZero.string_of_uint.
    destruct (Decimal.unorm u); try contradiction; reflexivity. }
  rewrite S, length_string_of_uint. exact L.
Qed.

Lemma scan_number_json_value (s : string) (v : pyval) (r : string) :
  scan_number s = Parsed v r -> json_value v = true.
Proof.
  assert (U : forall negative s0,
             scan_unsigned negative s0 = Parsed v r -> json_value v = true).
  { intros negative s0. unfold scan_unsigned.
    destruct (scan_integer s0) as [[whole r1] |] eqn:I; [| discriminate].
    destruct (scan_fraction r1) as [[fraction r2] |].
    - destruct (scan_exponent r2) as [[x r3] |]; intros H;
        injection H as <- _; reflexivity.
    - destruct (scan_exponent r1) as [[x r3] |].
      + intros H. injection H as <- _. reflexivity.
      + destruct (Decimal.nb_digits whole <=? int_max_str_digits)%nat eqn:L;
          [| discriminate].
        intros H. injection H as <- _. simpl.
        unfold within_digit_limit. apply Nat.leb_le. apply Nat.leb_le in L.
        pose proof (int_digits_of_uint negative whole
                      (scan_integer_nonnil _ _ _ I)).
        lia. }
  unfold scan_number. destruct s as [| c r0]; [discriminate |].
  destruct (is_char c 45); apply U.
Qed.

Lemma scan_constant_value (name : string) (v0 : pyval) (s : string)
      (v : pyval) (r : string) :
  scan_constant name v0 s = Parsed v r -> v = v0.
Proof.
  unfold scan_constant. destruct (strip_prefix name s); [| discriminate].
  intros H. injection H as <- _. reflexivity.
Qed.

(** *** Every decoded value is a value of JSON *)

Lemma parse_decoded (fuel : nat) :
  (forall s v r, parse_value fuel s = Parsed v r -> json_value v = true)
  /\ (forall s vs r,
         parse_elements fuel s = Parsed vs r ->
         forallb json_value vs = true)
  /\ (forall s ms r,
         parse_members fuel s = Parsed ms r ->
         forallb (fun kv => json_value (snd kv)) ms = true).
Proof.
  induction fuel as [| f [IHv [IHl IHm]]].
  - split; [| split]; intros; discriminate.
  - split; [| split].
    + intros s v r H. destruct s as [| c r0]; [discriminate H |].
      rewrite parse_value_unfold in H.
      destruct (is_char c 34).
      { destruct (scan_string r0); [| discriminate H].
        injection H as <- _. reflexivity. }
      destruct (is_char c 123).
      { destruct (skip_ws r0) as [| c1 r1]; [discriminate H |].
        destruct (is_char c1 125); [injection H as <- _; reflexivity |].
        destruct (parse_members f (String c1 r1)) as [ms r2 |] eqn:M;
          [| discriminate H].
        injection H as <- _. apply json_value_dict_of_pairs.
        apply (IHm _ _ _ M). }
      destruct (is_char c 91).
      { destruct (skip_ws r0) as [| c1 r1]; [discriminate H |].
        destruct (is_char c1 93); [injection H as <- _; reflexivity |].
        destruct (parse_elements f (String c1 r1)) as [vs r2 |] eqn:E;
          [| discriminate H].
        injection H as <- _. rewrite json_value_PyList.
        apply (IHl _ _ _ E). }
      destruct (is_char c 110).
      { apply scan_constant_value in H. subst. reflexivity. }
      destruct (is_char c 116).
      { apply scan_constant_value in H. subst. reflexivity. }
      destruct (is_char c 102).
      { apply scan_constant_value in H. subst. reflexivity. }
      destruct (is_char c 78).
      { apply scan_constant_value in H. subst. reflexivity. }
      destruct (is_char c 73).
      { apply scan_constant_value in H. subst. reflexivity. }
      destruct (strip_prefix "-Infinity" (String c r0)).
      { injection H as <- _. reflexivity. }
      apply (scan_number_json_value _ _ _ H).
    + intros s vs r H. rewrite parse_elements_unfold in H.
      destruct (parse_value f s) as [v r1 |] eqn:V; [| discriminate H].
      apply IHv in V.
      destruct (skip_ws r1) as [| c r2]; [discriminate H |].
      destruct (is_char c 44).
      * destruct (parse_elements f (skip_ws r2)) as [vs' r3 |] eqn:E;
          [| discriminate H].
        injection H as <- _. simpl. rewrite V. apply (IHl _ _ _ E).
      * destruct (is_char c 93); [| discriminate H].
        injection H as <- _. simpl. rewrite V. reflexivity.
    + intros s ms r H. destruct s as [| q r0]; [discriminate H |].
      rewrite parse_members_unfold in H.
      destruct (is_char q 34); [| discriminate H].
      destruct (scan_string r0) as [k r1 |]; [| discriminate H].
      destruct (skip_ws r1) as [| c r2]; [discriminate H |].
      destruct (is_char c 58); [| discriminate H].
      destruct (parse_value f (skip_ws r2)) as [v r3 |] eqn:V;
        [| discriminate H].
      apply IHv in V.
      destruct (skip_ws r3) as [| c' r4]; [discriminate H |].
      destruct (is_char c' 44).
      * destruct (parse_members f (skip_ws r4)) as [ms' r5 |] eqn:M;
          [| discriminate H].
        injection H as <- _. simpl. rewrite V. apply (IHm _ _ _ M).
      * destruct (is_char c' 125); [| discriminate H].
        injection H as <- _. simpl. rewrite V. reflexivity.
Qed.

Lemma json_loads_value (s : string) (v : pyval) :
  json_loads s = Some (Returned v) -> json_value v = true.
Proof.
  unfold json_loads. intros H.
  destruct (parse_value (2 * String.length s + 1) (skip_ws s))
    as [v' rest | why] eqn:P.
  - destruct (skip_ws rest); [| discriminate H].
    injection H as <-.
    destruct (parse_decoded (2 * String.length s + 1)) as [Hv _].
    apply (Hv _ _ _ P).
  - destruct why; discriminate H.
Qed.

(** *** The decoder never uses up its rounds *)

Lemma skip_ws_length (s : string) :
  (String.length (skip_ws s) <= String.length s)%nat.
Proof.
  induction s as [| c r IH]; simpl; [lia |].
  destruct (is_ws c); simpl; lia.
Qed.

Lemma scan_string_unfold (c : ascii) (r : string) :
  scan_string (String c r)
  = if is_char c 34 then Parsed EmptyString r
    else if is_char c 92 then
      match r with
      | EmptyString => Stopped Malformed
      | String e r1 =>
          if is_char e 117 then
            match r1 with
            | String h1 (String h2 (String h3 (String h4 r2))) =>
                match hex4 h1 h2 h3 h4 with
                | Some code =>
                    if (code <? 256)%N
                    then cons_char (ascii_of_N code) (scan_string r2)
                    else Stopped WideCharacter
                | None => Stopped Malformed
                end
            | _ => Stopped Malformed
            end
          else
            match unescape e with
            | Some ch => cons_char ch (scan_string r1)
            | None => Stopped Malformed
            end
      end
    else if (N_of_ascii c <? 32)%N then Stopped Malformed
    else cons_char c (scan_string r).
Proof. reflexivity. Qed.

Lemma cons_char_parsed (c : ascii) (p : parsed string) (str r : string) :
  cons_char c p = Parsed str r -> exists str', p = Parsed str' r.
Proof.
  destruct p as [str' r' |]; simpl; intros H; [| discriminate H].
  injection H as _ <-. exists str'. reflexivity.
Qed.

Lemma cons_char_stopped (c : ascii) (p : parsed string) (why : stop) :
  cons_char c p = Stopped why -> p = Stopped why.
Proof. destruct p; simpl; intros H; [discriminate H | exact H]. Qed.

(** What the scanner of strings leaves is shorter than what it was given,
    and it stops for a malformed text or a wide character only. *)
Lemma scan_string_progress (n : nat) :
  forall s,
    (String.length s <= n)%nat ->
    (forall str r,
        scan_string s = Parsed str r ->
        (String.length r < String.length s)%nat)
    /\ scan_string s <> Stopped NoFuel
    /\ (forall digits, scan_string s <> Stopped (DigitLimit digits)).
Proof.
  induction n as [| n IH]; intros s Hn.
  - destruct s; [| simpl in Hn; lia].
    repeat split; intros; discriminate.
  - destruct s as [| c r]; [repeat split; intros; discriminate |].
    simpl in Hn. rewrite scan_string_unfold.
    assert (K : forall ch r',
               (String.length r' <= n)%nat ->
               (String.length r' <= String.length r)%nat ->
               (forall str r0,
                   cons_char ch (scan_string r') = Parsed str r0 ->
                   (String.length r0 < String.length (String c r))%nat)
               /\ cons_char ch (scan_string r') <> Stopped NoFuel
               /\ (forall digits,
                      cons_char ch (scan_string r')
                      <> Stopped (DigitLimit digits))).
    { intros ch r' H1 H2. destruct (IH r' H1) as (P & F & D).
      repeat split.
      - intros str r0 H. apply cons_char_parsed in H.
        destruct H as [str' H]. apply P in H. simpl. lia.
      - intros H. apply cons_char_stopped in H. contradiction.
      - intros digits H. apply cons_char_stopped in H.
        apply (D digits). exact H. }
    destruct (is_char c 34).
    { repeat split; try discriminate.
      intros str r0 H. injection H as _ <-. simpl. lia. }
    destruct (is_char c 92).
    { destruct r as [| e r1]; [repeat split; intros; discriminate |].
      simpl in Hn. destruct (is_char e 117).
      - destruct r1 as [| h1 [| h2 [| h3 [| h4 r2]]]];
          try (repeat split; intros; discriminate).
        destruct (hex4 h1 h2 h3 h4);
          [| repeat split; intros; discriminate].
        destruct (n0 <? 256)%N; [| repeat split; intros; discriminate].
        simpl in Hn.
        destruct (K (ascii_of_N n0) r2 ltac:(lia) ltac:(simpl; lia))
          as (P & F & D).
        repeat split; assumption.
      - destruct (unescape e); [| repeat split; intros; discriminate].
        destruct (K a r1 ltac:(lia) ltac:(simpl; lia)) as (P & F & D).
        repeat split; assumption. }
    destruct (N_of_ascii c <? 32)%N; [repeat split; intros; discriminate |].
    apply K; lia.
Qed.

Lemma scan_string_shorter (s str r : string) :
  scan_string s = Parsed str r -> (String.length r < String.length s)%nat.
Proof.
  apply (proj1 (scan_string_progress (String.length s) s (Nat.le_refl _))).
Qed.

Lemma scan_string_never_exhausted (s : string) :
  scan_string s <> Stopped NoFuel.
Proof.
  apply (scan_string_progress (String.length s) s (Nat.le_refl _)).
Qed.

Lemma scan_digits_length (s : string) :
  (String.length (snd (scan_digits s)) <= String.length s)%nat.
Proof.
  induction s as [| c r IH]; simpl; [lia |].
  destruct (digit_of c); [| simpl; lia].
  destruct (scan_digits r). simpl in *. lia.
Qed.

Lemma scan_integer_shorter (s : string) (u : Decimal.uint) (r : string) :
  scan_integer s = Some (u, r) -> (String.length r < String.length s)%nat.
Proof.
  destruct s as [| c r0]; [discriminate |]. simpl.
  destruct (is_char c 48).
  - intros H. injection H as _ <-. lia.
  - destruct (digit_of c); [| discriminate].
    pose proof (scan_digits_length r0) as L.
    destruct (scan_digits r0). intros H. injection H as _ <-.
    simpl in L. lia.
Qed.

Lemma scan_fraction_shorter (s : string) (u : Decimal.uint) (r : string) :
  scan_fraction s = Some (u, r) -> (String.length r < String.length s)%nat.
Proof.
  destruct s as [| c r0]; [discriminate |]. simpl.
  destruct (is_char c 46); [| discriminate].
  pose proof (scan_digits_length r0) as L.
  destruct (scan_digits r0) as [u' r']. simpl in L.
  destruct u'; intros H; try discriminate H; injection H as _ <-; lia.
Qed.

Lemma scan_exponent_shorter (s : string) (x : Z) (r : string) :
  scan_exponent s = Some (x, r) -> (String.length r < String.length s)%nat.
Proof.
  destruct s as [| c r0]; [discriminate |]. simpl.
  destruct (is_char c 101 || is_char c 69); [| discriminate].
  assert (K : forall (negative : bool) (r1 : string),
             (String.length r1 <= String.length r0)%nat ->
             match scan_digits r1 with
             | (Decimal.Nil, _) => None
             | (u, rest) =>
                 Some (if negative then - Z.of_uint u else Z.of_uint u, rest)
             end = Some (x, r) ->
             (String.length r < S (String.length r0))%nat).
  { intros negative r1 L1.
    pose proof (scan_digits_length r1) as L.
    destruct (scan_digits r1) as [u' r']. simpl in L.
    destruct u'; intros H; try discriminate H; injection H as _ <-; lia. }
  destruct r0 as [| sign r'].
  - apply (K false). lia.
  - destruct (is_char sign 45); [apply (K true); simpl; lia |].
    destruct (is_char sign 43); apply (K false); simpl; lia.
Qed.

Lemma scan_unsigned_progress (negative : bool) (s : string) :
  (forall v r,
      scan_unsigned negative s = Parsed v r ->
      (String.length r < String.length s)%nat)
  /\ scan_unsigned negative s <> Stopped NoFuel
  /\ scan_unsigned negative s <> Stopped WideCharacter.
Proof.
  unfold scan_unsigned.
  destruct (scan_integer s) as [[whole r1] |] eqn:I;
    [| repeat split; intros; discriminate].
  apply scan_integer_shorter in I.
  destruct (scan_fraction r1) as [[fraction r2] |] eqn:F.
  - apply scan_fraction_shorter in F.
    destruct (scan_exponent r2) as [[x r3] |] eqn:X.
    + apply scan_exponent_shorter in X.
      repeat split; try discriminate.
      intros v r H. injection H as _ <-. lia.
    + repeat split; try discriminate.
      intros v r H. injection H as _ <-. lia.
  - destruct (scan_exponent r1) as [[x r3] |] eqn:X.
    + apply scan_exponent_shorter in X.
      repeat split; try discriminate.
      intros v r H. injection H as _ <-. lia.
    + destruct (Decimal.nb_digits whole <=? int_max_str_digits)%nat;
        repeat split; try discriminate.
      intros v r H. injection H as _ <-. lia.
Qed.

Lemma scan_number_progress (s : string) :
  (forall v r,
      scan_number s = Parsed v r ->
      (String.length r < String.length s)%nat)
  /\ scan_number s <> Stopped NoFuel
  /\ scan_number s <> Stopped WideCharacter.
Proof.
  unfold scan_number. destruct s as [| c r0];
    [repeat split; intros; discriminate |].
  destruct (is_char c 45).
  - destruct (scan_unsigned_progress true r0) as (P & F & W).
    repeat split; try assumption.
    intros v r H. apply P in H. simpl. lia.
  - apply scan_unsigned_progress.
Qed.

Lemma strip_prefix_length (p s r : string) :
  strip_prefix p s = Some r ->
  String.length s = (String.length p + String.length r)%nat.
Proof.
  revert s. induction p as [| a p IH]; intros s H; simpl in *.
  - injection H as <-. reflexivity.
  - destruct s as [| b s]; [discriminate H |].
    destruct (Ascii.eqb a b); [| discriminate H].
    simpl. rewrite (IH s H). reflexivity.
Qed.

Lemma scan_constant_progress (name : string) (v0 : pyval) (s : string) :
  name <> EmptyString ->
  (forall v r,
      scan_constant name v0 s = Parsed v r ->
      (String.length r < String.length s)%nat)
  /\ scan_constant name v0 s <> Stopped NoFuel.
Proof.
  intros Hn. unfold scan_constant.
  destruct (strip_prefix name s) as [r0 |] eqn:P;
    [| split; intros; discriminate].
  apply strip_prefix_length in P.
  split; [| discriminate].
  intros v r H. injection H as _ <-.
  destruct name; [contradiction | simpl in P; lia].
Qed.

(** What the decoder leaves is shorter than what it was given. *)
Lemma parse_shorter (fuel : nat) :
  (forall s v r,
      parse_value fuel s = Parsed v r ->
      (String.length r < String.length s)%nat)
  /\ (forall s vs r,
         parse_elements fuel s = Parsed vs r ->
         (String.length r < String.length s)%nat)
  /\ (forall s ms r,
         parse_members fuel s = Parsed ms r ->
         (String.length r < String.length s)%nat).
Proof.
  induction fuel as [| f [IHv [IHl IHm]]].
  - split; [| split]; intros; discriminate.
  - split; [| split].
    + intros s v r H. destruct s as [| c r0]; [discriminate H |].
      rewrite parse_value_unfold in H.
      pose proof (skip_ws_length r0) as W.
      destruct (is_char c 34).
      { destruct (scan_string r0) as [str r1 |] eqn:S; [| discriminate H].
        apply scan_string_shorter in S. injection H as _ <-. simpl. lia. }
      destruct (is_char c 123).
      { destruct (skip_ws r0) as [| c1 r1]; [discriminate H |].
        simpl in W.
        destruct (is_char c1 125).
        - injection H as _ <-. simpl. lia.
        - destruct (parse_members f (String c1 r1)) as [ms r2 |] eqn:M;
            [| discriminate H].
          apply IHm in M. injection H as _ <-. simpl in *. lia. }
      destruct (is_char c 91).
      { destruct (skip_ws r0) as [| c1 r1]; [discriminate H |].
        simpl in W.
        destruct (is_char c1 93).
        - injection H as _ <-. simpl. lia.
        - destruct (parse_elements f (String c1 r1)) as [vs r2 |] eqn:E;
            [| discriminate H].
          apply IHl in E. injection H as _ <-. simpl in *. lia. }
      destruct (is_char c 110).
      { apply (scan_constant_progress "null" PyNone) in H;
          [exact H | discriminate]. }
      destruct (is_char c 116).
      { apply (scan_constant_progress "true" (PyBool true)) in H;
          [exact H | discriminate]. }
      destruct (is_char c 102).
      { apply (scan_constant_progress "false" (PyBool false)) in H;
          [exact H | discriminate]. }
      destruct (is_char c 78).
      { apply (scan_constant_progress "NaN" (PyFloat S754_nan)) in H;
          [exact H | discriminate]. }
      destruct (is_char c 73).
      { apply (scan_constant_progress
                 "Infinity" (PyFloat (S754_infinity false))) in H;
          [exact H | discriminate]. }
      destruct (strip_prefix "-Infinity" (String c r0)) as [r1 |] eqn:P.
      { apply strip_prefix_length in P. injection H as _ <-.
        simpl in P. simpl. lia. }
      apply (proj1 (scan_number_progress _) _ _ H).
    + intros s vs r H. rewrite parse_elements_unfold in H.
      destruct (parse_value f s) as [v r1 |] eqn:V; [| discriminate H].
      apply IHv in V. pose proof (skip_ws_length r1) as W.
      destruct (skip_ws r1) as [| c r2]; [discriminate H |]. simpl in W.
      pose proof (skip_ws_length r2) as W2.
      destruct (is_char c 44).
      * destruct (parse_elements f (skip_ws r2)) as [vs' r3 |] eqn:E;
          [| discriminate H].
        apply IHl in E. injection H as _ <-. lia.
      * destruct (is_char c 93); [| discriminate H].
        injection H as _ <-. lia.
    + intros s ms r H. destruct s as [| q r0]; [discriminate H |].
      rewrite parse_members_unfold in H.
      destruct (is_char q 34); [| discriminate H].
      destruct (scan_string r0) as [k r1 |] eqn:S; [| discriminate H].
      apply scan_string_shorter in S. pose proof (skip_ws_length r1) as W1.
      destruct (skip_ws r1) as [| c r2]; [discriminate H |]. simpl in W1.
      destruct (is_char c 58); [| discriminate H].
      pose proof (skip_ws_length r2) as W2.
      destruct (parse_value f (skip_ws r2)) as [v r3 |] eqn:V;
        [| discriminate H].
      apply IHv in V. pose proof (skip_ws_length r3) as W3.
      destruct (skip_ws r3) as [| c' r4]; [discriminate H |]. simpl in W3.
      pose proof (skip_ws_length r4) as W4.
      destruct (is_char c' 44).
      * destruct (parse_members f (skip_ws r4)) as [ms' r5 |] eqn:M;
          [| discriminate H].
        apply IHm in M. injection H as _ <-. simpl. lia.
      * destruct (is_char c' 125); [| discriminate H].
        injection H as _ <-. simpl. lia.
Qed.

(** With twice as many rounds as characters the decoder never stops for
    lack of rounds. *)
Lemma parse_never_exhausted (fuel : nat) :
  (forall s,
      (2 * String.length s < fuel)%nat ->
      parse_value fuel s <> Stopped NoFuel)
  /\ (forall s,
         (2 * String.length s + 1 < fuel)%nat ->
         parse_elements fuel s <> Stopped NoFuel)
  /\ (forall s,
         (2 * String.length s + 1 < fuel)%nat ->
         parse_members fuel s <> Stopped NoFuel).
Proof.
  induction fuel as [| f [IHv [IHl IHm]]].
  - split; [| split]; intros s H; lia.
  - destruct (parse_shorter f) as [Sv _].
    split; [| split].
    + intros s Hf. destruct s as [| c r0]; [discriminate |].
      simpl in Hf. rewrite parse_value_unfold.
      pose proof (skip_ws_length r0) as W.
      destruct (is_char c 34).
      { pose proof (scan_string_never_exhausted r0) as N.
        destruct (scan_string r0); [discriminate |].
        intros H. injection H as ->. contradiction. }
      destruct (is_char c 123).
      { destruct (skip_ws r0) as [| c1 r1]; [discriminate |].
        destruct (is_char c1 125); [discriminate |].
        pose proof (IHm (String c1 r1) ltac:(lia)) as N.
        destruct (parse_members f (String c1 r1)); [discriminate |].
        intros H. injection H as ->. contradiction. }
      destruct (is_char c 91).
      { destruct (skip_ws r0) as [| c1 r1]; [discriminate |].
        destruct (is_char c1 93); [discriminate |].
        pose proof (IHl (String c1 r1) ltac:(lia)) as N.
        destruct (parse_elements f (String c1 r1)); [discriminate |].
        intros H. injection H as ->. contradiction. }
      destruct (is_char c 110).
      { apply scan_constant_progress. discriminate. }
      destruct (is_char c 116).
      { apply scan_constant_progress. discriminate. }
      destruct (is_char c 102).
      { apply scan_constant_progress. discriminate. }
      destruct (is_char c 78).
      { apply scan_constant_progress. discriminate. }
      destruct (is_char c 73).
      { apply scan_constant_progress. discriminate. }
      destruct (strip_prefix "-Infinity" (String c r0)); [discriminate |].
      apply scan_number_progress.
    + intros s Hf. rewrite parse_elements_unfold.
      pose proof (IHv s ltac:(lia)) as N.
      destruct (parse_value f s) as [v r1 | why] eqn:V;
        [| intros H; injection H as ->; contradiction].
      apply Sv in V. pose proof (skip_ws_length r1) as W.
      destruct (skip_ws r1) as [| c r2]; [discriminate |]. simpl in W.
      pose proof (skip_ws_length r2) as W2.
      destruct (is_char c 44).
      * pose proof (IHl (skip_ws r2) ltac:(lia)) as N2.
        destruct (parse_elements f (skip_ws r2)); [discriminate |].
        intros H. injection H as ->. contradiction.
      * destruct (is_char c 93); discriminate.
    + intros s Hf. destruct s as [| q r0]; [discriminate |].
      simpl in Hf. rewrite parse_members_unfold.
      destruct (is_char q 34); [| discriminate].
      pose proof (scan_string_never_exhausted r0) as N.
      destruct (scan_string r0) as [k r1 | why] eqn:S;
        [| intros H; injection H as ->; contradiction].
      apply scan_string_shorter in S. pose proof (skip_ws_length r1) as W1.
      destruct (skip_ws r1) as [| c r2]; [discriminate |]. simpl in W1.
      destruct (is_char c 58); [| discriminate].
      pose proof (skip_ws_length r2) as W2.
      pose proof (IHv (skip_ws r2) ltac:(lia)) as N2.
      destruct (parse_value f (skip_ws r2)) as [v r3 | why] eqn:V;
        [| intros H; injection H as ->; contradiction].
      apply Sv in V. pose proof (skip_ws_length r3) as W3.
      destruct (skip_ws r3) as [| c' r4]; [discriminate |]. simpl in W3.
      pose proof (skip_ws_length r4) as W4.
      destruct (is_char c' 44).
      * pose proof (IHm (skip_ws r4) ltac:(lia)) as N3.
        destruct (parse_members f (skip_ws r4)); [discriminate |].
        intros H. injection H as ->. contradiction.
      * destruct (is_char c' 125); discriminate.
Qed.

Lemma json_loads_has_fuel (s : string) :
  parse_value (2 * String.length s + 1) (skip_ws s) <> Stopped NoFuel.
Proof.
  destruct (parse_never_exhausted (2 * String.length s + 1)) as [H _].
  apply H. pose proof (skip_ws_length s). lia.
Qed.

(** [json.loads] gives no result only at an escape of a character
    outside the model. *)
Lemma json_loads_uncovered (s : string) :
  json_loads s = None ->
  parse_value (2 * String.length s + 1) (skip_ws s) = Stopped WideCharacter.
Proof.
  unfold json_loads. pose proof (json_loads_has_fuel s) as F.
  destruct (parse_value (2 * String.length s + 1) (skip_ws s))
    as [v rest | why].
  - destruct (skip_ws rest); discriminate.
  - destruct why; try discriminate; [reflexivity | contradiction].
Qed.

(** The decoder of the scenarios raises and returns as [json.loads]
    does. *)
Lemma loads_covered_raises (s : string) (e : PyExc) :
  loads_covered s = Raised e -> is_Exception e = true.
Proof.
  unfold loads_covered, json_loads.
  destruct (parse_value (2 * String.length s + 1) (skip_ws s))
    as [v rest | why].
  - destruct (skip_ws rest); intros H; [discriminate H |].
    injection H as <-. reflexivity.
  - destruct why; intros H; injection H as <-; reflexivity.
Qed.

Lemma loads_covered_returns (s : string) (v : pyval) :
  loads_covered s = Returned v -> json_value v = true.
Proof.
  unfold loads_covered. intros H.
  destruct (json_loads s) as [result |] eqn:E; [| discriminate H].
  subst result. apply (json_loads_value s v E).
Qed.


End Serializable.

(** ** The text of tool messages *)

Section Printable.

Ltac every_char c :=
  destruct c as [[] [] [] [] [] [] [] []].

Lemma printable_app (a b : string) :
  printable (a ++ b) = printable a && printable b.
Proof.
  induction a as [| c a IH]; simpl; [reflexivity |].
  rewrite IH, andb_assoc. reflexivity.
Qed.

Lemma printable_escape_char (c : ascii) : printable (escape_char c) = true.
Proof. every_char c; reflexivity. Qed.

Lemma printable_encode_str (s : string) : printable (encode_str s) = true.
Proof.
  unfold encode_str. simpl. rewrite printable_app. simpl.
  rewrite andb_true_r.
  induction s as [| c s IH]; simpl; [reflexivity |].
  rewrite printable_app, printable_escape_char, IH. reflexivity.
Qed.

Lemma printable_uint (u : Decimal.uint) :
  printable (NilEmpty.string_of_uint u) = true.
Proof. induction u; simpl; try reflexivity; exact IHu. Qed.

Lemma printable_str_of_int (z : Z) : printable (str_of_int z) = true.
Proof.
  destruct (str_of_int_uint z) as [negative [u (E & _)]].
  rewrite E, printable_app, printable_uint.
  destruct negative; reflexivity.
Qed.

Lemma printable_take (n : nat) (s : string) :
  printable s = true -> printable (take n s) = true.
Proof.
  revert s. induction n as [| n IH]; intros [| c r] H; try reflexivity.
  simpl in *. apply andb_true_iff in H. destruct H as [Hc Hr].
  rewrite Hc, (IH r Hr). reflexivity.
Qed.

Lemma printable_drop (n : nat) (s : string) :
  printable s = true -> printable (drop n s) = true.
Proof.
  revert s. induction n as [| n IH]; intros [| c r] H; try exact H.
  simpl in *. apply andb_true_iff in H. apply IH, H.
Qed.

Lemma printable_zeros (n : nat) : printable (zeros n) = true.
Proof. induction n as [| n IH]; [reflexivity | exact IH]. Qed.

Lemma printable_strip_zeros (s : string) :
  printable s = true -> printable (strip_zeros s) = true.
Proof.
  induction s as [| c r IH]; intros H; [reflexivity |].
  simpl in H. apply andb_true_iff in H. destruct H as [Hc Hr].
  specialize (IH Hr). simpl.
  destruct (strip_zeros r) as [| c' r'].
  - destruct (is_char c 48); [reflexivity |].
    simpl. rewrite Hc. reflexivity.
  - change (printable_char c && printable (String c' r') = true).
    rewrite Hc, IH. reflexivity.
Qed.

Lemma printable_format_digits (ds : string) (dp : Z) :
  printable ds = true -> printable (format_digits ds dp) = true.
Proof.
  intros H. unfold format_digits.
  destruct ((dp <=? -4) || (16 <? dp)).
  - rewrite !printable_app, (printable_take 1 ds H), printable_str_of_int.
    pose proof (printable_drop 1 ds H) as D.
    destruct (drop 1 ds) as [| c r].
    + destruct (dp - 1 <? 0), (Z.abs (dp - 1) <? 10); reflexivity.
    + change ("." ++ String c r) with (String "." (String c r)).
      change (printable (String "." (String c r)))
        with (printable_char "." && printable (String c r)).
      rewrite D.
      destruct (dp - 1 <? 0), (Z.abs (dp - 1) <? 10); reflexivity.
  - destruct (dp <=? 0).
    + rewrite !printable_app, printable_zeros, H. reflexivity.
    + destruct (Z.of_nat (String.length ds) <=? dp).
      * rewrite !printable_app, printable_zeros, H. reflexivity.
      * rewrite !printable_app, (printable_take _ ds H).
        change (printable (String "." EmptyString)) with true.
        rewrite (printable_drop _ ds H). reflexivity.
Qed.

Lemma printable_float_repr (f : spec_float) : printable (float_repr f) = true.
Proof.
  destruct f as [[] | [] | | s m e]; try reflexivity.
  unfold float_repr. destruct (shortest_digits m e 1 16) as [c k].
  rewrite printable_app, printable_format_digits.
  - destruct s; reflexivity.
  - apply printable_strip_zeros, printable_str_of_int.
Qed.

Lemma printable_float_json (f : spec_float) : printable (float_json f) = true.
Proof.
  destruct f as [[] | [] | | s m e]; try reflexivity.
  apply (printable_float_repr (S754_finite s m e)).
Qed.

Lemma printable_join (parts : list string) :
  forallb printable parts = true -> printable (join_items parts) = true.
Proof.
  induction parts as [| p parts IH]; intros H; [reflexivity |].
  simpl forallb in H. apply andb_true_iff in H. destruct H as [Hp Hr].
  destruct parts as [| p' parts']; [exact Hp |].
  change (join_items (p :: p' :: parts'))
    with (p ++ ", " ++ join_items (p' :: parts')).
  rewrite !printable_app, Hp, (IH Hr). reflexivity.
Qed.

Lemma printable_enclosed (c d : ascii) (body : string) :
  printable (String c (body ++ String d EmptyString))
  = printable_char c && (printable body && printable_char d).
Proof.
  simpl. rewrite printable_app. simpl. rewrite andb_true_r. reflexivity.
Qed.

Lemma encode_printable (n : nat) :
  (forall v s, (size v <= n)%nat -> encode v = Some s -> printable s = true)
  /\ (forall l parts,
         (size_list l <= n)%nat -> encode_list l = Some parts ->
         forallb printable parts = true)
  /\ (forall items parts,
         (size_items items <= n)%nat -> encode_items items = Some parts ->
         forallb printable parts = true).
Proof.
  induction n as [| n [IHv [IHl IHm]]].
  - split; [| split].
    + intros v s Hs. pose proof (size_positive v). lia.
    + intros [| v vs] parts Hs E.
      * injection E as <-. reflexivity.
      * rewrite size_list_cons in Hs. lia.
    + intros [| kv items] parts Hs E.
      * injection E as <-. reflexivity.
      * rewrite size_items_cons in Hs. lia.
  - split; [| split].
    + intros v s Hs He.
      destruct v as [| b | z | str | l | items | t | f | tl].
      * injection He as <-. reflexivity.
      * destruct b; injection He as <-; reflexivity.
      * simpl in He. destruct (within_digit_limit z); [| discriminate He].
        injection He as <-. apply printable_str_of_int.
      * injection He as <-. apply printable_encode_str.
      * rewrite encode_PyList in He.
        destruct (encode_list l) as [parts |] eqn:El; [| discriminate].
        injection He as <-. rewrite size_PyList in Hs.
        rewrite printable_enclosed.
        rewrite (printable_join parts (IHl l parts ltac:(lia) El)).
        reflexivity.
      * rewrite encode_PyDict in He.
        destruct (encode_items items) as [parts |] eqn:El; [| discriminate].
        injection He as <-. rewrite size_PyDict in Hs.
        rewrite printable_enclosed.
        rewrite (printable_join parts (IHm items parts ltac:(lia) El)).
        reflexivity.
      * discriminate He.
      * injection He as <-. apply printable_float_json.
      * rewrite encode_PyTuple, encode_PyList in He.
        destruct (encode_list tl) as [parts |] eqn:El; [| discriminate].
        injection He as <-. rewrite size_PyTuple in Hs.
        rewrite printable_enclosed.
        rewrite (printable_join parts (IHl tl parts ltac:(lia) El)).
        reflexivity.
    + intros [| v vs] parts Hs El.
      * injection El as <-. reflexivity.
      * apply encode_list_cons in El. destruct El as [p [ps (-> & Hp & Hps)]].
        rewrite size_list_cons in Hs. cbn [forallb].
        rewrite (IHv v p ltac:(lia) Hp), (IHl vs ps ltac:(lia) Hps).
        reflexivity.
    + intros [| [k v] items] parts Hs El.
      * injection El as <-. reflexivity.
      * apply encode_items_cons in El.
        destruct El as [e [ps (-> & He & Hps)]].
        rewrite size_items_cons in Hs. cbn [snd] in Hs. cbn [forallb].
        rewrite !printable_app, printable_encode_str.
        rewrite (IHv v e ltac:(lia) He), (IHm items ps ltac:(lia) Hps).
        reflexivity.
Qed.

(** X12. The text [json.dumps] writes, hence the content of every tool
    message, consists of printable ASCII characters only: quotes,
    backslashes, control characters and characters above tilde inside
    strings are escaped. *)
Theorem dumps_is_printable_ascii (v : pyval) (s : string) :
  json_dumps v = Returned s -> printable s = true.
Proof.
  unfold json_dumps. intros H.
  destruct (encode v) as [s' |] eqn:E; [| discriminate H].
  injection H as <-.
  destruct (encode_printable (size v)) as [P _].
  apply (P v s' (Nat.le_refl _) E).
Qed.

End Printable.

(** ** The tools of the repository *)

Section RepositoryTools.

Variable print : string -> outcome unit.
Variable str_object : pyval -> outcome string.

Lemma forallb_find {A : Type} (g : A -> bool) (l : list A) :
  forallb g l
  = match find (fun a => negb (g a)) l with None => true | Some _ => false end.
Proof.
  induction l as [| a l IH]; simpl; [reflexivity |].
  destruct (g a); simpl; [exact IH | reflexivity].
Qed.

Lemma forallb_filter {A : Type} (g : A -> bool) (l : list A) :
  forallb g l
  = match filter (fun a => negb (g a)) l with [] => true | _ :: _ => false end.
Proof.
  induction l as [| a l IH]; simpl; [reflexivity |].
  destruct (g a); simpl; [exact IH | reflexivity].
Qed.

Lemma bind_arguments_accepts
      (qualname : string) (required optional : list string)
      (kw : list (string * pyval)) :
  if accepts required optional kw
  then bind_arguments qualname required optional kw = Returned tt
  else exists msg,
      bind_arguments qualname required optional kw
      = Raised (mkExc "TypeError" msg).
Proof.
  unfold accepts, bind_arguments.
  rewrite (forallb_find
             (fun kv => existsb (String.eqb (fst kv)) (required ++ optional))).
  destruct (find _ kw) as [[k v] |].
  - simpl. destruct (String.eqb k "self"); eexists; reflexivity.
  - simpl. rewrite (forallb_filter (dict_contains kw)).
    destruct (filter _ required); [reflexivity | eexists; reflexivity].
Qed.

(** The two ways out of the [except] branch for an exception [e] of the
    body: the failed result, or [e] itself when it is not derived from
    [Exception]. *)
Ltac handled e origin :=
  cbv beta iota;
  let X := fresh "X" in
  destruct (is_Exception e) eqn:X;
  [ right; exists e; split; [origin | split; [exact X | reflexivity]]
  | split; [origin | exact X] ].

Ltac from_str E := eexists; exact E.

Lemma notify_customer_guarded :
  guarded (NotifyCustomerTool print str_object)
          ["user_id"; "message"; "notification_type"] []
          "Failed to send notification: "
          (fun e => raised_by_print print e \/ raised_by_str str_object e).
Proof.
  intros kw.
  pose proof (bind_arguments_accepts
                "NotifyCustomerTool.execute"
                ["user_id"; "message"; "notification_type"] [] kw) as B.
  simpl execute. unfold notify_customer_execute.
  destruct (accepts _ _ kw); [| destruct B as [msg ->]; exists msg; reflexivity].
  rewrite B. unfold try_except. cbv beta iota delta [bind].
  destruct (py_str str_object (argument kw "notification_type"))
    as [kind | e] eqn:E1; [| handled e ltac:(right; from_str E1)].
  destruct (py_str str_object (argument kw "user_id"))
    as [user | e] eqn:E2; [| handled e ltac:(right; from_str E2)].
  destruct (py_str str_object (argument kw "message"))
    as [body | e] eqn:E3; [| handled e ltac:(right; from_str E3)].
  destruct (print _) as [[] | e] eqn:E4; [| handled e ltac:(left; from_str E4)].
  left. reflexivity.
Qed.

Lemma search_users_guarded :
  guarded SearchUsersTool
          [] ["email"; "subscription_status"; "account_type"]
          "Failed to search users: " (fun _ => False).
Proof.
  intros kw.
  pose proof (bind_arguments_accepts
                "SearchUsersTool.execute"
                [] ["email"; "subscription_status"; "account_type"] kw) as B.
  simpl execute. unfold search_users_execute.
  change search_users_params
    with ["email"; "subscription_status"; "account_type"].
  destruct (accepts _ _ kw); [| destruct B as [msg ->]; exists msg; reflexivity].
  rewrite B. left. reflexivity.
Qed.

Lemma get_user_details_guarded :
  guarded (GetUserDetailsTool str_object) ["user_id"] []
          "Failed to get user details: " (raised_by_str str_object).
Proof.
  intros kw.
  pose proof (bind_arguments_accepts
                "GetUserDetailsTool.execute" ["user_id"] [] kw) as B.
  simpl execute. unfold get_user_details_execute.
  destruct (accepts _ _ kw); [| destruct B as [msg ->]; exists msg; reflexivity].
  rewrite B. unfold try_except. cbv beta iota delta [bind].
  destruct (py_str str_object (argument kw "user_id"))
    as [user | e] eqn:E1; [| handled e ltac:(from_str E1)].
  left. reflexivity.
Qed.

Lemma update_subscription_guarded :
  guarded (UpdateSubscriptionTool str_object)
          ["user_id"; "action"] ["new_plan"]
          "Failed to update subscription: " (raised_by_str str_object).
Proof.
  intros kw.
  pose proof (bind_arguments_accepts
                "UpdateSubscriptionTool.execute"
                ["user_id"; "action"] ["new_plan"] kw) as B.
  simpl execute. unfold update_subscription_execute.
  destruct (accepts _ _ kw); [| destruct B as [msg ->]; exists msg; reflexivity].
  rewrite B. unfold try_except. cbv beta iota delta [bind].
  destruct (py_str str_object (argument kw "action"))
    as [act | e] eqn:E1; [| handled e ltac:(from_str E1)].
  destruct (py_str str_object (argument kw "user_id"))
    as [user | e] eqn:E2; [| handled e ltac:(from_str E2)].
  destruct (py_truthy (argument kw "new_plan")); [| left; reflexivity].
  destruct (py_str str_object (argument kw "new_plan"))
    as [plan | e] eqn:E3; [| handled e ltac:(from_str E3)].
  left. reflexivity.
Qed.

(** X13. Each tool of [get_tools] raises the [TypeError] of the call
    exactly when the keywords do not bind to its signature.  With keywords
    that bind, its [try] block lets no exception derived from [Exception]
    out: the tool returns a success, or the failed result of its [except]
    branch, whose message is the tool's own text followed by [str(e)], for
    an exception [e] raised by [print] or by [str] of an argument; an
    exception outside [Exception] leaves the tool.  [search_users], whose
    body neither prints nor formats an argument, always succeeds. *)
Theorem repo_tools_are_guarded :
  guarded (NotifyCustomerTool print str_object)
          ["user_id"; "message"; "notification_type"] []
          "Failed to send notification: "
          (fun e => raised_by_print print e \/ raised_by_str str_object e)
  /\ guarded SearchUsersTool
             [] ["email"; "subscription_status"; "account_type"]
             "Failed to search users: " (fun _ => False)
  /\ guarded (GetUserDetailsTool str_object) ["user_id"] []
             "Failed to get user details: " (raised_by_str str_object)
  /\ guarded (UpdateSubscriptionTool str_object)
             ["user_id"; "action"] ["new_plan"]
             "Failed to update subscription: " (raised_by_str str_object).
Proof.
  split; [exact notify_customer_guarded |].
  split; [exact search_users_guarded |].
  split; [exact get_user_details_guarded | exact update_subscription_guarded].
Qed.

End RepositoryTools.

(** ** The registry and the tool turns of the repository's agent *)

Section RepositoryAgent.

Variable print : string -> outcome unit.
Variable str_object : pyval -> outcome string.
Variable loads : string -> outcome pyval.

Lemma register_values (l : list Tool) (k : string) (t : Tool) :
  forall d,
    dict_get (register d l) k = Some t ->
    In t l \/ dict_get d k = Some t.
Proof.
  induction l as [| t0 l IH]; intros d H.
  - right. exact H.
  - rewrite register_cons in H. apply IH in H. destruct H as [H | H].
    + left. right. exact H.
    + destruct (String.eqb (name t0) k) eqn:E.
      * apply String.eqb_eq in E. subst k.
        rewrite dict_get_set_same in H. injection H as <-.
        left. left. reflexivity.
      * apply String.eqb_neq in E.
        rewrite (dict_get_set_other d _ _ t0 E) in H. right. exact H.
Qed.

(** X14. A list of tools with pairwise distinct names is registered as it
    is: the registry holds the tools in the order of the list, and the
    schemas advertised to the model are those of the list, in its order. *)
Theorem distinct_names_keep_order (l : list Tool) (opts : AgentOptions) :
  NoDup (map name l) ->
  tools (init l opts) = map (fun t => (name t, t)) l
  /\ functions (init l opts) = map to_function_schema l.
Proof.
  intros H.
  assert (E : tools (init l opts) = map (fun t => (name t, t)) l).
  { simpl. unfold dict_of_pairs.
    apply (fold_dict_set_distinct (map (fun t => (name t, t)) l) []).
    simpl. unfold dict_keys. rewrite map_map. simpl. exact H. }
  split; [exact E |].
  unfold functions, dict_values. rewrite E, !map_map. reflexivity.
Qed.

Lemma in_get_tools (t : Tool) :
  In t (get_tools print str_object) ->
  t = NotifyCustomerTool print str_object \/ t = SearchUsersTool
  \/ t = GetUserDetailsTool str_object
  \/ t = UpdateSubscriptionTool str_object.
Proof.
  intros [<- | [<- | [<- | [<- | []]]]]; tauto.
Qed.

Lemma json_value_serializable (v : pyval) :
  json_value v = true -> serializable v = true.
Proof.
  intros H. destruct (json_value_accepted (size v)) as [A _].
  apply (A v (Nat.le_refl _) H).
Qed.

Lemma argument_serializable (kw : list (string * pyval)) (p : string) :
  forallb (fun kv => json_value (snd kv)) kw = true ->
  serializable (argument kw p) = true.
Proof.
  unfold argument. induction kw as [| [k v] kw IH]; simpl; intros H.
  - reflexivity.
  - apply andb_true_iff in H. destruct H as [Hv Hr].
    destruct (String.eqb k p);
      [apply json_value_serializable; exact Hv | apply IH; exact Hr].
Qed.

Lemma py_or_serializable (a b : pyval) :
  serializable a = true -> serializable b = true ->
  serializable (py_or a b) = true.
Proof. intros Ha Hb. unfold py_or. destruct (py_truthy a); assumption. Qed.

Lemma result_serializable (r : ToolResult) :
  serializable (data r) = true -> serializable (ToolResult_dict r) = true.
Proof.
  intros H. unfold ToolResult_dict. rewrite serializable_PyDict. simpl.
  rewrite H. destruct (success r); reflexivity.
Qed.

Lemma failed_result_serializable (text : string) (e : PyExc) :
  serializable (ToolResult_dict (failed_result text e)) = true.
Proof. apply result_serializable. reflexivity. Qed.

Hypothesis print_raises :
  forall text e, print text = Raised e -> is_Exception e = true.
Hypothesis str_raises :
  forall v e, str_object v = Raised e -> is_Exception e = true.
Hypothesis loads_raises :
  forall s e, loads s = Raised e -> is_Exception e = true.
Hypothesis loads_returns :
  forall s v, loads s = Returned v -> json_value v = true.

Lemma py_str_raises (v : pyval) (e : PyExc) :
  py_str str_object v = Raised e -> is_Exception e = true.
Proof.
  destruct v as [| [] | z | s | l | items | t | f | tl]; simpl;
    try discriminate; try apply str_raises.
  unfold int_str. destruct (within_digit_limit z); [discriminate |].
  intros H. injection H as <-. reflexivity.
Qed.

(** What a tool of the repository does with decoded keywords: it returns a
    result [json.dumps] accepts, or raises an exception derived from
    [Exception]. *)
Lemma repo_tool_outcome (t : Tool) (kw : list (string * pyval)) :
  In t (get_tools print str_object) ->
  forallb (fun kv => json_value (snd kv)) kw = true ->
  match execute t kw with
  | Returned r => serializable (ToolResult_dict r) = true
  | Raised e => is_Exception e = true
  end.
Proof.
  intros Hin Hkw.
  pose proof (argument_serializable kw) as A.
  assert (S : forall v e, py_str str_object v = Raised e ->
                          is_Exception e = true)
    by exact py_str_raises.
  apply in_get_tools in Hin.
  destruct Hin as [-> | [-> | [-> | ->]]]; simpl execute.
  - pose proof (bind_arguments_accepts
                  "NotifyCustomerTool.execute"
                  ["user_id"; "message"; "notification_type"] [] kw) as B.
    unfold notify_customer_execute.
    destruct (accepts _ _ kw); [| destruct B as [msg ->]; reflexivity].
    rewrite B. unfold try_except. cbv beta iota delta [bind].
    destruct (py_str str_object (argument kw "notification_type"))
      as [kind | e] eqn:E1;
      [| cbv beta iota; rewrite (S _ e E1);
         apply failed_result_serializable].
    destruct (py_str str_object (argument kw "user_id"))
      as [user | e] eqn:E2;
      [| cbv beta iota; rewrite (S _ e E2);
         apply failed_result_serializable].
    destruct (py_str str_object (argument kw "message"))
      as [body | e] eqn:E3;
      [| cbv beta iota; rewrite (S _ e E3);
         apply failed_result_serializable].
    destruct (print _) as [[] | e] eqn:E4;
      [| cbv beta iota; rewrite (print_raises _ e E4);
         apply failed_result_serializable].
    apply result_serializable. simpl data.
    rewrite serializable_PyDict. simpl.
    rewrite !A by exact Hkw. reflexivity.
  - pose proof (bind_arguments_accepts
                  "SearchUsersTool.execute"
                  [] ["email"; "subscription_status"; "account_type"] kw)
      as B.
    unfold search_users_execute.
    change search_users_params
      with ["email"; "subscription_status"; "account_type"].
    destruct (accepts _ _ kw); [| destruct B as [msg ->]; reflexivity].
    rewrite B. unfold try_except. cbv beta iota delta [bind].
    apply result_serializable. simpl data.
    rewrite serializable_PyDict. cbn [forallb snd].
    rewrite serializable_PyList. cbn [forallb].
    rewrite serializable_PyDict. cbn [forallb snd].
    rewrite !py_or_serializable; try reflexivity; apply A; exact Hkw.
  - pose proof (bind_arguments_accepts
                  "GetUserDetailsTool.execute" ["user_id"] [] kw) as B.
    unfold get_user_details_execute.
    destruct (accepts _ _ kw); [| destruct B as [msg ->]; reflexivity].
    rewrite B. unfold try_except. cbv beta iota delta [bind].
    destruct (py_str str_object (argument kw "user_id"))
      as [user | e] eqn:E1;
      [| cbv beta iota; rewrite (S _ e E1);
         apply failed_result_serializable].
    apply result_serializable. simpl data.
    rewrite serializable_PyDict. cbn [forallb snd].
    rewrite serializable_PyDict. cbn [forallb snd].
    rewrite !A by exact Hkw. reflexivity.
  - pose proof (bind_arguments_accepts
                  "UpdateSubscriptionTool.execute"
                  ["user_id"; "action"] ["new_plan"] kw) as B.
    unfold update_subscription_execute.
    destruct (accepts _ _ kw); [| destruct B as [msg ->]; reflexivity].
    rewrite B. unfold try_except. cbv beta iota delta [bind].
    assert (D : serializable
                  (PyDict [("user_id", argument kw "user_id");
                           ("action", argument kw "action");
                           ("new_plan", argument kw "new_plan");
                           ("effective_date", PyStr "2024-01-15T10:30:00Z")])
                = true).
    { rewrite serializable_PyDict. simpl.
      rewrite !A by exact Hkw. reflexivity. }
    destruct (py_str str_object (argument kw "action"))
      as [act | e] eqn:E1;
      [| cbv beta iota; rewrite (S _ e E1);
         apply failed_result_serializable].
    destruct (py_str str_object (argument kw "user_id"))
      as [user | e] eqn:E2;
      [| cbv beta iota; rewrite (S _ e E2);
         apply failed_result_serializable].
    destruct (py_truthy (argument kw "new_plan"));
      [| apply result_serializable; exact D].
    destruct (py_str str_object (argument kw "new_plan"))
      as [plan | e] eqn:E3;
      [| cbv beta iota; rewrite (S _ e E3);
         apply failed_result_serializable].
    apply result_serializable. exact D.
Qed.

Lemma registered_in_get_tools (opts : AgentOptions) (k : string) (t : Tool) :
  dict_get (tools (init (get_tools print str_object) opts)) k = Some t ->
  In t (get_tools print str_object).
Proof.
  intros Hl.
  change (tools (init (get_tools print str_object) opts))
    with (register [] (get_tools print str_object)) in Hl.
  apply register_values in Hl.
  destruct Hl as [Hl | Hl]; [exact Hl | discriminate Hl].
Qed.

Lemma repo_try_execute (t : Tool) (tool_call : ToolCall) :
  In t (get_tools print str_object) ->
  match try_execute loads t tool_call with
  | Returned r => serializable (ToolResult_dict r) = true
  | Raised e => is_Exception e = true
  end.
Proof.
  intros Hin. unfold try_execute. cbv beta iota delta [bind].
  destruct (loads (arguments (function tool_call))) as [args | e] eqn:L;
    [| exact (loads_raises _ e L)].
  apply loads_returns in L.
  destruct args as [| b | z | s | l | kw | ty | f | tl];
    try reflexivity.
  simpl execute_kwargs. apply repo_tool_outcome; [exact Hin |].
  change (json_value (PyDict kw))
    with (distinct_keys (map fst kw)
          && forallb (fun kv => json_value (snd kv)) kw) in L.
  apply andb_true_iff in L. apply L.
Qed.


End RepositoryAgent.

(** ** Scoring the tools a run used *)

Section Scoring.

Variable loads : string -> outcome pyval.
Variable create : Request -> outcome ChatCompletionMessage.
Variable self : AgentWhileLoop.

Lemma names_of_names (names : list string) :
  names_of (PyList (map PyStr names)) = Some names.
Proof.
  simpl. induction names as [| n names IH]; simpl; [| rewrite IH]; reflexivity.
Qed.

Lemma all_used_incl (expected_tools used_tools : list string) :
  all_used expected_tools used_tools = true <-> incl expected_tools used_tools.
Proof.
  unfold all_used, incl. rewrite forallb_forall. split.
  - intros H a Ha. apply existsb_eqb_In. apply H. exact Ha.
  - intros H a Ha. apply existsb_eqb_In. apply H. exact Ha.
Qed.

Lemma used_tools_missing (m : list (string * pyval)) :
  dict_get m "tools_used" = None -> used_tools_of (Some m) = PyList [].
Proof.
  intros H. destruct m as [| entry rest]; [reflexivity |].
  unfold used_tools_of. rewrite H. reflexivity.
Qed.

Lemma score_with_names
      (expected : list (string * pyval))
      (metadata : option (list (string * pyval)))
      (exp used : list string) :
  dict_get expected "tools_used" = Some (PyList (map PyStr exp)) ->
  used_tools_of metadata = PyList (map PyStr used) ->
  score_of (tool_usage_scorer (Some expected) metadata)
  = Some (if all_used exp used then 1 else 0).
Proof.
  intros He Hu. unfold tool_usage_scorer.
  destruct expected as [| entry rest]; [discriminate He |].
  rewrite He, Hu, !names_of_names. reflexivity.
Qed.

(** X16. On lists of names, the score of [tool_usage_scorer] is 1 when
    every expected tool occurs among the used ones and 0 otherwise: order,
    repetitions and further used tools do not matter, and metadata that is
    missing, empty or without a [tools_used] entry counts as no tool
    used. *)
Theorem scorer_checks_inclusion
        (expected : list (string * pyval))
        (metadata : option (list (string * pyval)))
        (exp used : list string) :
  dict_get expected "tools_used" = Some (PyList (map PyStr exp)) ->
  used_tools_of metadata = PyList (map PyStr used) ->
  (incl exp used ->
   score_of (tool_usage_scorer (Some expected) metadata) = Some 1)
  /\ (~ incl exp used ->
      score_of (tool_usage_scorer (Some expected) metadata) = Some 0)
  /\ (forall m,
         metadata = Some m -> dict_get m "tools_used" = None -> used = [])
  /\ (metadata = None -> used = []).
Proof.
  intros He Hu.
  rewrite (score_with_names expected metadata exp used He Hu).
  pose proof (all_used_incl exp used) as A.
  assert (Inj : forall l, PyList [] = PyList (map PyStr l) -> l = []).
  { intros [| x l] E; [reflexivity | discriminate E]. }
  repeat split.
  - intros I. apply A in I. rewrite I. reflexivity.
  - intros N. destruct (all_used exp used); [| reflexivity].
    exfalso. apply N. apply A. reflexivity.
  - intros m -> Hm. apply Inj. rewrite <- Hu.
    symmetry. apply used_tools_missing. exact Hm.
  - intros ->. apply Inj. rewrite <- Hu. reflexivity.
Qed.

Lemma used_tools_written (d : list (string * pyval)) (v : pyval) :
  dict_get d "tools_used" = Some v -> used_tools_of (Some d) = v.
Proof.
  intros H. destruct d as [| entry rest]; [discriminate H |].
  unfold used_tools_of. rewrite H. reflexivity.
Qed.

(** X17. After a run that returned an answer, the scorer applied to the
    metadata of the hooks gives 1 when every expected tool was requested
    by the model during the run, and 0 otherwise. *)
Theorem score_after_answer
        (query : string) (hooks : Hooks) (res : RunResult) (st : LoopState)
        (expected : list (string * pyval)) (exp : list string) :
  run_loop loads create self query = Returned st ->
  run loads create self query hooks = Returned res ->
  dict_get (metrics res) "max_iterations_reached" = None ->
  dict_get expected "tools_used" = Some (PyList (map PyStr exp)) ->
  (incl exp (requested_names (messages st)) ->
   score_of (tool_usage_scorer (Some expected)
                               (Some (metadata (hooks_after res))))
   = Some 1)
  /\ (~ incl exp (requested_names (messages st)) ->
      score_of (tool_usage_scorer (Some expected)
                                  (Some (metadata (hooks_after res))))
      = Some 0).
Proof.
  intros L H Hflag He.
  pose proof (run_loop_log loads create self query st L) as U.
  unfold run in H. rewrite L in H. simpl in H.
  apply finish_hooks in H. destruct H as [[_ Hm] | [C _]];
    [| rewrite C in Hflag; discriminate Hflag].
  rewrite <- U.
  rewrite (score_with_names expected _ exp (tools_used st) He
                            (used_tools_written _ _ Hm)).
  pose proof (all_used_incl exp (tools_used st)) as A.
  split.
  - intros I. apply A in I. rewrite I. reflexivity.
  - intros N. destruct (all_used exp (tools_used st)); [| reflexivity].
    exfalso. apply N. apply A. reflexivity.
Qed.

(** X18. After a run that returned the fallback, with hooks that had no
    [tools_used] entry, the scorer gives 0 for every expectation that
    names a tool, whatever tools the run used: the fallback leaves the
    hooks unwritten. *)
Theorem score_after_fallback_is_zero
        (query : string) (hooks : Hooks) (res : RunResult)
        (expected : list (string * pyval)) (exp : list string) :
  run loads create self query hooks = Returned res ->
  dict_get (metrics res) "max_iterations_reached" = Some 1 ->
  dict_get (metadata hooks) "tools_used" = None ->
  dict_get expected "tools_used" = Some (PyList (map PyStr exp)) ->
  exp <> [] ->
  score_of (tool_usage_scorer (Some expected)
                              (Some (metadata (hooks_after res))))
  = Some 0.
Proof.
  intros H Hflag Hh He Hne.
  unfold run in H. bind_inv H. rename a into st.
  apply finish_hooks in H. destruct H as [[C _] | (_ & _ & Hk)];
    [rewrite C in Hflag; discriminate Hflag |].
  rewrite Hk.
  rewrite (score_with_names expected (Some (metadata hooks)) exp []).
  - destruct exp as [| e exp']; [contradiction | reflexivity].
  - exact He.
  - apply used_tools_missing. exact Hh.
Qed.

End Scoring.

(** ** The further properties at concrete runs *)

Lemma transcript_starts_with_prompt_and_query_witness :
  exists st',
    run_loop loads_covered search_then_done
             (create_customer_service_agent quiet_print plain_str_object) "Find users"
    = Returned st'
    /\ exists msgs,
      messages st'
      = ([MsgDict [("role", PyStr "system"); ("content", PyStr SYSTEM_PROMPT)];
          MsgDict [("role", PyStr "user"); ("content", PyStr "Find users")]]
           ++ msgs)%list.
Proof.
  destruct (run_loop loads_covered search_then_done
                     (create_customer_service_agent quiet_print plain_str_object)
                     "Find users")
    as [st' | e] eqn:E; [| vm_compute in E; discriminate E].
  exists st'. split; [reflexivity |].
  destruct (transcript_starts_with_prompt_and_query
              loads_covered search_then_done
              (create_customer_service_agent quiet_print plain_str_object)
              "Find users" st' E) as (msgs & Hm & _ & _).
  exists msgs. exact Hm.
Defined.

Lemma tools_used_is_request_log_witness :
  exists st',
    run_loop loads_covered search_then_done (search_agent 2) "Find users"
    = Returned st'
    /\ tools_used st' = requested_names (messages st')
    /\ forall res,
        run loads_covered search_then_done (search_agent 2) "Find users"
            dataset_metadata = Returned res ->
        dict_get (metrics res) "max_iterations_reached" = None ->
        dict_get (metadata (hooks_after res)) "tools_used"
        = Some (PyList (map PyStr (requested_names (messages st')))).
Proof.
  destruct (run_loop loads_covered search_then_done (search_agent 2) "Find users")
    as [st' | e] eqn:E; [| vm_compute in E; discriminate E].
  exists st'. split; [reflexivity |].
  apply (tools_used_is_request_log
           loads_covered search_then_done (search_agent 2) "Find users"
           dataset_metadata st' E).
Defined.

Lemma tool_messages_follow_requests_witness :
  exists st',
    for_tool_calls loads_covered (search_agent 2) three_calls
                   (initial_state (search_agent 2) "Find users")
    = Returned st'
    /\ exists msgs,
      messages st'
      = (messages (initial_state (search_agent 2) "Find users") ++ msgs)%list
      /\ tool_messages_for loads_covered (search_agent 2) three_calls msgs
      /\ map message_tool_call_id msgs
         = [Some "call_1"; Some "call_9"; Some "call_2"].
Proof.
  destruct (for_tool_calls loads_covered (search_agent 2) three_calls
                           (initial_state (search_agent 2) "Find users"))
    as [st' | e] eqn:E; [| vm_compute in E; discriminate E].
  exists st'. split; [reflexivity |].
  apply (tool_messages_follow_requests
           loads_covered (search_agent 2) three_calls
           (initial_state (search_agent 2) "Find users") st' E).
Defined.

Lemma model_failure_propagates_witness :
  loop_guard (search_agent 1) (initial_state (search_agent 1) "Find users")
  = true
  /\ while_loop loads_covered unreachable_client (search_agent 1) 1
                (initial_state (search_agent 1) "Find users")
     = Raised connection_error.
Proof.
  split; [reflexivity |].
  apply (model_failure_propagates
           loads_covered unreachable_client (search_agent 1) 0
           (initial_state (search_agent 1) "Find users") connection_error
           eq_refl eq_refl).
Defined.

Lemma quiet_print_raises (text : string) (e : PyExc) :
  quiet_print text = Raised e -> is_Exception e = true.
Proof. discriminate. Qed.

Lemma plain_str_object_raises (v : pyval) (e : PyExc) :
  plain_str_object v = Raised e -> is_Exception e = true.
Proof. discriminate. Qed.

Lemma tool_turns_fail_two_ways_witness :
  for_tool_calls loads_covered export_agent
                 [search_call "call_4" "{}"; export_call]
                 (initial_state export_agent "Export the report")
  = Raised CancelledError
  /\ exists tc,
    In tc [search_call "call_4" "{}"; export_call]
    /\ ((exists t,
           dict_get (tools export_agent) (call_name tc) = Some t
           /\ try_execute loads_covered t tc = Raised CancelledError
           /\ is_Exception CancelledError = false)
        \/ (exists r,
              _execute_tool loads_covered export_agent tc = Returned r
              /\ json_dumps (ToolResult_dict r) = Raised CancelledError)).
Proof.
  assert (E : for_tool_calls loads_covered export_agent
                             [search_call "call_4" "{}"; export_call]
                             (initial_state export_agent "Export the report")
              = Raised CancelledError) by (vm_compute; reflexivity).
  split; [exact E |].
  apply (tool_turns_fail_two_ways
           loads_covered export_agent
           [search_call "call_4" "{}"; export_call]
           (initial_state export_agent "Export the report")
           CancelledError E).
Defined.

Lemma loop_raises_only_model_errors_witness :
  run_loop loads_covered fails_after_one_call
           (create_customer_service_agent quiet_print plain_str_object)
           "Find users"
  = Raised connection_error
  /\ exists rounds st,
    while_loop loads_covered fails_after_one_call
               (create_customer_service_agent quiet_print plain_str_object)
               rounds
               (initial_state
                  (create_customer_service_agent quiet_print plain_str_object)
                  "Find users")
    = Returned st
    /\ loop_guard
         (create_customer_service_agent quiet_print plain_str_object) st
       = true
    /\ _get_llm_response
         fails_after_one_call
         (create_customer_service_agent quiet_print plain_str_object)
         (messages st)
       = Raised connection_error.
Proof.
  assert (E : run_loop loads_covered fails_after_one_call
                       (create_customer_service_agent
                          quiet_print plain_str_object)
                       "Find users"
              = Raised connection_error) by (vm_compute; reflexivity).
  split; [exact E |].
  assert (O : forall tc t,
             dict_get (tools (create_customer_service_agent
                                quiet_print plain_str_object))
                      (call_name tc) = Some t ->
             match try_execute loads_covered t tc with
             | Returned r => serializable (ToolResult_dict r) = true
             | Raised e => is_Exception e = true
             end).
  { intros tc t Hl.
    apply (repo_try_execute
             quiet_print plain_str_object loads_covered
             quiet_print_raises plain_str_object_raises
             loads_covered_raises loads_covered_returns).
    apply (registered_in_get_tools
             quiet_print plain_str_object
             (options (create_customer_service_agent
                         quiet_print plain_str_object))
             (call_name tc) t Hl). }
  apply (loop_raises_only_model_errors
           loads_covered fails_after_one_call
           (create_customer_service_agent quiet_print plain_str_object)
           "Find users" connection_error).
  - intros tc t r Hl Ht. specialize (O tc t Hl). rewrite Ht in O.
    unfold serializable in O.
    destruct (encode (ToolResult_dict r)); [discriminate | discriminate O].
  - intros tc t e' Hl Ht. specialize (O tc t Hl). rewrite Ht in O. exact O.
  - exact E.
Defined.

Lemma fallback_means_cap_reached_witness :
  run loads_covered search_then_empty (search_agent 2) "Find users"
      dataset_metadata = Returned fallback_result
  /\ exists st front m,
    run_loop loads_covered search_then_empty (search_agent 2) "Find users"
    = Returned st
    /\ messages st = (front ++ [MsgObj m])%list
    /\ tool_calls_truthy (tool_calls m) = false
    /\ content_truthy (content m) = false
    /\ done st = false
    /\ iteration st = 2
    /\ output fallback_result = fallback_message (search_agent 2)
    /\ hooks_after fallback_result = dataset_metadata
    /\ metrics fallback_result
       = [("total_iterations", 2); ("max_iterations_reached", 1)].
Proof.
  assert (E : run loads_covered search_then_empty (search_agent 2) "Find users"
                  dataset_metadata = Returned fallback_result)
    by (vm_compute; reflexivity).
  split; [exact E |].
  apply (fallback_means_cap_reached
           loads_covered search_then_empty (search_agent 2) "Find users"
           dataset_metadata fallback_result E eq_refl).
Defined.

Lemma answer_means_done_witness :
  run loads_covered search_then_done (search_agent 2) "Find users"
      dataset_metadata = Returned answer_result
  /\ exists st front m,
    run_loop loads_covered search_then_done (search_agent 2) "Find users"
    = Returned st
    /\ messages st = (front ++ [MsgObj m])%list
    /\ tool_calls_truthy (tool_calls m) = false
    /\ content_truthy (content m) = true
    /\ done st = true
    /\ 1 <= iteration st <= 2
    /\ answer_text (content m) = Returned "Done."
    /\ metrics answer_result = [("total_iterations", iteration st)]
    /\ metadata (hooks_after answer_result)
       = dict_set (metadata dataset_metadata) "tools_used"
                  (PyList (map PyStr (tools_used st))).
Proof.
  assert (E : run loads_covered search_then_done (search_agent 2) "Find users"
                  dataset_metadata = Returned answer_result)
    by (vm_compute; reflexivity).
  split; [exact E |].
  apply (answer_means_done
           loads_covered search_then_done (search_agent 2) "Find users"
           dataset_metadata answer_result E eq_refl).
Defined.

Lemma zero_cap_raises_witness :
  max_iterations (options (search_agent 0)) <= 0
  /\ run loads_covered always_search (search_agent 0) "Find users" no_hooks
     = Raised (AttributeError "role").
Proof.
  assert (H : max_iterations (options (search_agent 0)) <= 0)
    by (vm_compute; discriminate).
  split; [exact H |].
  apply (proj2 (zero_cap_raises
                  loads_covered always_search (search_agent 0) "Find users"
                  no_hooks H)).
Defined.

Lemma parts_answer_is_joined_witness :
  run loads_covered (scripted [parts_message]) (search_agent 1) "Find users"
      no_hooks
  = Returned {| output := "Done.";
                hooks_after :=
                  {| metadata := [("tools_used", PyList [])] |};
                metrics := [("total_iterations", 1)] |}.
Proof.
  apply (parts_answer_is_joined
           loads_covered (scripted [parts_message]) (search_agent 1)
           "Find users" no_hooks parts_message two_parts).
  - vm_compute. discriminate.
  - reflexivity.
  - reflexivity.
  - reflexivity.
  - discriminate.
  - reflexivity.
Defined.


Lemma dumps_is_printable_ascii_witness :
  json_dumps accented = Returned accented_json
  /\ printable accented_json = true.
Proof.
  split; [reflexivity |].
  apply (dumps_is_printable_ascii accented accented_json eq_refl).
Defined.

Lemma distinct_names_keep_order_witness :
  NoDup (map name (get_tools quiet_print plain_str_object))
  /\ tools (create_customer_service_agent quiet_print plain_str_object)
     = map (fun t => (name t, t)) (get_tools quiet_print plain_str_object)
  /\ functions (create_customer_service_agent quiet_print plain_str_object)
     = map to_function_schema (get_tools quiet_print plain_str_object).
Proof.
  assert (H : NoDup (map name (get_tools quiet_print plain_str_object)))
    by (apply distinct_keys_NoDup; reflexivity).
  split; [exact H |].
  apply (distinct_names_keep_order
           (get_tools quiet_print plain_str_object)
           (options (create_customer_service_agent quiet_print plain_str_object)) H).
Defined.


(** A tool of the repository with the standard output closed: [print]
    raises inside the [try] block, and the tool returns the failed result
    of its [except] branch. *)
Lemma notify_fails_when_print_raises :
  execute (NotifyCustomerTool closed_stdout_print plain_str_object)
          notify_keywords
  = Returned {| success := false;
                message :=
                  "Failed to send notification: I/O operation on closed file.";
                data := PyNone |}.
Proof. reflexivity. Qed.

Lemma scorer_checks_inclusion_witness :
  score_of (tool_usage_scorer
              (Some (expects ["get_user_details"]))
              (Some [("tools_used",
                      PyList [PyStr "search_users"; PyStr "get_user_details";
                              PyStr "search_users"])]))
  = Some 1.
Proof.
  apply (proj1 (scorer_checks_inclusion
                  (expects ["get_user_details"])
                  (Some [("tools_used",
                          PyList [PyStr "search_users";
                                  PyStr "get_user_details";
                                  PyStr "search_users"])])
                  ["get_user_details"]
                  ["search_users"; "get_user_details"; "search_users"]
                  eq_refl eq_refl)).
  intros a [<- | []]. right. left. reflexivity.
Defined.

Lemma score_after_answer_witness :
  run loads_covered search_then_done (search_agent 2) "Find users"
      dataset_metadata = Returned answer_result
  /\ score_of (tool_usage_scorer
                 (Some (expects ["search_users"]))
                 (Some (metadata (hooks_after answer_result))))
     = Some 1.
Proof.
  assert (E : run loads_covered search_then_done (search_agent 2) "Find users"
                  dataset_metadata = Returned answer_result)
    by (vm_compute; reflexivity).
  split; [exact E |].
  destruct (run_loop loads_covered search_then_done (search_agent 2) "Find users")
    as [st | e] eqn:L; [| vm_compute in L; discriminate L].
  apply (proj1 (score_after_answer
                  loads_covered search_then_done (search_agent 2) "Find users"
                  dataset_metadata answer_result st
                  (expects ["search_users"]) ["search_users"]
                  L E eq_refl eq_refl)).
  vm_compute in L. injection L as <-.
  intros a [<- | []]. left. reflexivity.
Defined.

Lemma score_after_fallback_is_zero_witness :
  run loads_covered search_then_empty (search_agent 2) "Find users"
      dataset_metadata = Returned fallback_result
  /\ score_of (tool_usage_scorer
                 (Some (expects ["search_users"]))
                 (Some (metadata (hooks_after fallback_result))))
     = Some 0.
Proof.
  assert (E : run loads_covered search_then_empty (search_agent 2) "Find users"
                  dataset_metadata = Returned fallback_result)
    by (vm_compute; reflexivity).
  split; [exact E |].
  apply (score_after_fallback_is_zero
           loads_covered search_then_empty (search_agent 2) "Find users"
           dataset_metadata fallback_result
           (expects ["search_users"]) ["search_users"]
           E eq_refl eq_refl eq_refl).
  discriminate.
Defined.

(** ** The hooks and the registry *)

Section HooksAndRegistry.

Variable loads : string -> outcome pyval.
Variable create : Request -> outcome ChatCompletionMessage.
Variable self : AgentWhileLoop.

(** X19. A returning [run] touches no entry of the hooks' metadata other
    than [tools_used]: every other key has afterwards the value it had
    before, in the answer and in the fallback. *)
Theorem run_preserves_other_metadata
        (query : string) (hooks : Hooks) (res : RunResult) (k : string) :
  run loads create self query hooks = Returned res ->
  k <> "tools_used" ->
  dict_get (metadata (hooks_after res)) k = dict_get (metadata hooks) k.
Proof.
  intros H N. unfold run in H. bind_inv H. rename a into st.
  unfold finish in H. bind_inv H. bind_inv H. destruct a0.
  - bind_inv H. bind_inv H. injection H as <-. simpl.
    apply dict_get_set_other. congruence.
  - injection H as <-. reflexivity.
Qed.

Lemma find_snoc {A : Type} (P : A -> bool) (l : list A) (a : A) :
  find P (l ++ [a])
  = match find P l with
    | Some x => Some x
    | None => if P a then Some a else None
    end.
Proof.
  induction l as [| b l IH]; simpl; [reflexivity |].
  destruct (P b); [reflexivity | exact IH].
Qed.

Lemma register_get (l : list Tool) (k : string) :
  forall d,
    dict_get (register d l) k
    = match find (fun t => String.eqb (name t) k) (rev l) with
      | Some t => Some t
      | None => dict_get d k
      end.
Proof.
  induction l as [| t l IH]; intros d.
  - reflexivity.
  - rewrite register_cons, IH. simpl rev. rewrite find_snoc.
    destruct (find (fun t0 => String.eqb (name t0) k) (rev l));
      [reflexivity |].
    destruct (String.eqb (name t) k) eqn:E.
    + apply String.eqb_eq in E. subst k. apply dict_get_set_same.
    + apply String.eqb_neq in E. apply dict_get_set_other. exact E.
Qed.

(** X20. Looking a name up in the registry gives the last tool of the
    construction list that has this name, and nothing when no tool of the
    list has it. *)
Theorem registry_lookup_is_last
        (l : list Tool) (opts : AgentOptions) (k : string) :
  dict_get (tools (init l opts)) k
  = find (fun t => String.eqb (name t) k) (rev l).
Proof.
  change (tools (init l opts)) with (register [] l).
  rewrite register_get.
  destruct (find (fun t => String.eqb (name t) k) (rev l)); reflexivity.
Qed.

End HooksAndRegistry.

Lemma run_preserves_other_metadata_witness :
  run loads_covered search_then_done (search_agent 2) "Find users"
      dataset_metadata = Returned answer_result
  /\ dict_get (metadata (hooks_after answer_result)) "category"
     = dict_get (metadata dataset_metadata) "category".
Proof.
  assert (E : run loads_covered search_then_done (search_agent 2) "Find users"
                  dataset_metadata = Returned answer_result)
    by (vm_compute; reflexivity).
  split; [exact E |].
  apply (run_preserves_other_metadata
           loads_covered search_then_done (search_agent 2) "Find users"
           dataset_metadata answer_result "category" E).
  discriminate.
Defined.
